(** * Privacy and access-control core of the hospital records system

  A shallow embedding of [core/encryption.py], [core/auth.py],
  [core/logger.py], [core/gdpr.py], [core/validators.py], the patient
  functions of [core/database.py], [mass_anonymization.py] and the
  diagnosis column of [pages/3_Dashboard_Doctor.py], together with the
  part of the Python run time and of SQLite those modules rely on, and
  the properties of the specification proved (or refuted) over it. *)

From Stdlib Require Import ZArith List Lia Bool Ascii String.
From Stdlib Require Import Strings.Byte.
From stdpp Require Import base option list strings gmap.
Import ListNotations.

Local Open Scope Z_scope.

(** * Python values *)

(** A Python [str] is a sequence of code points.  Python admits every
  code point in [0, 0x10FFFF], lone surrogates included; what the
  codecs refuse is decided in [utf8_encode], not here. *)
Abbreviation str := (list Z).

(** A [bytes] object. *)
Abbreviation bytes := (list byte).

Definition byte_to_Z (b : byte) : Z := Z.of_N (Byte.to_N b).

Definition byte_of_Z (z : Z) : byte :=
match Byte.of_N (Z.to_N z) with
| Some b => b
| None => x00
end.

(** An ASCII literal of the source as a [str]. *)
Definition lit (s : string) : str :=
List.map (fun a => Z.of_N (N_of_ascii a)) (list_ascii_of_string s).

Definition str_eqb (a b : str) : bool := bool_decide (a = b).

(** The ASCII part of [str.isdigit], which is all that [int] and the examples need. *)
Definition ascii_isdigit (c : Z) : bool := (48 <=? c) && (c <=? 57).

(** * [core/encryption.py]: contact masking *)

Module Masking.
Section WithDigits.

(** [str.isdigit] on one character: the Unicode property
    Numeric_Type in {Digit, Decimal}.  The table is the interpreter's;
    nothing below depends on which characters it holds. *)
Variable isdigit : Z -> bool.

Definition MASK : Z := 88.  (* 'X' *)

(** One iteration of the loop of lines 90-98: the state is
    [(masked_chars, digit_count)]. *)
Definition mask_iter (st : list Z * Z) (ch : Z) : list Z * Z :=
  let '(masked_chars, digit_count) := st in
  if isdigit ch then
    let digit_count := digit_count + 1 in
    if digit_count <=? 4
    then (masked_chars ++ [ch], digit_count)
    else (masked_chars ++ [MASK], digit_count)
  else (masked_chars ++ [ch], digit_count).

(** [mask_contact].  Lines 82-83 bind [digits] and [last4], which are
    never read afterwards; [re.findall] on a [str] cannot raise. *)
Definition mask_contact (contact : str) : str :=
  match contact with
  | [] => []                                   (* if not contact *)
  | _ =>
      let '(masked_chars, _) :=
        fold_left mask_iter (rev contact) ([], 0) in
      rev masked_chars
  end.

(** Number of digits of a string. *)
Definition count_digits (s : str) : Z :=
  Z.of_nat (List.length (List.filter isdigit s)).

(** Number of digits strictly to the right of position [i]. *)
Definition digits_right_of (i : nat) (s : str) : Z :=
  count_digits (skipn (S i) s).

(** The loop seen from the right end: masking the tail first. *)
Fixpoint mask_right (s : str) : list Z * Z :=
  match s with
  | [] => ([], 0)
  | ch :: t =>
      let '(t', seen) := mask_right t in
      if isdigit ch
      then (if seen + 1 <=? 4 then ch :: t' else MASK :: t', seen + 1)
      else (ch :: t', seen)
  end.

End WithDigits.
End Masking.

(** * The Python run time the modules rely on *)

(** ** Exceptions and outcomes *)

(** The exception classes that can reach the modelled code.  They are
    all subclasses of [Exception], so [except Exception] catches each. *)
Inductive exn : Type :=
| UnicodeEncodeError    (* str.encode, and binding a str to a SQL parameter *)
| UnicodeDecodeError    (* bytes.decode *)
| ValueError            (* int(), unpacking, binascii.Error, pbkdf2_hmac *)
| TypeError
| KeyError
| OverflowError         (* datetime arithmetic out of range *)
| InvalidToken          (* cryptography.fernet.InvalidToken *)
| OperationalError      (* sqlite3.OperationalError: the storage layer failed *)
| OSError.              (* file I/O on the settings file *)

Inductive result (A : Type) : Type :=
| Ok (a : A)
| Raise (e : exn).
Arguments Ok {A} a.
Arguments Raise {A} e.

Definition of_option {A} (e : exn) (o : option A) : result A :=
  match o with
  | Some a => Ok a
  | None => Raise e
  end.

(** ** The UTF-8 codec *)

Module Utf8.

Definition is_surrogate (c : Z) : bool := (55296 <=? c) && (c <=? 57343).

(** [ch.encode()] for one code point; [None] is [UnicodeEncodeError]
    (a surrogate), or a value that is no code point at all. *)
Definition encode_char (c : Z) : option bytes :=
  if c <? 0 then None
  else if c <? 128 then Some [byte_of_Z c]
  else if c <? 2048 then
    Some [byte_of_Z (192 + c / 64); byte_of_Z (128 + c mod 64)]
  else if c <? 65536 then
    if is_surrogate c then None
    else Some [byte_of_Z (224 + c / 4096);
               byte_of_Z (128 + (c / 64) mod 64);
               byte_of_Z (128 + c mod 64)]
  else if c <? 1114112 then
    Some [byte_of_Z (240 + c / 262144);
          byte_of_Z (128 + (c / 4096) mod 64);
          byte_of_Z (128 + (c / 64) mod 64);
          byte_of_Z (128 + c mod 64)]
  else None.

(** [s.encode()], strict error handler. *)
Fixpoint encode (s : str) : option bytes :=
  match s with
  | [] => Some []
  | c :: t =>
      match encode_char c, encode t with
      | Some b, Some bt => Some (b ++ bt)
      | _, _ => None
      end
  end.

Definition is_cont (z : Z) : bool := (128 <=? z) && (z <? 192).

(** [b.decode()], strict: overlong forms, surrogates, values above
    0x10FFFF and truncated sequences are refused ([None] is
    [UnicodeDecodeError]). *)
Fixpoint decode (bs : bytes) : option str :=
  match bs with
  | [] => Some []
  | b0 :: t =>
      let z0 := byte_to_Z b0 in
      if z0 <? 128 then option_map (cons z0) (decode t)
      else if z0 <? 194 then None
      else if z0 <? 224 then
        match t with
        | b1 :: t1 =>
            let z1 := byte_to_Z b1 in
            if is_cont z1
            then option_map (cons ((z0 - 192) * 64 + (z1 - 128))) (decode t1)
            else None
        | _ => None
        end
      else if z0 <? 240 then
        match t with
        | b1 :: b2 :: t2 =>
            let z1 := byte_to_Z b1 in
            let z2 := byte_to_Z b2 in
            let c := (z0 - 224) * 4096 + (z1 - 128) * 64 + (z2 - 128) in
            if is_cont z1 && is_cont z2 && (2048 <=? c) && negb (is_surrogate c)
            then option_map (cons c) (decode t2)
            else None
        | _ => None
        end
      else if z0 <? 245 then
        match t with
        | b1 :: b2 :: b3 :: t3 =>
            let z1 := byte_to_Z b1 in
            let z2 := byte_to_Z b2 in
            let z3 := byte_to_Z b3 in
            let c := (z0 - 240) * 262144 + (z1 - 128) * 4096
                     + (z2 - 128) * 64 + (z3 - 128) in
            if is_cont z1 && is_cont z2 && is_cont z3
               && (65536 <=? c) && (c <? 1114112)
            then option_map (cons c) (decode t3)
            else None
        | _ => None
        end
      else None
  end.

(** The strings [encode] accepts: sequences of Unicode scalar values. *)
Definition scalar (c : Z) : bool :=
  (0 <=? c) && (c <? 1114112) && negb (is_surrogate c).

Definition encodable (s : str) : bool := forallb scalar s.

End Utf8.

(** Bytes below 128 are their own encoding. *)
Definition ascii_bytes (bs : bytes) : Prop :=
  Forall (fun b => byte_to_Z b < 128) bs.

(** ** [binascii.hexlify], [binascii.unhexlify] *)

Module Hex.

Definition digit (d : Z) : Z := if d <? 10 then 48 + d else 87 + d.

(** [binascii.hexlify(b).decode()]: two lower-case digits per byte. *)
Fixpoint hexlify (b : bytes) : str :=
  match b with
  | [] => []
  | x :: t => digit (byte_to_Z x / 16) :: digit (byte_to_Z x mod 16) :: hexlify t
  end.

Definition value (c : Z) : option Z :=
  if (48 <=? c) && (c <=? 57) then Some (c - 48)
  else if (97 <=? c) && (c <=? 102) then Some (c - 87)
  else if (65 <=? c) && (c <=? 70) then Some (c - 55)
  else None.

(** [binascii.unhexlify(s)] on a [str]: [None] is [binascii.Error] or
    [ValueError] (odd length, a character that is no hex digit, a
    character outside ASCII). *)
Fixpoint unhexlify (s : str) : option bytes :=
  match s with
  | [] => Some []
  | h :: l :: t =>
      match value h, value l, unhexlify t with
      | Some a, Some b, Some r => Some (byte_of_Z (16 * a + b) :: r)
      | _, _, _ => None
      end
  | [_] => None
  end.

End Hex.

(** ** [str.strip] *)

(** [str.isspace] on one character. *)
Definition py_isspace (c : Z) : bool :=
  ((9 <=? c) && (c <=? 13)) || ((28 <=? c) && (c <=? 32))
  || (c =? 133) || (c =? 160) || (c =? 5760)
  || ((8192 <=? c) && (c <=? 8202))
  || (c =? 8232) || (c =? 8233) || (c =? 8239) || (c =? 8287) || (c =? 12288).

Fixpoint py_lstrip (s : str) : str :=
  match s with
  | [] => []
  | c :: t => if py_isspace c then py_lstrip t else s
  end.

(** [s.strip()] *)
Definition py_strip (s : str) : str := rev (py_lstrip (rev (py_lstrip s))).

(** ** Decimal integers: [str(n)] and [int(s)] *)

Module Dec.

Fixpoint digits (fuel : nat) (n : Z) (acc : str) : str :=
  match fuel with
  | O => acc
  | S f =>
      let acc := (48 + n mod 10) :: acc in
      if n <? 10 then acc else digits f (n / 10) acc
  end.

(** [str(n)], also what an f-string writes for an [int]. *)
Definition to_str (n : Z) : str :=
  if n <? 0
  then 45 :: digits (S (Z.to_nat (Z.log2 (- n)))) (- n) []
  else digits (S (Z.to_nat (Z.log2 n))) n [].

(** The digits of an integer literal: ASCII digits, single underscores
    allowed between two digits. *)
Fixpoint parse_digits (s : str) (acc : Z) (after_digit : bool) : option Z :=
  match s with
  | [] => if after_digit then Some acc else None
  | c :: t =>
      if ascii_isdigit c then parse_digits t (10 * acc + (c - 48)) true
      else if (c =? 95) && after_digit then parse_digits t acc false
      else None
  end.

(** [int(s)] in base ten; [None] is [ValueError].  Decimal digits of
    other scripts, which [int] also reads, and the interpreter's limit
    on the number of digits are left out: neither occurs in an artifact
    written by [_hash_password]. *)
Definition of_str (s : str) : option Z :=
  match py_strip s with
  | 45 :: t => option_map Z.opp (parse_digits t 0 false)
  | 43 :: t => parse_digits t 0 false
  | t => parse_digits t 0 false
  end.

End Dec.

(** ** [str.split] with a one-character separator *)

Fixpoint split_on (sep : Z) (s : str) : list str :=
  match s with
  | [] => [[]]
  | c :: t =>
      if c =? sep then [] :: split_on sep t
      else match split_on sep t with
           | h :: r => (c :: h) :: r
           | [] => [[c]]
           end
  end.

(** ** [datetime]: naive timestamps, day arithmetic and [strftime] *)

Module Datetime.

Record datetime : Type := mk {
  year : Z; month : Z; day : Z;
  hour : Z; minute : Z; second : Z; microsecond : Z
}.

Definition is_leap (y : Z) : bool :=
  (y mod 4 =? 0) && (negb (y mod 100 =? 0) || (y mod 400 =? 0)).

Definition DAYS_IN_MONTH : list Z :=
  [-1; 31; 28; 31; 30; 31; 30; 31; 31; 30; 31; 30; 31].

Definition DAYS_BEFORE_MONTH : list Z :=
  [-1; 0; 31; 59; 90; 120; 151; 181; 212; 243; 273; 304; 334].

Definition days_before_year (y : Z) : Z :=
  let y := y - 1 in y * 365 + y / 4 - y / 100 + y / 400.

Definition days_in_month (y m : Z) : Z :=
  if (m =? 2) && is_leap y then 29 else nth (Z.to_nat m) DAYS_IN_MONTH 0.

Definition days_before_month (y m : Z) : Z :=
  nth (Z.to_nat m) DAYS_BEFORE_MONTH 0
  + (if (2 <? m) && is_leap y then 1 else 0).

Definition ymd2ord (y m d : Z) : Z :=
  days_before_year y + days_before_month y m + d.

Definition MAXORDINAL : Z := 3652059.

(** [_ord2ymd] of the interpreter's [datetime] module. *)
Definition ord2ymd (n : Z) : Z * Z * Z :=
  let n := n - 1 in
  let n400 := n / 146097 in let n := n mod 146097 in
  let year := n400 * 400 + 1 in
  let n100 := n / 36524 in let n := n mod 36524 in
  let n4 := n / 1461 in let n := n mod 1461 in
  let n1 := n / 365 in let n := n mod 365 in
  let year := year + n100 * 100 + n4 * 4 + n1 in
  if (n1 =? 4) || (n100 =? 4) then (year - 1, 12, 31)
  else
    let leapyear := (n1 =? 3) && (negb (n4 =? 24) || (n100 =? 3)) in
    let month := Z.shiftr (n + 50) 5 in
    let preceding :=
      nth (Z.to_nat month) DAYS_BEFORE_MONTH 0
      + (if (2 <? month) && leapyear then 1 else 0) in
    if n <? preceding then
      let month := month - 1 in
      let preceding :=
        preceding - (nth (Z.to_nat month) DAYS_IN_MONTH 0
                     + (if (month =? 2) && leapyear then 1 else 0)) in
      (year, month, n - preceding + 1)
    else (year, month, n - preceding + 1).

(** What the constructors of [date] and [time] check. *)
Definition valid_date (y m d : Z) : bool :=
  (1 <=? y) && (y <=? 9999) && (1 <=? m) && (m <=? 12)
  && (1 <=? d) && (d <=? days_in_month y m).


(** [t - timedelta(days=n)].  [timedelta] refuses more than 999999999
    days; the difference must be a day of the years 1 to 9999. *)
Definition sub_days (t : datetime) (n : Z) : result datetime :=
  if (n <? -999999999) || (999999999 <? n) then Raise OverflowError
  else
    let o := ymd2ord (year t) (month t) (day t) - n in
    if (0 <? o) && (o <=? MAXORDINAL) then
      let '(y, m, d) := ord2ymd o in
      if valid_date y m d
      then Ok (mk y m d (hour t) (minute t) (second t) (microsecond t))
      else Raise ValueError
    else Raise OverflowError.

Definition pad2 (n : Z) : str := [48 + (n / 10) mod 10; 48 + n mod 10].

Definition pad4 (n : Z) : str :=
  [48 + (n / 1000) mod 10; 48 + (n / 100) mod 10;
   48 + (n / 10) mod 10; 48 + n mod 10].

(** [t.strftime("%Y-%m-%d")], also what SQLite's [DATE('now')] writes. *)
Definition strfdate (t : datetime) : str :=
  pad4 (year t) ++ [45] ++ pad2 (month t) ++ [45] ++ pad2 (day t).

Definition strfclock (t : datetime) : str :=
  pad2 (hour t) ++ [58] ++ pad2 (minute t) ++ [58] ++ pad2 (second t).

(** [t.strftime("%Y-%m-%d %H:%M:%S")]; the year is written with four
    digits, as the library documents. *)
Definition strftime (t : datetime) : str :=
  strfdate t ++ [32] ++ strfclock t.

(** Lexicographic comparison of integer sequences. *)
Fixpoint lex (a b : list Z) : comparison :=
  match a, b with
  | [], [] => Eq
  | [], _ :: _ => Lt
  | _ :: _, [] => Gt
  | x :: a', y :: b' =>
      match x ?= y with
      | Eq => lex a' b'
      | c => c
      end
  end.

Definition fields (t : datetime) : list Z :=
  [year t; month t; day t; hour t; minute t; second t; microsecond t].

(** The order of [datetime] values: by year, month, ..., microsecond. *)
Definition compare (a b : datetime) : comparison := lex (fields a) (fields b).

Definition leb (a b : datetime) : bool :=
  match compare a b with Gt => false | _ => true end.

End Datetime.

(** SQLite compares TEXT values under the BINARY collation: byte by
    byte in UTF-8, a proper prefix first.  UTF-8 keeps the order of the
    code points, so the comparison is [lex] on the strings. *)
Definition text_leb (a b : str) : bool :=
  match Datetime.lex a b with Gt => false | _ => true end.

(** * The world the core runs in *)

(** A value read from a row, a JSON file or a [dict]. *)
Inductive pyval : Type :=
| PNone
| PInt (z : Z)
| PStr (s : str).

(** ** The three tables of [core/database.py] *)

Record user_row : Type := mk_user {
  u_user_id : Z; u_username : str; u_password : str; u_role : str
}.

Record patient_row : Type := mk_patient {
  p_patient_id : Z; p_name : str; p_contact : str; p_diagnosis : str;
  p_anonymized_name : str; p_anonymized_contact : str; p_date_added : str
}.

Record log_row : Type := mk_log {
  l_user_id : option Z; l_role : str; l_action : str;
  l_timestamp : str; l_details : str
}.

Record Database : Type := mk_db {
  users : list user_row;
  patients : list patient_row;
  logs : list log_row
}.

(** What the process writes to its standard output. *)
Inductive diagnostic : Type :=
| ConnectedTo                      (* get_connection: "Connected to: ..." *)
| LoggerError (e : exn).           (* log_action: "[LOGGER ERROR] ..." *)

(** Everything outside the interpreter.  [faults] is the behaviour of
    the storage layer: each call that reaches SQLite or the settings
    file takes the next flag, and [true] makes that call fail; when the
    list is used up every call succeeds.  [clock], [epoch] and [rng] are
    the successive answers of [datetime.now()], [time.time()] and
    [os.urandom]. *)
Record World : Type := mk_world {
  db : Database;
  settings_file : option (gmap string pyval);   (* data/gdpr_settings.json *)
  faults : list bool;
  clock : nat -> Datetime.datetime;
  epoch : nat -> Z;
  ticks : nat;
  rng : nat -> byte;
  drawn : nat;
  stdout : list diagnostic;
  cipher_calls : nat
}.

Definition set_db (w : World) (d : Database) : World :=
  mk_world d (settings_file w) (faults w) (clock w) (epoch w) (ticks w)
    (rng w) (drawn w) (stdout w) (cipher_calls w).

Definition set_settings_file (w : World) (f : option (gmap string pyval)) : World :=
  mk_world (db w) f (faults w) (clock w) (epoch w) (ticks w)
    (rng w) (drawn w) (stdout w) (cipher_calls w).

Definition set_faults (w : World) (f : list bool) : World :=
  mk_world (db w) (settings_file w) f (clock w) (epoch w) (ticks w)
    (rng w) (drawn w) (stdout w) (cipher_calls w).

Definition set_ticks (w : World) (n : nat) : World :=
  mk_world (db w) (settings_file w) (faults w) (clock w) (epoch w) n
    (rng w) (drawn w) (stdout w) (cipher_calls w).

Definition set_drawn (w : World) (n : nat) : World :=
  mk_world (db w) (settings_file w) (faults w) (clock w) (epoch w) (ticks w)
    (rng w) n (stdout w) (cipher_calls w).

Definition set_stdout (w : World) (o : list diagnostic) : World :=
  mk_world (db w) (settings_file w) (faults w) (clock w) (epoch w) (ticks w)
    (rng w) (drawn w) o (cipher_calls w).

Definition set_cipher_calls (w : World) (n : nat) : World :=
  mk_world (db w) (settings_file w) (faults w) (clock w) (epoch w) (ticks w)
    (rng w) (drawn w) (stdout w) n.

(** ** Computations: state and exceptions *)

Definition M (A : Type) : Type := World -> result A * World.

Definition ret {A} (a : A) : M A := fun w => (Ok a, w).

Definition raise {A} (e : exn) : M A := fun w => (Raise e, w).

Definition bind {A B} (m : M A) (k : A -> M B) : M B :=
  fun w =>
    match m w with
    | (Ok a, w') => k a w'
    | (Raise e, w') => (Raise e, w')
    end.

Notation "x <- m ;; k" := (bind m (fun x => k))
  (at level 100, m at next level, right associativity).
Notation "m ;;; k" := (bind m (fun _ => k))
  (at level 100, right associativity).

Definition lift {A} (r : result A) : M A := fun w => (r, w).

(** [try: m  except Exception as e: h e] *)
Definition try_except {A} (m : M A) (h : exn -> M A) : M A :=
  fun w =>
    match m w with
    | (Ok a, w') => (Ok a, w')
    | (Raise e, w') => h e w'
    end.

(** [try: m  finally: f] *)
Definition try_finally {A} (m : M A) (f : M unit) : M A :=
  fun w =>
    let '(r, w') := m w in
    match f w' with
    | (Ok _, w'') => (r, w'')
    | (Raise e, w'') => (Raise e, w'')
    end.

Definition print (d : diagnostic) : M unit :=
  fun w => (Ok tt, set_stdout w (stdout w ++ [d])).

(** [datetime.now()] *)
Definition datetime_now : M Datetime.datetime :=
  fun w => (Ok (clock w (ticks w)), set_ticks w (S (ticks w))).

(** [int(time.time())] *)
Definition time_time : M Z :=
  fun w => (Ok (epoch w (ticks w)), set_ticks w (S (ticks w))).

(** [os.urandom(n)] *)
Definition os_urandom (n : nat) : M bytes :=
  fun w => (Ok (List.map (rng w) (seq (drawn w) n)), set_drawn w (drawn w + n)).

(** ** The storage layer *)

(** One call into the storage layer: it fails when the next flag says so. *)
Definition storage_call : M unit :=
  fun w =>
    match faults w with
    | [] => (Ok tt, w)
    | false :: r => (Ok tt, set_faults w r)
    | true :: r => (Raise OperationalError, set_faults w r)
    end.

(** A [str] bound to a SQL parameter is sent as UTF-8. *)
Definition bind_text (s : str) : M unit :=
  if Utf8.encodable s then ret tt else raise UnicodeEncodeError.

(** A connection holds the transaction in progress: the tables as the
    statements executed so far have left them.  [commit] makes them the
    stored tables; closing without a commit drops them. *)
Definition get_connection : M Database :=
  print ConnectedTo ;;;
  storage_call ;;;
  (fun w => (Ok (db w), w)).

Definition commit (conn : Database) : M unit :=
  storage_call ;;;
  (fun w => (Ok tt, set_db w conn)).

(** [conn.close()] does not fail on a connection that is open. *)
Definition close (conn : Database) : M unit := ret tt.

#[global] Instance byte_eq_decision : EqDecision byte := Byte.byte_eq_dec.

(** [hmac.compare_digest] on two [bytes]: equality, whatever the timing. *)
Definition compare_digest (a b : bytes) : bool := bool_decide (a = b).

(** * The core *)

Section Core.

(** [str.lower], the interpreter's Unicode case mapping. *)
Variable str_lower : str -> str.

(** [hashlib.pbkdf2_hmac("sha256", password, salt, iterations)];
    [None] when it raises (an iteration count below 1 or too large). *)
Variable pbkdf2_hmac_sha256 : bytes -> bytes -> Z -> option bytes.

(** The [Fernet] object built at import time from the process-wide key:
    [fernet_seal now iv data] is the token [encrypt] builds from the
    clock and sixteen random bytes, [fernet_open token] is [decrypt]
    without a time-to-live, [None] when it raises [InvalidToken]. *)
Variable fernet_seal : Z -> bytes -> bytes -> bytes.
Variable fernet_open : bytes -> option bytes.

(** ** [core/logger.py] *)

Definition VALID_ACTIONS : list str :=
  List.map lit
    ["login"; "logout"; "add"; "update"; "delete"; "view"; "anonymize";
     "anonymization"; "export"; "backup"; "decrypt"; "read"; "gdpr_delete";
     "other"]%string.

(** Lines 35-37: [(action or "").lower().strip()], then the membership
    test. *)
Definition normalize_action (action : option str) : str :=
  let action := py_strip (str_lower (default [] action)) in
  if existsb (str_eqb action) VALID_ACTIONS then action else lit "other".

(** [INSERT INTO logs (user_id, role, action, timestamp, details)] *)
Definition execute_insert_log (conn : Database) (row : log_row) : M Database :=
  storage_call ;;;
  bind_text (l_role row) ;;;
  bind_text (l_action row) ;;;
  bind_text (l_timestamp row) ;;;
  bind_text (l_details row) ;;;
  ret (mk_db (users conn) (patients conn) (logs conn ++ [row])).

(** [log_action].  [conn] is assigned by the first statement of the
    [try]: when [get_connection] raises, the handler runs and the
    [finally] clause finds [conn] still [None]. *)
Definition log_action
    (user_id : option Z) (role : str) (action : option str) (details : str)
    : M unit :=
  let action := normalize_action action in
  let handler := fun e => print (LoggerError e) in
  fun w =>
    match get_connection w with
    | (Raise e, w') => handler e w'
    | (Ok conn, w') =>
        try_finally
          (try_except
             (now <- datetime_now ;;
              conn <- execute_insert_log conn
                        (mk_log user_id role action (Datetime.strftime now) details) ;;
              commit conn)
             handler)
          (close conn) w'
    end.

(** ** [core/auth.py] *)

Definition PBKDF2_ITERATIONS : Z := 200000.
Definition SALT_BYTES : nat := 16.
Definition DOLLAR : Z := 36.

Definition _hash_password (password : str) (iterations : Z) : M str :=
  salt <- os_urandom SALT_BYTES ;;
  pw <- lift (of_option UnicodeEncodeError (Utf8.encode password)) ;;
  hash_bytes <- lift (of_option ValueError (pbkdf2_hmac_sha256 pw salt iterations)) ;;
  ret (Dec.to_str iterations ++ [DOLLAR] ++ Hex.hexlify salt
       ++ [DOLLAR] ++ Hex.hexlify hash_bytes).

(** [_verify_password]: every exception of the body ends in
    [return False], so the failures need not be told apart. *)
Definition _verify_password (stored provided_password : str) : bool :=
  match split_on DOLLAR stored with
  | [iterations_s; salt_hex; hash_hex] =>
      match Dec.of_str iterations_s,
            Hex.unhexlify salt_hex,
            Hex.unhexlify hash_hex,
            Utf8.encode provided_password with
      | Some iterations, Some salt, Some expected_hash, Some pw =>
          match pbkdf2_hmac_sha256 pw salt iterations with
          | Some new_hash => compare_digest new_hash expected_hash
          | None => false
          end
      | _, _, _, _ => false
      end
  | _ => false
  end.

(** [SELECT user_id, username, password, role FROM users
     WHERE username = ?] followed by [fetchone]. *)
Definition execute_select_user (conn : Database) (username : str)
    : M (option user_row) :=
  storage_call ;;;
  bind_text username ;;;
  ret (List.find (fun r => str_eqb (u_username r) username) (users conn)).

Definition user_dict (row : user_row) : gmap string pyval :=
  <["user_id"%string := PInt (u_user_id row)]>
    (<["username"%string := PStr (u_username row)]>
       (<["password"%string := PStr (u_password row)]>
          (<["role"%string := PStr (u_role row)]> ∅))).

(** [get_user_by_username]: [try ... finally], nothing is caught. *)
Definition get_user_by_username (username : str)
    : M (option (gmap string pyval)) :=
  fun w =>
    match get_connection w with
    | (Raise e, w') => (Raise e, w')
    | (Ok conn, w') =>
        try_finally
          (row <- execute_select_user conn username ;;
           ret (option_map user_dict row))
          (close conn) w'
    end.

(** [d[key]] *)
Definition getitem (d : gmap string pyval) (key : string) : M pyval :=
  lift (of_option KeyError (d !! key)).

Definition as_str (v : pyval) : M str :=
  match v with
  | PStr s => ret s
  | _ => raise TypeError
  end.

Definition as_int (v : pyval) : M Z :=
  match v with
  | PInt z => ret z
  | _ => raise TypeError
  end.

Definition as_id (v : pyval) : option Z :=
  match v with
  | PInt z => Some z
  | _ => None
  end.

(** [try: m  except Exception: pass] *)
Definition ignoring (m : M unit) : M unit := try_except m (fun _ => ret tt).

(** A [dict] is true when it is not empty. *)
Definition dict_truthy (d : gmap string pyval) : bool := bool_decide (d ≠ ∅).

(** [_verify_password(user["password"], password)]: on a value that is
    not a [str] the call to [split] raises inside the [try]. *)
Definition verify_stored (stored : pyval) (password : str) : bool :=
  match stored with
  | PStr s => _verify_password s password
  | _ => false
  end.

(** The [else] branch of [authenticate_user], lines 139-146. *)
Definition log_failed_login (user : option (gmap string pyval)) (username : str)
    : M unit :=
  ignoring
    (uid <- match user with
            | Some u => if dict_truthy u
                        then v <- getitem u "user_id" ;; ret (as_id v)
                        else ret None
            | None => ret None
            end ;;
     role <- match user with
             | Some u => if dict_truthy u
                         then v <- getitem u "role" ;; as_str v
                         else ret (lit "unknown")
             | None => ret (lit "unknown")
             end ;;
     log_action uid role (Some (lit "login"))
       (lit "LOGIN_FAILED username=" ++ username)).

Definition authenticate_user (username password : str)
    : M (option (gmap string pyval)) :=
  user <- get_user_by_username username ;;
  match user with
  | Some u =>
      if dict_truthy u then
        stored <- getitem u "password" ;;
        if verify_stored stored password then
          ignoring
            (uid <- getitem u "user_id" ;;
             role <- getitem u "role" ;;
             role <- as_str role ;;
             log_action (as_id uid) role (Some (lit "login"))
               (username ++ lit " logged in")) ;;;
          ret (Some u)
        else log_failed_login user username ;;; ret None
      else log_failed_login user username ;;; ret None
  | None => log_failed_login user username ;;; ret None
  end.

(** [UPDATE users SET password = ? WHERE user_id = ?]; the second
    component is [cur.rowcount]. *)
Definition execute_update_password (conn : Database) (pwd : str) (user_id : Z)
    : M (Database * Z) :=
  storage_call ;;;
  bind_text pwd ;;;
  ret (mk_db
         (List.map (fun r => if u_user_id r =? user_id
                             then mk_user (u_user_id r) (u_username r) pwd (u_role r)
                             else r) (users conn))
         (patients conn) (logs conn),
       Z.of_nat (List.length
                   (List.filter (fun r => u_user_id r =? user_id) (users conn)))).

(** [change_password]: [except Exception: return False]. *)
Definition change_password (user_id : Z) (new_password : str) : M bool :=
  fun w =>
    match get_connection w with
    | (Raise e, w') => (Ok false, w')
    | (Ok conn, w') =>
        try_finally
          (try_except
             (pwd_stored <- _hash_password new_password PBKDF2_ITERATIONS ;;
              r <- execute_update_password conn pwd_stored user_id ;;
              commit (fst r) ;;;
              ret (snd r =? 1))
             (fun _ => ret false))
          (close conn) w'
    end.

(** ** [core/encryption.py]: the reversible part *)

Definition count_cipher_call : M unit :=
  fun w => (Ok tt, set_cipher_calls w (S (cipher_calls w))).

(** [fernet.encrypt(data)] *)
Definition fernet_encrypt (data : bytes) : M bytes :=
  count_cipher_call ;;;
  current_time <- time_time ;;
  iv <- os_urandom 16 ;;
  ret (fernet_seal current_time iv data).

(** [fernet.decrypt(token)] *)
Definition fernet_decrypt (token : bytes) : M bytes :=
  count_cipher_call ;;;
  lift (of_option InvalidToken (fernet_open token)).

Definition str_encode (s : str) : M bytes :=
  lift (of_option UnicodeEncodeError (Utf8.encode s)).

Definition bytes_decode (b : bytes) : M str :=
  lift (of_option UnicodeDecodeError (Utf8.decode b)).

Definition encrypt_data (plaintext : option str) : M (option str) :=
  match plaintext with
  | None => ret None
  | Some p =>
      data <- str_encode p ;;
      token <- fernet_encrypt data ;;
      s <- bytes_decode token ;;
      ret (Some s)
  end.

Definition decrypt_data (ciphertext : option str) : M (option str) :=
  match ciphertext with
  | None => ret None
  | Some c =>
      token <- str_encode c ;;
      data <- fernet_decrypt token ;;
      s <- bytes_decode data ;;
      ret (Some s)
  end.

(** ** [core/gdpr.py] *)

(** One access to the settings file; a failure is an [OSError] other
    than "file not found". *)
Definition file_call : M unit :=
  fun w =>
    match faults w with
    | [] => (Ok tt, w)
    | false :: r => (Ok tt, set_faults w r)
    | true :: r => (Raise OSError, set_faults w r)
    end.

Definition DEFAULT_SETTINGS : gmap string pyval :=
  <["retention_days"%string := PInt 1825]>
    (<["last_deleted_count"%string := PInt 0]>
       (<["total_deleted_count"%string := PInt 0]>
          (<["last_run"%string := PNone]> ∅))).

Definition save_gdpr_settings (settings : gmap string pyval) : M unit :=
  file_call ;;;
  (fun w => (Ok tt, set_settings_file w (Some settings))).

(** [load_gdpr_settings]; the file holds a JSON object. *)
Definition load_gdpr_settings : M (gmap string pyval) :=
  file_call ;;;
  (fun w =>
     match settings_file w with
     | Some settings => (Ok settings, w)
     | None =>                                  (* except FileNotFoundError *)
         (save_gdpr_settings DEFAULT_SETTINGS ;;; ret DEFAULT_SETTINGS) w
     end).

(** [DELETE FROM patients WHERE date_added <= ?]; the second component
    is [cursor.rowcount]. *)
Definition execute_delete_patients (conn : Database) (cutoff_str : str)
    : M (Database * Z) :=
  storage_call ;;;
  bind_text cutoff_str ;;;
  ret (mk_db (users conn)
         (List.filter (fun r => negb (text_leb (p_date_added r) cutoff_str))
            (patients conn))
         (logs conn),
       Z.of_nat (List.length
                   (List.filter (fun r => text_leb (p_date_added r) cutoff_str)
                      (patients conn)))).

Definition retention_details (deleted_now retention_days : Z) : str :=
  lit "Deleted " ++ Dec.to_str deleted_now
  ++ lit " patient records older than " ++ Dec.to_str retention_days
  ++ lit " days.".

(** [run_data_retention]; the result is
    [(deleted_now, settings["total_deleted_count"], retention_days)].
    [retention_days] is taken to be an [int], as the settings page
    writes it. *)
Definition run_data_retention (user_id : option Z) (role : option str)
    : M (Z * Z * Z) :=
  settings <- load_gdpr_settings ;;
  retention_days <- getitem settings "retention_days" ;;
  now <- datetime_now ;;
  retention_days <- as_int retention_days ;;
  cutoff_date <- lift (Datetime.sub_days now retention_days) ;;
  let cutoff_str := Datetime.strftime cutoff_date in
  conn <- get_connection ;;
  r <- execute_delete_patients conn cutoff_str ;;
  let deleted_now := snd r in
  commit (fst r) ;;;
  close (fst r) ;;;
  let settings := <["last_deleted_count"%string := PInt deleted_now]> settings in
  total <- as_int (default (PInt 0) (settings !! "total_deleted_count"%string)) ;;
  let settings :=
    <["total_deleted_count"%string := PInt (total + deleted_now)]> settings in
  now <- datetime_now ;;
  let settings :=
    <["last_run"%string := PStr (Datetime.strftime now)]> settings in
  save_gdpr_settings settings ;;;
  (if 0 <? deleted_now
   then log_action user_id (default (lit "system") role)
          (Some (lit "gdpr_delete"))
          (retention_details deleted_now retention_days)
   else ret tt) ;;;
  total <- getitem settings "total_deleted_count" ;;
  total <- as_int total ;;
  ret (deleted_now, total, retention_days).

End Core.

(** ** Instances of the library functions, to run the model *)

(** [str.lower] on ASCII. *)
Definition ascii_lower (s : str) : str :=
  List.map (fun c => if (65 <=? c) && (c <=? 90) then c + 32 else c) s.

(** A stand-in for PBKDF2 with the shape of the real one: a function of
    password, salt and iteration count that refuses counts below 1. *)
Definition toy_pbkdf2 (pw salt : bytes) (iterations : Z) : option bytes :=
  if iterations <? 1 then None
  else Some (byte_of_Z (iterations mod 256) :: rev pw ++ salt).

(** A stand-in for Fernet: the token is the hexadecimal text of the
    initialisation vector followed by the data; opening it undoes that
    and checks the length. *)
Definition toy_seal (now : Z) (iv data : bytes) : bytes :=
  List.map byte_of_Z (Hex.hexlify (iv ++ data)).

Definition toy_open (token : bytes) : option bytes :=
  match Hex.unhexlify (List.map byte_to_Z token) with
  | Some b => if (16 <=? List.length b)%nat then Some (skipn 16 b) else None
  | None => None
  end.

(** ** Notions the statements use *)

(** The salt the next call of [_hash_password] draws in world [w]. *)
Definition fresh_salt (w : World) : bytes :=
  List.map (rng w) (seq (drawn w) SALT_BYTES).

(** Two passwords collide under a salt and an iteration count when the
    key derivation gives both the same hash. *)
Definition hash_collision
    (pbkdf2 : bytes -> bytes -> Z -> option bytes)
    (p1 p2 : str) (salt : bytes) (iterations : Z) : Prop :=
  exists b1 b2,
    Utf8.encode p1 = Some b1 /\ Utf8.encode p2 = Some b2 /\
    pbkdf2 b1 salt iterations = pbkdf2 b2 salt iterations.

(** ** A small world to run the model in *)

Definition sample_clock (n : nat) : Datetime.datetime :=
  Datetime.mk 2026 11 4 10 30 0 0.

Definition sample_rng (n : nat) : byte :=
  byte_of_Z ((Z.of_nat n * 37 + 11) mod 256).

Definition empty_world : World :=
  mk_world (mk_db [] [] []) None [] sample_clock (fun _ => 1794000000) 0
    sample_rng 0 [] 0.

Definition drB_artifact : str :=
  match fst (_hash_password toy_pbkdf2 (lit "pw1") PBKDF2_ITERATIONS empty_world) with
  | Ok a => a
  | Raise _ => []
  end.

Definition sample_patient (id : Z) (date_added : string) : patient_row :=
  mk_patient id (lit "John Smith") (lit "+1-555-123-4567") (lit "")
    (lit "ANON_0000") (lit "+X-XXX-XXX-4567") (lit date_added).

(** With the clock at 2026-11-04 10:30:00 and the default horizon of
    1825 days the cutoff is 2021-11-05 10:30:00. *)
Definition sample_db : Database :=
  mk_db
    [mk_user 1 (lit "drB") drB_artifact (lit "doctor")]
    [sample_patient 1 "2021-11-04 10:30:00";
     sample_patient 2 "2021-11-05 10:30:00";
     sample_patient 3 "2021-11-06 10:30:00";
     sample_patient 4 "2021-11-05";
     sample_patient 5 "2021-11-06"]
    [].

Definition sample_world : World := set_db empty_world sample_db.

(** The lookup of [username] in world [w] answers that there is no such
    user, or answers with the row [row]. *)
Definition unknown_user (username : str) (w : World) : Prop :=
  exists w', get_user_by_username username w = (Ok None, w').

Definition known_user (username : str) (row : user_row) (w : World) : Prop :=
  exists w', get_user_by_username username w = (Ok (Some (user_dict row)), w').

(** A storage call of the run from [w] to [w'] failed: the flags the
    run has taken from [faults] hold a [true]. *)
Definition storage_failed (w w' : World) : Prop :=
  exists taken, faults w = taken ++ faults w' /\ In true taken.


(** The retention policy in force: the settings file, or the defaults
    when there is no file yet. *)
Definition effective_settings (w : World) : gmap string pyval :=
  default DEFAULT_SETTINGS (settings_file w).

Definition retention_horizon (w : World) (days : Z) : Prop :=
  effective_settings w !! "retention_days"%string = Some (PInt days).

Definition cumulative_deleted (w : World) (total : Z) : Prop :=
  default (PInt 0) (effective_settings w !! "total_deleted_count"%string)
  = PInt total.

(** The rows a sweep with cutoff [cutoff_str] deletes, and those it keeps. *)
Definition swept (cutoff_str : str) (rows : list patient_row) : list patient_row :=
  List.filter (fun r => text_leb (p_date_added r) cutoff_str) rows.

Definition spared (cutoff_str : str) (rows : list patient_row) : list patient_row :=
  List.filter (fun r => negb (text_leb (p_date_added r) cutoff_str)) rows.

(** * The rest of the core *)

(** ** [core/validators.py] *)

Module Validators.
Section WithDigits.

(** [str.isdigit] on one character, as in [Masking]. *)
Variable isdigit : Z -> bool.

(** [s.isdigit()]: at least one character, and every character a digit. *)
Definition str_isdigit (s : str) : bool :=
  negb (str_eqb s []) && forallb isdigit s.

(** [not s or s.strip() == ""]; [None] stops at [not s]. *)
Definition blank (s : option str) : bool :=
  match s with
  | None => true
  | Some s => str_eqb s [] || str_eqb (py_strip s) []
  end.

(** [len(s)] *)
Definition len (s : str) : Z := Z.of_nat (List.length s).

Definition NAME_EMPTY : str := lit "Name cannot be empty.".
Definition NAME_SHORT : str := lit "Name must be at least 3 characters.".
Definition NAME_DIGITS : str := lit "Name cannot contain numbers.".
Definition CONTACT_EMPTY : str := lit "Contact number cannot be empty.".
(** The three characters between the digits are those of the source
    file, read as UTF-8. *)
Definition CONTACT_DIGITS : str :=
  lit "Contact number must contain digits only (0" ++ [226; 8364; 8220]
  ++ lit "9).".
Definition CONTACT_LENGTH : str :=
  lit "Contact number must be between 7 and 15 digits.".
Definition DIAGNOSIS_EMPTY : str := lit "Diagnosis cannot be empty.".
Definition DIAGNOSIS_SHORT : str :=
  lit "Diagnosis must be at least 5 characters long.".

Definition validate_name (name : option str) : list str :=
  let errors := [] in
  if blank name then errors ++ [NAME_EMPTY]
  else
    let name := default [] name in
    if len name <? 3 then errors ++ [NAME_SHORT]
    else if existsb isdigit name then errors ++ [NAME_DIGITS]
    else errors.

(** Line 22: [contact[1:] if contact.startswith("+") else contact]. *)
Definition contact_digits (contact : str) : str :=
  match contact with
  | c :: rest => if c =? 43 then rest else contact     (* startswith("+") *)
  | [] => contact
  end.

Definition validate_contact (contact : option str) : list str :=
  let errors := [] in
  if blank contact then errors ++ [CONTACT_EMPTY]
  else
    let digits := contact_digits (default [] contact) in
    let errors :=
      if negb (str_isdigit digits) then errors ++ [CONTACT_DIGITS] else errors in
    let errors :=
      if (len digits <? 7) || (15 <? len digits)
      then errors ++ [CONTACT_LENGTH] else errors in
    errors.

Definition validate_diagnosis (diagnosis : option str) : list str :=
  let errors := [] in
  if blank diagnosis then errors ++ [DIAGNOSIS_EMPTY]
  else if len (default [] diagnosis) <? 5 then errors ++ [DIAGNOSIS_SHORT]
  else errors.

Definition validate_patient_input (name contact diagnosis : option str)
    : list str :=
  let errors := [] in
  let errors := errors ++ validate_name name in
  let errors := errors ++ validate_contact contact in
  let errors := errors ++ validate_diagnosis diagnosis in
  errors.

End WithDigits.
End Validators.

(** ** [core/database.py]: single patients and the plain sweep *)

(** An [int] bound to a SQL parameter has to fit SQLite's 64-bit INTEGER. *)
Definition bind_int (z : Z) : M unit :=
  if (- 2 ^ 63 <=? z) && (z <? 2 ^ 63) then ret tt else raise OverflowError.

(** [SELECT * FROM patients WHERE patient_id = ?] followed by [fetchone]. *)
Definition execute_select_patient (conn : Database) (patient_id : Z)
    : M (option patient_row) :=
  storage_call ;;;
  bind_int patient_id ;;;
  ret (List.find (fun r => p_patient_id r =? patient_id) (patients conn)).

Definition get_patient_by_id (patient_id : Z) : M (option patient_row) :=
  conn <- get_connection ;;
  row <- execute_select_patient conn patient_id ;;
  close conn ;;;
  ret row.

(** [UPDATE patients SET name = ?, contact = ?, diagnosis = ?,
     anonymized_name = ?, anonymized_contact = ? WHERE patient_id = ?];
    the second component is [cursor.rowcount]. *)
Definition execute_update_patient (conn : Database) (patient_id : Z)
    (name contact encrypted_diagnosis anonymized_name anonymized_contact : str)
    : M (Database * Z) :=
  storage_call ;;;
  bind_text name ;;;
  bind_text contact ;;;
  bind_text encrypted_diagnosis ;;;
  bind_text anonymized_name ;;;
  bind_text anonymized_contact ;;;
  bind_int patient_id ;;;
  ret (mk_db (users conn)
         (List.map
            (fun r => if p_patient_id r =? patient_id
                      then mk_patient (p_patient_id r) name contact
                             encrypted_diagnosis anonymized_name
                             anonymized_contact (p_date_added r)
                      else r)
            (patients conn))
         (logs conn),
       Z.of_nat (List.length
                   (List.filter (fun r => p_patient_id r =? patient_id)
                      (patients conn)))).

Definition update_patient (patient_id : Z)
    (name contact encrypted_diagnosis anonymized_name anonymized_contact : str)
    : M Z :=
  conn <- get_connection ;;
  r <- execute_update_patient conn patient_id name contact encrypted_diagnosis
         anonymized_name anonymized_contact ;;
  commit (fst r) ;;;
  let affected := snd r in
  close (fst r) ;;;
  ret affected.

(** [DELETE FROM patients WHERE patient_id = ?] *)
Definition execute_delete_patient (conn : Database) (patient_id : Z)
    : M (Database * Z) :=
  storage_call ;;;
  bind_int patient_id ;;;
  ret (mk_db (users conn)
         (List.filter (fun r => negb (p_patient_id r =? patient_id))
            (patients conn))
         (logs conn),
       Z.of_nat (List.length
                   (List.filter (fun r => p_patient_id r =? patient_id)
                      (patients conn)))).

Definition delete_patient (patient_id : Z) : M Z :=
  conn <- get_connection ;;
  r <- execute_delete_patient conn patient_id ;;
  commit (fst r) ;;;
  let deleted := snd r in
  close (fst r) ;;;
  ret deleted.

(** [gdpr_data_retention]: the sweep of [run_data_retention] with the
    horizon as an argument, without the settings file and the audit
    entry. *)
Definition gdpr_data_retention (retention_days : Z) : M Z :=
  now <- datetime_now ;;
  cutoff_date <- lift (Datetime.sub_days now retention_days) ;;
  let cutoff_str := Datetime.strftime cutoff_date in
  conn <- get_connection ;;
  r <- execute_delete_patients conn cutoff_str ;;
  let deleted_count := snd r in
  commit (fst r) ;;;
  close (fst r) ;;;
  ret deleted_count.
(** ** [core/encryption.py]: pseudonyms and whole records *)

(** [s[-n:]] for a positive [n]: the last [n] characters, the whole
    string when it is shorter. *)
Definition last_chars (n : nat) (s : str) : str :=
  skipn (List.length s - n) s.

Section Anonymization.

Variable isdigit : Z -> bool.
Variable str_lower : str -> str.

(** [hashlib.sha256(data).digest()] *)
Variable sha256 : bytes -> bytes.

Variable fernet_seal : Z -> bytes -> bytes -> bytes.
Variable fernet_open : bytes -> option bytes.

(** [mask_name]; [hexdigest] is the lower-case hexadecimal text of the
    digest. *)
Definition mask_name (name : str) : result str :=
  match name with
  | [] => Ok []                                  (* if not name *)
  | _ =>
      match Utf8.encode name with
      | None => Raise UnicodeEncodeError
      | Some data =>
          let h := Hex.hexlify (sha256 data) in
          let anon_id := last_chars 4 h in
          Ok (lit "ANON_" ++ anon_id)
      end
  end.

(** [d.get(key, "")] on a record whose values are strings, as both
    pages and the bulk pass build it. *)
Definition get_str (d : gmap string str) (key : string) : str :=
  default [] (d !! key).

(** [d[key]] on such a record. *)
Definition getitem_str (d : gmap string str) (key : string) : M str :=
  lift (of_option KeyError (d !! key)).

(** [anonymize_patient_record].  On a [str] [encrypt_data] answers with
    a [str]; the [None] it has for [None] cannot come back here. *)
Definition anonymize_patient_record (patient_record : gmap string str)
    : M (gmap string str) :=
  let name := get_str patient_record "name" in
  let contact := get_str patient_record "contact" in
  let diagnosis := get_str patient_record "diagnosis" in
  anonymized_name <- lift (mask_name name) ;;
  let anonymized_contact := Masking.mask_contact isdigit contact in
  encrypted_diagnosis <-
    match diagnosis with
    | [] => ret []
    | _ => token <- encrypt_data fernet_seal (Some diagnosis) ;;
           lift (of_option TypeError token)
    end ;;
  ret (<["anonymized_name"%string := anonymized_name]>
         (<["anonymized_contact"%string := anonymized_contact]>
            (<["encrypted_diagnosis"%string := encrypted_diagnosis]> ∅))).

(** ** [pages/3_Dashboard_Doctor.py]: the diagnosis column *)

Definition DECRYPTION_ERROR : str := lit "[Decryption error]".

(** [decrypt_diagnosis_column], lines 38-42, on a row whose diagnosis
    is a string. *)
Definition decrypt_diagnosis_column (row : patient_row) : M (option str) :=
  try_except (decrypt_data fernet_open (Some (p_diagnosis row)))
    (fun _ => ret (Some DECRYPTION_ERROR)).

(** ** [mass_anonymization.py] *)

(** [SELECT patient_id, name, contact, diagnosis FROM patients]
    followed by [fetchall]. *)
Definition execute_select_patients (conn : Database) : M (list patient_row) :=
  storage_call ;;;
  ret (patients conn).

(** [UPDATE patients SET anonymized_name = ?, anonymized_contact = ?,
     diagnosis = ? WHERE patient_id = ?]; the second component is
    [cursor.rowcount]. *)
Definition execute_update_anonymized (conn : Database)
    (anonymized_name anonymized_contact diagnosis : str) (pid : Z)
    : M (Database * Z) :=
  storage_call ;;;
  bind_text anonymized_name ;;;
  bind_text anonymized_contact ;;;
  bind_text diagnosis ;;;
  bind_int pid ;;;
  ret (mk_db (users conn)
         (List.map
            (fun r => if p_patient_id r =? pid
                      then mk_patient (p_patient_id r) (p_name r) (p_contact r)
                             diagnosis anonymized_name anonymized_contact
                             (p_date_added r)
                      else r)
            (patients conn))
         (logs conn),
       Z.of_nat (List.length
                   (List.filter (fun r => p_patient_id r =? pid)
                      (patients conn)))).

(** The body of the loop of lines 28-51, for one fetched row. *)
Definition anonymize_row (row : patient_row) (st : Database * Z)
    : M (Database * Z) :=
  let '(conn, updated_count) := st in
  let pid := p_patient_id row in
  let name := p_name row in
  let contact := p_contact row in
  let diagnosis := p_diagnosis row in
  anon <- anonymize_patient_record
            (<["name"%string := name]>
               (<["contact"%string := contact]>
                  (<["diagnosis"%string := diagnosis]> ∅))) ;;
  anonymized_name <- getitem_str anon "anonymized_name" ;;
  anonymized_contact <- getitem_str anon "anonymized_contact" ;;
  encrypted_diagnosis <- getitem_str anon "encrypted_diagnosis" ;;
  r <- execute_update_anonymized conn anonymized_name anonymized_contact
         encrypted_diagnosis pid ;;
  let updated_count :=
    if snd r =? 0 then updated_count else updated_count + 1 in
  ret (fst r, updated_count).

(** [for row in records: ...] *)
Fixpoint anonymize_rows (records : list patient_row) (st : Database * Z)
    : M (Database * Z) :=
  match records with
  | [] => ret st
  | row :: rest => st <- anonymize_row row st ;; anonymize_rows rest st
  end.

Definition anonymization_details (updated_count : Z) : str :=
  lit "Mass anonymization ran; " ++ Dec.to_str updated_count
  ++ lit " rows updated".

(** [anonymize_all_patients]: [try ... finally], nothing is caught but
    what the audit entry raises. *)
Definition anonymize_all_patients (user_id : option Z) (role : str) : M Z :=
  fun w =>
    match get_connection w with
    | (Raise e, w') => (Raise e, w')
    | (Ok conn, w') =>
        try_finally
          (records <- execute_select_patients conn ;;
           st <- anonymize_rows records (conn, 0) ;;
           commit (fst st) ;;;
           ignoring
             (log_action str_lower user_id role (Some (lit "anonymization"))
                (anonymization_details (snd st))) ;;;
           ret (snd st))
          (close conn) w'
    end.

End Anonymization.

(** ** [core/auth.py]: accounts *)

Section Accounts.

Variable str_lower : str -> str.
Variable pbkdf2_hmac_sha256 : bytes -> bytes -> Z -> option bytes.

(** The key SQLite allots to the row an [INSERT INTO users] adds:
    [user_id] is [INTEGER PRIMARY KEY AUTOINCREMENT], so it is one more
    than the largest key the table has ever held. *)
Variable allot_user_id : Database -> Z.

Definition ALLOWED_ROLES : list str :=
  List.map lit ["admin"; "doctor"; "receptionist"]%string.

(** [SELECT user_id FROM users WHERE username = ?] followed by
    [fetchone]. *)
Definition execute_select_user_id (conn : Database) (username : str)
    : M (option Z) :=
  storage_call ;;;
  bind_text username ;;;
  ret (option_map u_user_id
         (List.find (fun r => str_eqb (u_username r) username) (users conn))).

(** [INSERT INTO users (username, password, role) VALUES (?, ?, ?)];
    the second component is [cur.lastrowid]. *)
Definition execute_insert_user (conn : Database) (username pwd role : str)
    : M (Database * Z) :=
  storage_call ;;;
  bind_text username ;;;
  bind_text pwd ;;;
  bind_text role ;;;
  let user_id := allot_user_id conn in
  ret (mk_db (users conn ++ [mk_user user_id username pwd role])
         (patients conn) (logs conn),
       user_id).

(** [create_user]: the role is checked before the connection is opened;
    [try ... finally], nothing is caught. *)
Definition create_user (username password role : str)
    : M (gmap string pyval) :=
  let role := py_strip (str_lower role) in
  if negb (existsb (str_eqb role) ALLOWED_ROLES) then raise ValueError
  else
    fun w =>
      match get_connection w with
      | (Raise e, w') => (Raise e, w')
      | (Ok conn, w') =>
          try_finally
            (found <- execute_select_user_id conn username ;;
             match found with
             | Some _ => raise ValueError        (* "Username already exists." *)
             | None =>
                 pwd_stored <- _hash_password pbkdf2_hmac_sha256 password
                                 PBKDF2_ITERATIONS ;;
                 r <- execute_insert_user conn username pwd_stored role ;;
                 commit (fst r) ;;;
                 let user_id := snd r in
                 ret (<["user_id"%string := PInt user_id]>
                        (<["username"%string := PStr username]>
                           (<["role"%string := PStr role]> ∅)))
             end)
            (close conn) w'
      end.

End Accounts.

(** ** Notions the statements on anonymisation use *)

(** A row as SQLite holds it when the application has written it: text
    that is UTF-8 and a key that is a 64-bit integer. *)
Definition storable_row (r : patient_row) : Prop :=
  Utf8.encodable (p_name r) = true /\
  Utf8.encodable (p_contact r) = true /\
  Utf8.encodable (p_diagnosis r) = true /\
  - 2 ^ 63 <= p_patient_id r < 2 ^ 63.

(** The three strings are an anonymisation of [(name, contact,
    diagnosis)]: the pseudonym of the name, the masked contact, and for
    a diagnosis that is not empty a text that [decrypt_data] turns back
    into it. *)
Definition anonymizes
    (isdigit : Z -> bool) (sha256 : bytes -> bytes)
    (fernet_open : bytes -> option bytes)
    (name contact diagnosis : str)
    (anonymized_name anonymized_contact encrypted_diagnosis : str) : Prop :=
  mask_name sha256 name = Ok anonymized_name /\
  anonymized_contact = Masking.mask_contact isdigit contact /\
  (diagnosis = [] -> encrypted_diagnosis = []) /\
  (diagnosis <> [] ->
   encrypted_diagnosis <> [] /\
   forall wd,
     decrypt_data fernet_open (Some encrypted_diagnosis) wd
     = (Ok (Some diagnosis), set_cipher_calls wd (S (cipher_calls wd)))).

(** The row [new] is the row [old] after the bulk pass. *)
Definition anonymized_row
    (isdigit : Z -> bool) (sha256 : bytes -> bytes)
    (fernet_open : bytes -> option bytes) (old new : patient_row) : Prop :=
  p_patient_id new = p_patient_id old /\
  p_name new = p_name old /\
  p_contact new = p_contact old /\
  p_date_added new = p_date_added old /\
  anonymizes isdigit sha256 fernet_open
    (p_name old) (p_contact old) (p_diagnosis old)
    (p_anonymized_name new) (p_anonymized_contact new) (p_diagnosis new).

(** ** More instances and a second small world *)

(** A stand-in for SHA-256 with the size of the real one: thirty zero
    bytes, then the last two bytes of the data. *)
Definition toy_sha256 (data : bytes) : bytes :=
  firstn 32 (repeat x00 30 ++ firstn 2 (rev data ++ [x00; x00])).

(** Two patients as the form hands them over, not yet anonymised; the
    second has no diagnosis. *)
Definition intake_db : Database :=
  mk_db []
    [mk_patient 1 (lit "Ann Lee") (lit "+15551234567") (lit "fever") [] []
       (lit "2026-11-04");
     mk_patient 2 (lit "Bo Chen") (lit "5550001") [] [] []
       (lit "2026-11-04")]
    [].

Definition intake_world : World := set_db empty_world intake_db.

(** A stand-in for SQLite's choice of the next key of [users]. *)
Definition toy_allot (conn : Database) : Z :=
  1 + fold_right Z.max 0 (List.map u_user_id (users conn)).

(** * Properties *)

(** ** Contact masking *)

Section MaskingFacts.

Context (isdigit : Z -> bool).

Local Abbreviation mask_contact := (Masking.mask_contact isdigit).
Local Abbreviation mask_right := (Masking.mask_right isdigit).
Local Abbreviation mask_iter := (Masking.mask_iter isdigit).
Local Abbreviation count_digits := (Masking.count_digits isdigit).
Local Abbreviation digits_right_of := (Masking.digits_right_of isdigit).

Lemma mask_loop_right (s : str) :
  fold_left mask_iter (rev s) ([], 0)
  = (rev (fst (mask_right s)), snd (mask_right s)).
Proof.
  induction s as [|ch t IH]; [reflexivity|].
  simpl rev. rewrite fold_left_app, IH. simpl.
  destruct (mask_right t) as [t' seen]. simpl.
  destruct (isdigit ch); [|reflexivity].
  destruct (seen + 1 <=? 4); reflexivity.
Qed.

Lemma mask_contact_right (s : str) : mask_contact s = fst (mask_right s).
Proof.
  unfold Masking.mask_contact. destruct s as [|ch t]; [reflexivity|].
  rewrite mask_loop_right. apply rev_involutive.
Qed.

Lemma mask_right_seen (s : str) : snd (mask_right s) = count_digits s.
Proof.
  unfold Masking.count_digits.
  induction s as [|ch t IH]; [reflexivity|]. simpl.
  destruct (mask_right t) as [t' seen]. simpl in IH. subst seen.
  destruct (isdigit ch); [|reflexivity].
  destruct (_ <=? 4); simpl; lia.
Qed.

Lemma mask_right_length (s : str) :
  List.length (fst (mask_right s)) = List.length s.
Proof.
  induction s as [|ch t IH]; [reflexivity|]. simpl.
  destruct (mask_right t) as [t' seen]. simpl in IH.
  destruct (isdigit ch); [destruct (_ <=? 4)|]; simpl; congruence.
Qed.

Lemma mask_right_lookup (s : str) (i : nat) (ch : Z) :
  s !! i = Some ch ->
  fst (mask_right s) !! i
  = Some (if isdigit ch && (4 <=? digits_right_of i s) then Masking.MASK else ch).
Proof.
  revert i. induction s as [|c t IH]; intros i Hi; [discriminate|].
  pose proof (mask_right_seen t) as Hseen.
  simpl. destruct (mask_right t) as [t' seen] eqn:Ht. simpl in Hseen.
  destruct i as [|i].
  - injection Hi as ->. unfold Masking.digits_right_of. change (skipn 1 (ch :: t)) with t.
    rewrite <- Hseen.
    destruct (isdigit ch); simpl; [|reflexivity].
    destruct (seen + 1 <=? 4) eqn:E1, (4 <=? seen) eqn:E2;
      simpl; try reflexivity; lia.
  - specialize (IH i Hi).
    destruct (isdigit c); [destruct (_ <=? 4)|]; simpl; exact IH.
Qed.

(** C5.  A contact with at least four digits is masked in place: the
    result has the length of the input, every character that is not a
    digit stays where it was, a digit with fewer than four digits to
    its right (one of the last four) is kept, and every other digit
    becomes ['X']. *)
Theorem mask_contact_keeps_last_four (contact : str) :
  4 <= count_digits contact ->
  List.length (mask_contact contact) = List.length contact /\
  forall (i : nat) (ch : Z), contact !! i = Some ch ->
    (isdigit ch = false -> mask_contact contact !! i = Some ch) /\
    (isdigit ch = true -> digits_right_of i contact < 4 ->
       mask_contact contact !! i = Some ch) /\
    (isdigit ch = true -> 4 <= digits_right_of i contact ->
       mask_contact contact !! i = Some Masking.MASK).
Proof.
  intros _. rewrite mask_contact_right. split.
  - apply mask_right_length.
  - intros i ch Hi. rewrite (mask_right_lookup _ _ _ Hi).
    repeat split; intros Hd; rewrite Hd; simpl; [reflexivity| |];
      intros Hr.
    + replace (4 <=? _) with false by lia. reflexivity.
    + replace (4 <=? _) with true by lia. reflexivity.
Qed.

Lemma mask_right_few_digits (s : str) :
  count_digits s < 4 -> fst (mask_right s) = s.
Proof.
  unfold Masking.count_digits.
  induction s as [|ch t IH]; intros Hc; [reflexivity|].
  pose proof (mask_right_seen t) as Hseen.
  unfold Masking.count_digits in Hseen.
  simpl in *. destruct (mask_right t) as [t' seen]. simpl in *.
  destruct (isdigit ch); simpl in *.
  - replace (seen + 1 <=? 4) with true by lia.
    simpl. f_equal. apply IH. lia.
  - f_equal. apply IH. lia.
Qed.

(** C9.  A non-empty contact with fewer than four digits comes back
    unchanged: the loop keeps the first four digits it meets from the
    right, so no digit is masked. *)
Theorem mask_contact_few_digits_unchanged (contact : str) :
  contact <> [] -> count_digits contact < 4 ->
  mask_contact contact = contact.
Proof.
  intros _ Hc. rewrite mask_contact_right. now apply mask_right_few_digits.
Qed.

End MaskingFacts.

Lemma mask_contact_keeps_last_four_witness :
4 <= Masking.count_digits ascii_isdigit (lit "0321-1234567") /\
Masking.mask_contact ascii_isdigit (lit "0321-1234567") !! 7%nat = Some Masking.MASK /\
Masking.mask_contact ascii_isdigit (lit "0321-1234567") !! 8%nat = Some 52.
Proof.
assert (H : 4 <= Masking.count_digits ascii_isdigit (lit "0321-1234567"))
  by (vm_compute; discriminate).
split; [exact H|].
destruct (mask_contact_keeps_last_four ascii_isdigit _ H) as [_ Hpos].
split.
- apply (Hpos 7%nat 51); [reflexivity|reflexivity|vm_compute; discriminate].
- apply (Hpos 8%nat 52); [reflexivity|reflexivity|vm_compute; reflexivity].
Defined.

Lemma mask_contact_few_digits_unchanged_witness :
Masking.mask_contact ascii_isdigit (lit "ext. 12") = lit "ext. 12".
Proof.
apply (mask_contact_few_digits_unchanged ascii_isdigit (lit "ext. 12")).
- discriminate.
- vm_compute. reflexivity.
Defined.

Example mask_contact_example :
Masking.mask_contact ascii_isdigit (lit "0321-1234567") = lit "XXXX-XXX4567".
Proof. reflexivity. Qed.

(** ** Bytes *)

Lemma byte_to_Z_range (b : byte) : 0 <= byte_to_Z b < 256.
Proof.
  unfold byte_to_Z. pose proof (Byte.to_N_bounded b). lia.
Qed.

Lemma byte_to_of_Z (z : Z) : 0 <= z < 256 -> byte_to_Z (byte_of_Z z) = z.
Proof.
  intros Hz. unfold byte_to_Z, byte_of_Z.
  destruct (Byte.of_N (Z.to_N z)) as [b|] eqn:E.
  - apply Byte.to_of_N in E. rewrite E. lia.
  - apply Byte.of_N_None_iff in E. lia.
Qed.

Lemma byte_of_to_Z (b : byte) : byte_of_Z (byte_to_Z b) = b.
Proof.
  unfold byte_to_Z, byte_of_Z. rewrite N2Z.id, Byte.of_to_N. reflexivity.
Qed.

(** ** The UTF-8 codec *)

Ltac zdm := Z.div_mod_to_equations; lia.

Ltac case_ltb :=
  repeat match goal with
  | |- context [?a <? ?b] =>
      let H := fresh "L" in
      destruct (Z.ltb_spec a b) as [H|H]; try (exfalso; zdm)
  | |- context [?a <=? ?b] =>
      let H := fresh "L" in
      destruct (Z.leb_spec a b) as [H|H]; try (exfalso; zdm)
  end.

Lemma utf8_scalar_encodes (c : Z) :
  Utf8.scalar c = true <-> is_Some (Utf8.encode_char c).
Proof.
  unfold Utf8.scalar, Utf8.encode_char, Utf8.is_surrogate.
  destruct (Z.ltb_spec c 0), (Z.ltb_spec c 128), (Z.ltb_spec c 2048),
    (Z.ltb_spec c 65536), (Z.ltb_spec c 1114112),
    (Z.leb_spec 0 c), (Z.leb_spec 55296 c), (Z.leb_spec c 57343);
    simpl; split; intros Hs; try lia; try discriminate; try (eexists; reflexivity);
    try (destruct Hs as [? Hs]; discriminate).
Qed.

Lemma utf8_encodable_encodes (s : str) :
  Utf8.encodable s = true <-> is_Some (Utf8.encode s).
Proof.
  unfold Utf8.encodable. induction s as [|c t IH]; simpl.
  - split; [eexists; reflexivity|reflexivity].
  - rewrite andb_true_iff, IH, utf8_scalar_encodes.
    destruct (Utf8.encode_char c), (Utf8.encode t); split;
      try (intros [[? ?] [? ?]]); try (intros [? ?]);
      try discriminate; try (split; eexists; reflexivity);
      eexists; reflexivity.
Qed.

Lemma utf8_decode_encode_char (c : Z) (bs rest : bytes) :
  Utf8.encode_char c = Some bs ->
  Utf8.decode (bs ++ rest) = option_map (cons c) (Utf8.decode rest).
Proof.
  unfold Utf8.encode_char, Utf8.is_surrogate.
  destruct (Z.ltb_spec c 0); [discriminate|].
  destruct (Z.ltb_spec c 128).
  { intros [= <-]. simpl. rewrite byte_to_of_Z by lia.
    destruct (Z.ltb_spec c 128); [reflexivity|lia]. }
  destruct (Z.ltb_spec c 2048).
  { intros [= <-]. simpl. rewrite !byte_to_of_Z by zdm.
    unfold Utf8.is_cont. case_ltb. simpl.
    replace ((192 + c / 64 - 192) * 64 + (128 + c mod 64 - 128)) with c by zdm.
    reflexivity. }
  destruct (Z.ltb_spec c 65536).
  { destruct (Z.leb_spec 55296 c), (Z.leb_spec c 57343); simpl;
      try discriminate; intros [= <-]; simpl; rewrite !byte_to_of_Z by zdm;
      unfold Utf8.is_cont, Utf8.is_surrogate;
      replace ((224 + c / 4096 - 224) * 4096 + (128 + (c / 64) mod 64 - 128) * 64
               + (128 + c mod 64 - 128)) with c by zdm;
      case_ltb; reflexivity. }
  destruct (Z.ltb_spec c 1114112); [|discriminate].
  intros [= <-]. simpl. rewrite !byte_to_of_Z by zdm.
  unfold Utf8.is_cont.
  replace ((240 + c / 262144 - 240) * 262144
           + (128 + (c / 4096) mod 64 - 128) * 4096
           + (128 + (c / 64) mod 64 - 128) * 64
           + (128 + c mod 64 - 128)) with c by zdm.
  case_ltb. reflexivity.
Qed.

Lemma utf8_decode_encode (s : str) (bs : bytes) :
  Utf8.encode s = Some bs -> Utf8.decode bs = Some s.
Proof.
  revert bs. induction s as [|c t IH]; intros bs; simpl.
  - intros [= <-]. reflexivity.
  - destruct (Utf8.encode_char c) as [b|] eqn:Ec; [|discriminate].
    destruct (Utf8.encode t) as [bt|] eqn:Et; [|discriminate].
    intros [= <-]. rewrite (utf8_decode_encode_char _ _ _ Ec), (IH _ eq_refl).
    reflexivity.
Qed.

Lemma utf8_ascii_roundtrip (bs : bytes) :
  ascii_bytes bs ->
  Utf8.decode bs = Some (List.map byte_to_Z bs) /\
  Utf8.encode (List.map byte_to_Z bs) = Some bs.
Proof.
  induction 1 as [|b t Hb Ht [IHd IHe]]; [split; reflexivity|].
  pose proof (byte_to_Z_range b) as Hr. split; simpl.
  - destruct (Z.ltb_spec (byte_to_Z b) 128); [|lia]. rewrite IHd. reflexivity.
  - unfold Utf8.encode_char.
    destruct (Z.ltb_spec (byte_to_Z b) 0); [lia|].
    destruct (Z.ltb_spec (byte_to_Z b) 128); [|lia].
    rewrite IHe, byte_of_to_Z. reflexivity.
Qed.

(** ** Hexadecimal text *)

Lemma hex_roundtrip (b : bytes) : Hex.unhexlify (Hex.hexlify b) = Some b.
Proof.
  induction b as [|x t IH]; [reflexivity|].
  cbn [Hex.hexlify Hex.unhexlify]. rewrite IH.
  destruct x; reflexivity.
Qed.

Lemma hex_digit_chars (b : bytes) (c : Z) :
  In c (Hex.hexlify b) -> (48 <= c <= 57) \/ (97 <= c <= 102).
Proof.
  induction b as [|x t IH]; [contradiction|].
  cbn [Hex.hexlify]. pose proof (byte_to_Z_range x) as Hr.
  intros [<-|[<-|Hin]]; [| |auto]; unfold Hex.digit; case_ltb; zdm.
Qed.

(** ** Decimal text *)

Lemma dec_digits_chars (fuel : nat) (n : Z) (acc : str) :
  0 <= n -> Forall (fun c => 48 <= c <= 57) acc ->
  Forall (fun c => 48 <= c <= 57) (Dec.digits fuel n acc).
Proof.
  revert n acc. induction fuel as [|f IH]; intros n acc Hn Hacc; [exact Hacc|].
  cbn [Dec.digits].
  assert (Forall (fun c => 48 <= c <= 57) ((48 + n mod 10) :: acc))
    by (constructor; [zdm|exact Hacc]).
  destruct (n <? 10); [assumption|]. apply IH; [zdm|assumption].
Qed.

Lemma dec_digits_nonempty (fuel : nat) (n : Z) (acc : str) :
  acc <> [] -> Dec.digits fuel n acc <> [].
Proof.
  revert n acc. induction fuel as [|f IH]; intros n acc Hacc; [exact Hacc|].
  cbn [Dec.digits]. destruct (n <? 10); [discriminate|].
  apply IH. discriminate.
Qed.

Lemma parse_digits_app (s t : str) (acc : Z) (b : bool) :
  Forall (fun c => 48 <= c <= 57) s ->
  Dec.parse_digits (s ++ t) acc b
  = Dec.parse_digits t
      (fold_left (fun a c => 10 * a + (c - 48)) s acc)
      (match s with [] => b | _ => true end).
Proof.
  intros Hs. revert acc b. induction Hs as [|c s Hc Hs IH]; intros acc b;
    [reflexivity|].
  cbn [app Dec.parse_digits fold_left]. unfold ascii_isdigit.
  replace ((48 <=? c) && (c <=? 57)) with true
    by (symmetry; apply andb_true_iff; split; lia).
  rewrite IH. destruct s; reflexivity.
Qed.

Lemma dec_digits_value (fuel : nat) (n : Z) (acc : str) :
  0 <= n < 2 ^ Z.of_nat fuel -> (fuel <> 0)%nat ->
  forall a0,
    fold_left (fun a c => 10 * a + (c - 48)) (Dec.digits fuel n acc) a0
    = fold_left (fun a c => 10 * a + (c - 48)) acc
        (a0 * 10 ^ (Z.of_nat (List.length (Dec.digits fuel n [])) ) + n)
    /\ Dec.digits fuel n acc = Dec.digits fuel n [] ++ acc.
Proof.
  revert n acc. induction fuel as [|f IH]; intros n acc Hn Hf a0; [lia|].
  cbn [Dec.digits]. destruct (Z.ltb_spec n 10) as [Hlt|Hge].
  - split; [|reflexivity]. cbn [fold_left List.length].
    change (Z.of_nat 1) with 1. rewrite Z.pow_1_r. f_equal. zdm.
  - assert (Hf' : (f <> 0)%nat).
    { intros ->. change (2 ^ Z.of_nat 1) with 2 in Hn. lia. }
    assert (Hn' : 0 <= n / 10 < 2 ^ Z.of_nat f).
    { rewrite Nat2Z.inj_succ, Z.pow_succ_r in Hn by lia. zdm. }
    destruct (IH (n / 10) ((48 + n mod 10) :: acc) Hn' Hf' a0) as [E1 E2].
    destruct (IH (n / 10) [48 + n mod 10] Hn' Hf' a0) as [_ E3].
    split.
    + rewrite E1. cbn [fold_left]. f_equal.
      rewrite E3, length_app. cbn [List.length].
      rewrite Nat2Z.inj_add. change (Z.of_nat 1) with 1.
      rewrite Z.pow_add_r, Z.pow_1_r by lia. zdm.
    + rewrite E2, E3, <- app_assoc. reflexivity.
Qed.

Lemma digit_not_space (c : Z) : 45 <= c <= 57 -> py_isspace c = false.
Proof.
  intros Hc. unfold py_isspace.
  repeat (apply orb_false_iff; split); try apply andb_false_iff; try lia.
  all: try (destruct (Z.leb_spec 9 c); [right; lia|left; reflexivity]).
  all: try (destruct (Z.leb_spec 28 c); [right; lia|left; reflexivity]).
  all: try (destruct (Z.leb_spec 8192 c); [right; lia|left; reflexivity]).
Qed.

Lemma lstrip_no_space (s : str) :
  Forall (fun c => 45 <= c <= 57) s -> py_lstrip s = s.
Proof.
  intros Hs. destruct Hs as [|c l Hc Hl]; [reflexivity|].
  cbn [py_lstrip]. rewrite (digit_not_space c Hc). reflexivity.
Qed.

Lemma strip_no_space (s : str) :
  Forall (fun c => 45 <= c <= 57) s -> py_strip s = s.
Proof.
  intros Hs. unfold py_strip.
  rewrite (lstrip_no_space s Hs), lstrip_no_space, rev_involutive; [reflexivity|].
  apply List.Forall_forall. intros c Hc. apply in_rev in Hc.
  rewrite List.Forall_forall in Hs. auto.
Qed.

Lemma dec_parse_digits (n : Z) :
  0 <= n ->
  Forall (fun c => 48 <= c <= 57) (Dec.digits (S (Z.to_nat (Z.log2 n))) n []) /\
  Dec.parse_digits (Dec.digits (S (Z.to_nat (Z.log2 n))) n []) 0 false = Some n.
Proof.
  intros Hn. set (fuel := S (Z.to_nat (Z.log2 n))).
  assert (Hd : Forall (fun c => 48 <= c <= 57) (Dec.digits fuel n []))
    by (apply dec_digits_chars; [lia|constructor]).
  split; [exact Hd|].
  assert (Hb : 0 <= n < 2 ^ Z.of_nat fuel).
  { unfold fuel. rewrite Nat2Z.inj_succ, Z2Nat.id by apply Z.log2_nonneg.
    destruct (Z.eq_dec n 0) as [->|Hne]; [simpl; lia|].
    pose proof (Z.log2_spec n). lia. }
  assert (Hne : Dec.digits fuel n [] <> []).
  { unfold fuel. cbn [Dec.digits]. destruct (n <? 10); [discriminate|].
    apply dec_digits_nonempty. discriminate. }
  destruct (dec_digits_value fuel n [] Hb ltac:(unfold fuel; lia) 0) as [Hv _].
  rewrite <- (app_nil_r (Dec.digits fuel n [])) at 1.
  rewrite parse_digits_app by exact Hd. rewrite Hv. cbn [fold_left].
  destruct (Dec.digits fuel n []); [contradiction|].
  cbn [Dec.parse_digits]. reflexivity.
Qed.

Lemma dec_to_str_chars (n : Z) :
  Forall (fun c => 45 <= c <= 57) (Dec.to_str n).
Proof.
  unfold Dec.to_str. destruct (Z.ltb_spec n 0).
  - constructor; [lia|]. destruct (dec_parse_digits (- n)) as [Hd _]; [lia|].
    eapply Forall_impl; [exact Hd|]. simpl. intros; lia.
  - destruct (dec_parse_digits n) as [Hd _]; [lia|].
    eapply Forall_impl; [exact Hd|]. simpl. intros; lia.
Qed.

Lemma dec_roundtrip (n : Z) : Dec.of_str (Dec.to_str n) = Some n.
Proof.
  unfold Dec.of_str. rewrite (strip_no_space _ (dec_to_str_chars n)).
  unfold Dec.to_str. destruct (Z.ltb_spec n 0).
  - destruct (dec_parse_digits (- n)) as [_ Hp]; [lia|].
    rewrite Hp. simpl. f_equal. lia.
  - destruct (dec_parse_digits n) as [Hd Hp]; [lia|].
    destruct (Dec.digits _ n []) as [|c t] eqn:E; [discriminate|].
    inversion Hd as [|? ? Hc _]; subst.
    destruct c as [|q|q]; try lia.
    do 6 (destruct q as [q|q|]; try lia; try exact Hp).
Qed.

(** ** Splitting *)

Lemma split_on_none (sep : Z) (s : str) :
  ~ In sep s -> split_on sep s = [s].
Proof.
  induction s as [|c t IH]; intros Hs; [reflexivity|].
  cbn [split_on]. destruct (Z.eqb_spec c sep) as [->|Hne].
  - exfalso. apply Hs. left. reflexivity.
  - rewrite IH; [reflexivity|]. intros Hin. apply Hs. right. exact Hin.
Qed.

Lemma split_on_app (sep : Z) (s t : str) :
  ~ In sep s -> split_on sep (s ++ sep :: t) = s :: split_on sep t.
Proof.
  induction s as [|c r IH]; intros Hs.
  - cbn [app split_on]. rewrite Z.eqb_refl. reflexivity.
  - cbn [app split_on]. destruct (Z.eqb_spec c sep) as [->|Hne].
    + exfalso. apply Hs. left. reflexivity.
    + rewrite IH; [reflexivity|]. intros Hin. apply Hs. right. exact Hin.
Qed.

(** ** Credentials *)

Section CredentialFacts.

Context (pbkdf2 : bytes -> bytes -> Z -> option bytes).

Lemma hash_password_shape (password : str) (iterations : Z) (w w' : World)
    (artifact : str) :
  _hash_password pbkdf2 password iterations w = (Ok artifact, w') ->
  exists pw h,
    Utf8.encode password = Some pw /\
    pbkdf2 pw (fresh_salt w) iterations = Some h /\
    artifact = Dec.to_str iterations ++ [DOLLAR] ++ Hex.hexlify (fresh_salt w)
               ++ [DOLLAR] ++ Hex.hexlify h /\
    w' = set_drawn w (drawn w + SALT_BYTES).
Proof.
  unfold _hash_password, bind, os_urandom, lift, ret, fresh_salt.
  destruct (Utf8.encode password) as [pw|]; simpl; [|discriminate].
  destruct (pbkdf2 pw _ iterations) as [h|] eqn:Eh; simpl; [|discriminate].
  intros [= <- <-]. exists pw, h. repeat split. exact Eh.
Qed.

(** [_hash_password] raises only for a password the codec refuses or an
    iteration count the key derivation refuses. *)
Lemma hash_password_returns (password : str) (iterations : Z) (w : World)
    (pw h : bytes) :
  Utf8.encode password = Some pw ->
  pbkdf2 pw (fresh_salt w) iterations = Some h ->
  exists artifact w',
    _hash_password pbkdf2 password iterations w = (Ok artifact, w').
Proof.
  intros Hpw Hh. unfold fresh_salt in Hh.
  unfold _hash_password, bind, os_urandom, lift, ret.
  rewrite Hpw. cbn -[seq SALT_BYTES]. rewrite Hh. cbn -[seq SALT_BYTES].
  eexists _, _. reflexivity.
Qed.

Lemma not_dollar_dec (n : Z) : ~ In DOLLAR (Dec.to_str n).
Proof.
  intros Hin. pose proof (dec_to_str_chars n) as Hc.
  rewrite List.Forall_forall in Hc. specialize (Hc _ Hin).
  unfold DOLLAR in Hc. lia.
Qed.

Lemma not_dollar_hex (b : bytes) : ~ In DOLLAR (Hex.hexlify b).
Proof.
  intros Hin. apply hex_digit_chars in Hin. unfold DOLLAR in Hin. lia.
Qed.

Lemma split_artifact (iterations : Z) (salt h : bytes) :
  split_on DOLLAR (Dec.to_str iterations ++ [DOLLAR] ++ Hex.hexlify salt
                   ++ [DOLLAR] ++ Hex.hexlify h)
  = [Dec.to_str iterations; Hex.hexlify salt; Hex.hexlify h].
Proof.
  cbn [app]. rewrite split_on_app by apply not_dollar_dec.
  rewrite split_on_app by apply not_dollar_hex.
  rewrite split_on_none by apply not_dollar_hex. reflexivity.
Qed.

(** What [_verify_password] computes on a well-formed artifact. *)
Lemma verify_artifact (iterations : Z) (salt h : bytes) (provided : str) :
  _verify_password pbkdf2
    (Dec.to_str iterations ++ [DOLLAR] ++ Hex.hexlify salt
     ++ [DOLLAR] ++ Hex.hexlify h) provided
  = match Utf8.encode provided with
    | Some pw =>
        match pbkdf2 pw salt iterations with
        | Some h' => compare_digest h' h
        | None => false
        end
    | None => false
    end.
Proof.
  unfold _verify_password.
  rewrite split_artifact, dec_roundtrip, !hex_roundtrip. reflexivity.
Qed.

(** C2.  The artifact [_hash_password] has just produced for a password
    verifies against that password; against any other password it is
    refused, unless the two passwords collide under the key derivation
    with the artifact's salt and iteration count. *)
Theorem verify_fresh_artifact (password : str) (iterations : Z) (w w' : World)
    (artifact : str) :
  _hash_password pbkdf2 password iterations w = (Ok artifact, w') ->
  _verify_password pbkdf2 artifact password = true /\
  forall other : str,
    other <> password ->
    ~ hash_collision pbkdf2 password other (fresh_salt w) iterations ->
    _verify_password pbkdf2 artifact other = false.
Proof.
  intros Hh. apply hash_password_shape in Hh as (pw & h & Hpw & Hk & -> & _).
  split.
  - rewrite verify_artifact, Hpw, Hk. unfold compare_digest.
    apply bool_decide_eq_true. reflexivity.
  - intros other _ Hnc. rewrite verify_artifact.
    destruct (Utf8.encode other) as [pw'|] eqn:Eo; [|reflexivity].
    destruct (pbkdf2 pw' (fresh_salt w) iterations) as [h'|] eqn:Ek;
      [|reflexivity].
    unfold compare_digest. apply bool_decide_eq_false. intros ->.
    apply Hnc. exists pw, pw'. repeat split; try assumption. congruence.
Qed.

End CredentialFacts.

Lemma verify_fresh_artifact_witness :
  _verify_password toy_pbkdf2 drB_artifact (lit "pw1") = true /\
  _verify_password toy_pbkdf2 drB_artifact (lit "wrong") = false.
Proof.
  assert (H : _hash_password toy_pbkdf2 (lit "pw1") PBKDF2_ITERATIONS empty_world
              = (Ok drB_artifact,
                 set_drawn empty_world (drawn empty_world + SALT_BYTES)))
    by (vm_compute; reflexivity).
  destruct (verify_fresh_artifact toy_pbkdf2 _ _ _ _ _ H) as [Hsame Hother].
  split; [exact Hsame|].
  apply Hother.
  - vm_compute. discriminate.
  - intros (b1 & b2 & E1 & E2 & E3).
    vm_compute in E1. vm_compute in E2.
    injection E1 as <-. injection E2 as <-.
    vm_compute in E3. discriminate.
Defined.

(** ** Audit log *)

Ltac run_cases :=
  repeat (cbn -[normalize_action Datetime.strftime Utf8.encodable VALID_ACTIONS lit];
    match goal with
    | |- context [match faults ?w with _ => _ end] =>
        destruct (faults w) as [|[] ?] eqn:?
    | |- context [match ?l with [] => _ | _ :: _ => _ end] =>
        is_var l; destruct l as [|[] ?]
    | |- context [if Utf8.encodable ?s then _ else _] =>
        destruct (Utf8.encodable s) eqn:?
    end).

Section AuditFacts.

Context (str_lower : str -> str).


(** What a call of [log_action] does to the world. *)
Lemma log_action_outcome (user_id : option Z) (role : str)
    (action : option str) (details : str) (w : World) :
  exists w',
    log_action str_lower user_id role action details w = (Ok tt, w') /\
    users (db w') = users (db w) /\
    patients (db w') = patients (db w) /\
    settings_file w' = settings_file w /\
    clock w' = clock w /\
    (faults w = [] -> faults w' = []) /\
    ((logs (db w') = logs (db w) /\
      exists e, stdout w' = stdout w ++ [ConnectedTo; LoggerError e])
     \/
     (exists ts,
        logs (db w') = logs (db w)
          ++ [mk_log user_id role (normalize_action str_lower action) ts details]) /\
      stdout w' = stdout w ++ [ConnectedTo]).
Proof.
  unfold log_action, get_connection, try_finally, try_except,
    execute_insert_log, commit, close, bind, print, storage_call,
    datetime_now, bind_text, ret, raise.
  run_cases;
    (eexists; split; [reflexivity|]; cbn;
     repeat split; try congruence; try discriminate;
     first [ left; split; [reflexivity|]; rewrite <- app_assoc; eexists; reflexivity
           | right; split; [eexists; reflexivity|reflexivity] ]).
Qed.

End AuditFacts.

Section AuditClaim.

Context (str_lower : str -> str).


End AuditClaim.

Example log_action_unknown_tag :
  normalize_action ascii_lower (Some (lit "frobnicate")) = lit "other".
Proof. reflexivity. Qed.

Example log_action_known_tag :
  normalize_action ascii_lower (Some (lit "  GDPR_Delete ")) = lit "gdpr_delete".
Proof. reflexivity. Qed.

Example log_action_storage_outage :
  fst (log_action ascii_lower (Some 1) (lit "doctor") (Some (lit "login")) (lit "x")
         (set_faults sample_world [true])) = Ok tt.
Proof. reflexivity. Qed.

(** ** Authentication *)

Lemma user_dict_truthy (row : user_row) : dict_truthy (user_dict row) = true.
Proof.
  unfold dict_truthy, user_dict. apply bool_decide_eq_true.
  apply insert_non_empty.
Qed.

Lemma user_dict_password (row : user_row) :
  user_dict row !! "password"%string = Some (PStr (u_password row)).
Proof. reflexivity. Qed.

Lemma user_dict_user_id (row : user_row) :
  user_dict row !! "user_id"%string = Some (PInt (u_user_id row)).
Proof. reflexivity. Qed.

Lemma user_dict_role (row : user_row) :
  user_dict row !! "role"%string = Some (PStr (u_role row)).
Proof. reflexivity. Qed.

(** When the lookup answers, it answers with the first row of that name. *)
Lemma get_user_by_username_answer (username : str) (w w' : World)
    (user : option (gmap string pyval)) :
  get_user_by_username username w = (Ok user, w') ->
  user = option_map user_dict
           (List.find (fun r => str_eqb (u_username r) username) (users (db w))).
Proof.
  unfold get_user_by_username, get_connection, try_finally,
    execute_select_user, close, bind, print, storage_call, bind_text, ret, raise.
  run_cases; intros [= <- <-]; reflexivity.
Qed.

Lemma get_user_by_username_row (username : str) (w w' : World)
    (d : gmap string pyval) :
  get_user_by_username username w = (Ok (Some d), w') ->
  exists row, In row (users (db w)) /\ u_username row = username /\
              d = user_dict row.
Proof.
  intros H. apply get_user_by_username_answer in H.
  destruct (List.find _ _) as [row|] eqn:E; [|discriminate].
  injection H as ->. apply find_some in E as [Hin Heq].
  apply bool_decide_eq_true in Heq. exists row. auto.
Qed.

(** With the storage layer up, the lookup answers. *)
Lemma get_user_by_username_healthy (username : str) (w : World) :
  faults w = [] -> Utf8.encodable username = true ->
  get_user_by_username username w
  = (Ok (option_map user_dict
           (List.find (fun r => str_eqb (u_username r) username) (users (db w)))),
     set_stdout w (stdout w ++ [ConnectedTo])).
Proof.
  intros Hf He.
  unfold get_user_by_username, get_connection, try_finally,
    execute_select_user, close, bind, print, storage_call, bind_text, ret, raise.
  cbn. rewrite Hf. cbn. rewrite Hf, He. reflexivity.
Qed.

Lemma ignoring_returns (m : M unit) (w : World) :
  exists w', ignoring m w = (Ok tt, w').
Proof.
  unfold ignoring, try_except, ret.
  destruct (m w) as [[[]|e] w']; eexists; reflexivity.
Qed.

Section AuthenticationFacts.

Context (str_lower : str -> str).
Context (pbkdf2 : bytes -> bytes -> Z -> option bytes).

Lemma log_failed_login_returns (user : option (gmap string pyval))
    (username : str) (w : World) :
  exists w', log_failed_login str_lower user username w = (Ok tt, w').
Proof. apply ignoring_returns. Qed.

Lemma authenticate_unknown (username password : str) (w : World) :
  unknown_user username w ->
  exists w', authenticate_user str_lower pbkdf2 username password w = (Ok None, w').
Proof.
  intros [w1 Hlook]. unfold authenticate_user, bind. rewrite Hlook.
  destruct (log_failed_login_returns None username w1) as [w2 Hlog].
  rewrite Hlog. eexists. reflexivity.
Qed.

Lemma authenticate_wrong_password (username password : str) (row : user_row)
    (w : World) :
  known_user username row w ->
  _verify_password pbkdf2 (u_password row) password = false ->
  exists w', authenticate_user str_lower pbkdf2 username password w = (Ok None, w').
Proof.
  intros [w1 Hlook] Hbad. unfold authenticate_user, bind.
  rewrite Hlook, user_dict_truthy.
  unfold getitem, lift. rewrite user_dict_password.
  cbn [of_option verify_stored]. rewrite Hbad.
  destruct (log_failed_login_returns (Some (user_dict row)) username w1)
    as [w2 Hlog].
  rewrite Hlog. eexists. reflexivity.
Qed.

Lemma authenticate_success (username password : str) (row : user_row)
    (w : World) :
  known_user username row w ->
  _verify_password pbkdf2 (u_password row) password = true ->
  exists w',
    authenticate_user str_lower pbkdf2 username password w
    = (Ok (Some (user_dict row)), w').
Proof.
  intros [w1 Hlook] Hgood. unfold authenticate_user, bind.
  rewrite Hlook, user_dict_truthy.
  unfold getitem at 1. unfold lift. rewrite user_dict_password.
  cbn [of_option verify_stored]. rewrite Hgood.
  match goal with
  | |- context [ignoring ?m w1] =>
      destruct (ignoring_returns m w1) as [w2 Hlog]
  end.
  rewrite Hlog. eexists. reflexivity.
Qed.

(** C7.  An attempt with a user name the lookup does not know and an
    attempt with a known user name and a password that does not verify
    give the caller the same value, [None]. *)
Theorem failed_logins_indistinguishable
    (username1 password1 : str) (w1 : World)
    (username2 password2 : str) (row : user_row) (w2 : World) :
  unknown_user username1 w1 ->
  known_user username2 row w2 ->
  _verify_password pbkdf2 (u_password row) password2 = false ->
  exists w1' w2',
    authenticate_user str_lower pbkdf2 username1 password1 w1 = (Ok None, w1') /\
    authenticate_user str_lower pbkdf2 username2 password2 w2 = (Ok None, w2').
Proof.
  intros Hunknown Hknown Hbad.
  destruct (authenticate_unknown username1 password1 w1 Hunknown) as [w1' H1].
  destruct (authenticate_wrong_password username2 password2 row w2 Hknown Hbad)
    as [w2' H2].
  exists w1', w2'. split; assumption.
Qed.

(** C10.  The record a successful authentication returns is the
    dictionary of the stored row, whose ["password"] entry is the stored
    artifact, the one the supplied password verified against. *)
Theorem successful_login_returns_credential (username password : str)
    (w w' : World) (user : gmap string pyval) :
  authenticate_user str_lower pbkdf2 username password w = (Ok (Some user), w') ->
  exists row,
    In row (users (db w)) /\ u_username row = username /\
    user = user_dict row /\
    user !! "password"%string = Some (PStr (u_password row)) /\
    _verify_password pbkdf2 (u_password row) password = true.
Proof.
  unfold authenticate_user, bind.
  destruct (get_user_by_username username w) as [[[d|]|e] w1] eqn:Hlook.
  - apply get_user_by_username_row in Hlook as (row & Hin & Hname & ->).
    rewrite user_dict_truthy. unfold getitem at 1. unfold lift.
    rewrite user_dict_password. cbn [of_option verify_stored].
    destruct (_verify_password pbkdf2 (u_password row) password) eqn:Hv.
    + match goal with
      | |- context [ignoring ?m w1] =>
          destruct (ignoring_returns m w1) as [w2 Hlog]
      end.
      rewrite Hlog. unfold ret. intros [= <- <-].
      exists row. repeat split; assumption.
    + destruct (log_failed_login str_lower _ username w1) as [[[]|] ?];
        unfold ret; discriminate.
  - destruct (log_failed_login str_lower _ username w1) as [[[]|] ?];
      unfold ret; discriminate.
  - discriminate.
Qed.

End AuthenticationFacts.

Lemma failed_logins_indistinguishable_witness :
  fst (authenticate_user ascii_lower toy_pbkdf2 (lit "nobody") (lit "pw1") sample_world)
    = Ok None /\
  fst (authenticate_user ascii_lower toy_pbkdf2 (lit "drB") (lit "wrong") sample_world)
    = Ok None.
Proof.
  assert (Hu : unknown_user (lit "nobody") sample_world).
  { eexists. apply get_user_by_username_healthy; reflexivity. }
  assert (Hk : known_user (lit "drB")
                 (mk_user 1 (lit "drB") drB_artifact (lit "doctor")) sample_world).
  { eexists. apply get_user_by_username_healthy; reflexivity. }
  assert (Hbad : _verify_password toy_pbkdf2 drB_artifact (lit "wrong") = false)
    by (vm_compute; reflexivity).
  destruct (failed_logins_indistinguishable ascii_lower toy_pbkdf2
              (lit "nobody") (lit "pw1") sample_world
              (lit "drB") (lit "wrong") _ sample_world Hu Hk Hbad)
    as (w1' & w2' & H1 & H2).
  rewrite H1, H2. split; reflexivity.
Defined.

Lemma successful_login_returns_credential_witness :
  exists user w',
    authenticate_user ascii_lower toy_pbkdf2 (lit "drB") (lit "pw1") sample_world
      = (Ok (Some user), w') /\
    user !! "password"%string = Some (PStr drB_artifact).
Proof.
  assert (Hk : known_user (lit "drB")
                 (mk_user 1 (lit "drB") drB_artifact (lit "doctor")) sample_world).
  { eexists. apply get_user_by_username_healthy; reflexivity. }
  assert (Hgood : _verify_password toy_pbkdf2 drB_artifact (lit "pw1") = true)
    by (vm_compute; reflexivity).
  destruct (authenticate_success ascii_lower toy_pbkdf2 (lit "drB") (lit "pw1")
              _ sample_world Hk Hgood) as [w' Hrun].
  eexists _, w'. split; [exact Hrun|].
  destruct (successful_login_returns_credential ascii_lower toy_pbkdf2
              _ _ _ _ _ Hrun) as (row & Hin & Hname & _ & Hpw & _).
  rewrite Hpw. destruct Hin as [<-|[]]. reflexivity.
Defined.

(** ** Password change *)

Ltac run_cases_opt :=
  repeat (cbn -[Datetime.strftime Utf8.encodable Utf8.encode lit seq
                Hex.hexlify Dec.to_str SALT_BYTES];
    match goal with
    | H : faults ?w = _ |- context [faults ?w] => rewrite H
    | |- context [match faults ?w with _ => _ end] =>
        destruct (faults w) as [|[] ?] eqn:?
    | |- context [match ?l with [] => _ | _ :: _ => _ end] =>
        is_var l; destruct l as [|[] ?]
    | |- context [if Utf8.encodable ?s then _ else _] =>
        destruct (Utf8.encodable s) eqn:?
    | |- context [of_option _ ?o] =>
        destruct o eqn:?
    | |- context [match ?o with Some _ => _ | None => _ end] =>
        destruct o eqn:?
    end).

(** The flags a run has taken are determined by what is left. *)
Ltac taken_flags H :=
  match type of H with
  | ?a :: ?b :: ?c :: ?l = _ ++ ?l => apply (app_inv_tail l [a; b; c]) in H
  | ?a :: ?b :: ?l = _ ++ ?l => apply (app_inv_tail l [a; b]) in H
  | ?a :: ?l = _ ++ ?l => apply (app_inv_tail l [a]) in H
  | ?l = _ ++ ?l => apply (app_inv_tail l []) in H
  end.

Section PasswordChangeFacts.

Context (pbkdf2 : bytes -> bytes -> Z -> option bytes).

(** C8, as the code has it.  [change_password] never raises.  When a
    storage call fails during the change, the failure is caught: the
    caller receives [False] and the tables are as they were. *)
Theorem change_password_absorbs_failures (user_id : Z) (new_password : str)
    (w : World) :
  exists (changed : bool) (w' : World),
    change_password pbkdf2 user_id new_password w = (Ok changed, w') /\
    (storage_failed w w' -> changed = false /\ db w' = db w).
Proof.
  unfold change_password, get_connection, try_finally, try_except,
    _hash_password, execute_update_password, commit, close, bind, print,
    storage_call, os_urandom, bind_text, lift, ret, raise.
  run_cases_opt;
    (eexists _, _; split; [reflexivity|];
     intros [taken H];
     first [ split; reflexivity
           | exfalso; cbn in H;
             match goal with E : faults w = _ |- _ => rewrite E in H end;
             destruct H as [Ht Hin];
             taken_flags Ht; subst taken; simpl in Hin;
             intuition discriminate ]).
Qed.

End PasswordChangeFacts.

(** The claim of C8 fails where the first storage call of a password
    change fails: the call returns [False], nothing is raised. *)
Lemma change_password_swallows_storage_failure :
  storage_failed
    (set_faults sample_world [true])
    (snd (change_password toy_pbkdf2 1 (lit "pw2") (set_faults sample_world [true])))
  /\
  fst (change_password toy_pbkdf2 1 (lit "pw2") (set_faults sample_world [true]))
  = Ok false.
Proof.
  split; [|reflexivity].
  exists [true]. split; [reflexivity|]. left. reflexivity.
Qed.

Lemma change_password_absorbs_failures_witness :
  exists w',
    change_password toy_pbkdf2 1 (lit "pw2") (set_faults sample_world [false; true])
    = (Ok false, w') /\ db w' = db sample_world.
Proof.
  destruct (change_password_absorbs_failures toy_pbkdf2 1 (lit "pw2")
              (set_faults sample_world [false; true]))
    as (changed & w' & Hrun & Hfail).
  assert (Hw : faults w' = []).
  { assert (E : w' = snd (change_password toy_pbkdf2 1 (lit "pw2")
                            (set_faults sample_world [false; true])))
      by (rewrite Hrun; reflexivity).
    rewrite E. reflexivity. }
  destruct Hfail as [-> Hdb].
  - exists [false; true]. rewrite Hw. split; [reflexivity|].
    right. left. reflexivity.
  - exists w'. split; [exact Hrun|exact Hdb].
Defined.

(** ** Field encryption *)

Section EncryptionFacts.

Context (fernet_seal : Z -> bytes -> bytes -> bytes).
Context (fernet_open : bytes -> option bytes).

(** What the library promises of a [Fernet] object: a token it has
    built opens to the data under the same key, and a token is URL-safe
    base64 text, hence ASCII. *)
Hypothesis fernet_opens : forall now iv data,
  List.length iv = 16%nat -> fernet_open (fernet_seal now iv data) = Some data.
Hypothesis fernet_tokens_ascii : forall now iv data,
  List.length iv = 16%nat -> ascii_bytes (fernet_seal now iv data).

Lemma encrypt_data_returns (s : str) (data : bytes) (w : World) :
  Utf8.encode s = Some data ->
  exists now iv,
    List.length iv = 16%nat /\
    encrypt_data fernet_seal (Some s) w
    = (Ok (Some (List.map byte_to_Z (fernet_seal now iv data))),
       set_drawn (set_ticks (set_cipher_calls w (S (cipher_calls w)))
                    (S (ticks w))) (drawn w + 16)).
Proof.
  intros Hs.
  exists (epoch w (ticks w)), (List.map (rng w) (seq (drawn w) 16)).
  assert (Hlen : List.length (List.map (rng w) (seq (drawn w) 16)) = 16%nat)
    by (rewrite length_map, length_seq; reflexivity).
  split; [exact Hlen|].
  unfold encrypt_data, str_encode, fernet_encrypt, bytes_decode,
    count_cipher_call, time_time, os_urandom, bind, lift, ret.
  rewrite Hs. cbn -[seq].
  destruct (utf8_ascii_roundtrip _ (fernet_tokens_ascii (epoch w (ticks w)) _ data Hlen))
    as [Hdec _].
  rewrite Hdec. reflexivity.
Qed.

Lemma decrypt_data_returns (s : str) (data : bytes) (now : Z) (iv : bytes)
    (w : World) :
  Utf8.encode s = Some data -> List.length iv = 16%nat ->
  decrypt_data fernet_open (Some (List.map byte_to_Z (fernet_seal now iv data))) w
  = (Ok (Some s), set_cipher_calls w (S (cipher_calls w))).
Proof.
  intros Hs Hlen.
  unfold decrypt_data, str_encode, fernet_decrypt, bytes_decode,
    count_cipher_call, bind, lift, ret.
  destruct (utf8_ascii_roundtrip _ (fernet_tokens_ascii now iv data Hlen))
    as [_ Henc].
  rewrite Henc. cbn. rewrite (fernet_opens now iv data Hlen). cbn.
  rewrite (utf8_decode_encode _ _ Hs). reflexivity.
Qed.

(** C1, as the code has it.  For a string the UTF-8 codec accepts,
    [encrypt_data] returns a ciphertext that [decrypt_data] turns back
    into the string, in whatever state the process then is; [None] goes
    to [None] with the world, and so the count of cipher calls, left as
    it was. *)
Theorem decrypt_encrypt_roundtrip (s : str) (w : World) :
  Utf8.encodable s = true ->
  (exists (c : str) (w1 : World),
     encrypt_data fernet_seal (Some s) w = (Ok (Some c), w1) /\
     forall wd : World, exists wd',
       decrypt_data fernet_open (Some c) wd = (Ok (Some s), wd')) /\
  encrypt_data fernet_seal None w = (Ok None, w) /\
  decrypt_data fernet_open None w = (Ok None, w).
Proof.
  intros Hs. apply utf8_encodable_encodes in Hs as [data Hdata].
  split; [|split; reflexivity].
  destruct (encrypt_data_returns s data w Hdata) as (now & iv & Hlen & Henc).
  eexists _, _. split; [exact Henc|].
  intros wd. eexists. apply (decrypt_data_returns s data now iv wd Hdata Hlen).
Qed.

End EncryptionFacts.

Lemma toy_fernet_opens (now : Z) (iv data : bytes) :
  List.length iv = 16%nat -> toy_open (toy_seal now iv data) = Some data.
Proof.
  intros Hlen. unfold toy_open, toy_seal.
  assert (Hid : List.map byte_to_Z (List.map byte_of_Z (Hex.hexlify (iv ++ data)))
                = Hex.hexlify (iv ++ data)).
  { rewrite List.map_map. rewrite <- (List.map_id (Hex.hexlify (iv ++ data))) at 2.
    apply List.map_ext_in. intros c Hc. apply hex_digit_chars in Hc.
    apply byte_to_of_Z. lia. }
  rewrite Hid, hex_roundtrip.
  replace (16 <=? List.length (iv ++ data))%nat with true.
  - f_equal. rewrite <- Hlen. rewrite skipn_app, skipn_all, Nat.sub_diag.
    reflexivity.
  - symmetry. apply Nat.leb_le. rewrite length_app. lia.
Qed.

Lemma toy_fernet_ascii (now : Z) (iv data : bytes) :
  ascii_bytes (toy_seal now iv data).
Proof.
  unfold ascii_bytes, toy_seal. apply List.Forall_forall. intros b Hb.
  apply in_map_iff in Hb as (c & <- & Hc). apply hex_digit_chars in Hc.
  rewrite byte_to_of_Z by lia. lia.
Qed.

(** The claim of C1 fails on a string that holds a lone surrogate:
    [plaintext.encode()] raises. *)
Lemma encrypt_data_refuses_surrogate :
  encrypt_data toy_seal (Some [55296]) sample_world
  = (Raise UnicodeEncodeError, sample_world).
Proof. reflexivity. Qed.

Lemma decrypt_encrypt_roundtrip_witness :
  exists (c : str) (w1 wd' : World),
    encrypt_data toy_seal (Some (lit "flu")) sample_world = (Ok (Some c), w1) /\
    decrypt_data toy_open (Some c) w1 = (Ok (Some (lit "flu")), wd').
Proof.
  destruct (decrypt_encrypt_roundtrip toy_seal toy_open
              toy_fernet_opens (fun now iv data _ => toy_fernet_ascii now iv data)
              (lit "flu") sample_world eq_refl)
    as [(c & w1 & Henc & Hdec) _].
  destruct (Hdec w1) as [wd' Hd].
  exists c, w1, wd'. split; assumption.
Defined.

(** ** Retention: the order of stamps *)











(** ** Input validation *)

Lemma lstrip_nil (s : str) :
  py_lstrip s = [] <-> Forall (fun c => py_isspace c = true) s.
Proof.
  induction s as [|c t IH]; [split; constructor|].
  cbn [py_lstrip]. destruct (py_isspace c) eqn:E.
  - rewrite IH. split; [intros H; constructor; assumption|].
    intros H. inversion H; assumption.
  - split; [discriminate|]. intros H. inversion H. congruence.
Qed.

Lemma lstrip_suffix (s : str) :
  exists spaces, s = spaces ++ py_lstrip s /\
                 Forall (fun c => py_isspace c = true) spaces.
Proof.
  induction s as [|c t (sp & E & Hsp)]; [exists []; split; [reflexivity|constructor]|].
  cbn [py_lstrip]. destruct (py_isspace c) eqn:Ec.
  - exists (c :: sp). split; [cbn; congruence|constructor; assumption].
  - exists []. split; [reflexivity|constructor].
Qed.

(** [s.strip() == ""] holds exactly for the strings of white space. *)
Lemma strip_nil (s : str) :
  py_strip s = [] <-> Forall (fun c => py_isspace c = true) s.
Proof.
  unfold py_strip. split.
  - intros H. apply (f_equal (@rev Z)) in H. rewrite rev_involutive in H.
    cbn in H. apply lstrip_nil in H.
    destruct (lstrip_suffix s) as (sp & E & Hsp).
    rewrite E. apply Forall_app. split; [exact Hsp|].
    apply List.Forall_forall. intros c Hc. rewrite List.Forall_forall in H.
    apply H. apply in_rev. rewrite rev_involutive. exact Hc.
  - intros H. apply lstrip_nil in H. rewrite H. reflexivity.
Qed.

Lemma exists_non_space (t : str) :
  ~ Forall (fun c => py_isspace c = true) t ->
  Exists (fun c => py_isspace c = false) t.
Proof.
  induction t as [|c t IH]; intros H.
  - exfalso. apply H. constructor.
  - destruct (py_isspace c) eqn:E.
    + apply Exists_cons_tl. apply IH. intros Ht. apply H. constructor; assumption.
    + apply Exists_cons_hd. exact E.
Qed.

Section ValidatorFacts.

Context (isdigit : Z -> bool).

(** What the interpreter's tables give: ["+"] is not a digit, and no
    digit is white space. *)
Hypothesis plus_not_digit : isdigit 43 = false.
Hypothesis digit_not_blank : forall c, isdigit c = true -> py_isspace c = false.

Local Abbreviation validate_name := (Validators.validate_name isdigit).
Local Abbreviation validate_contact := (Validators.validate_contact isdigit).
Local Abbreviation validate_patient_input :=
  (Validators.validate_patient_input isdigit).

Lemma blank_spec (s : option str) :
  Validators.blank s = false <->
  exists t, s = Some t /\ Exists (fun c => py_isspace c = false) t.
Proof.
  destruct s as [t|]; cbn [Validators.blank].
  - unfold str_eqb. rewrite orb_false_iff, !bool_decide_eq_false, strip_nil.
    split.
    + intros [_ H]. exists t. split; [reflexivity|].
      apply exists_non_space. exact H.
    + intros (t' & [= <-] & H). apply List.Exists_exists in H as (c & Hin & Hc).
      split.
      * intros ->. destruct Hin.
      * intros HF. rewrite List.Forall_forall in HF.
        specialize (HF c Hin). congruence.
  - split; [discriminate|]. intros (t & [=] & _).
Qed.

Lemma app_nil_singleton {A} (x : A) : [] ++ [x] <> [].
Proof. discriminate. Qed.

Lemma validate_name_accepts (name : option str) :
  validate_name name = [] <->
  exists n, name = Some n /\ 3 <= Validators.len n /\
            Forall (fun c => isdigit c = false) n /\
            Exists (fun c => py_isspace c = false) n.
Proof.
  unfold Validators.validate_name.
  destruct (Validators.blank name) eqn:Eb.
  - split; [discriminate|]. intros (n & -> & _ & _ & Hn).
    assert (Validators.blank (Some n) = false); [|congruence].
    apply blank_spec. exists n. split; [reflexivity|exact Hn].
  - apply blank_spec in Eb as (n & -> & Hn). cbn [default from_option id].
    destruct (Z.ltb_spec (Validators.len n) 3) as [Hl|Hl].
    + split; [discriminate|]. intros (n' & [= <-] & H3 & _). lia.
    + destruct (existsb isdigit n) eqn:Ed.
      * split; [discriminate|]. intros (n' & [= <-] & _ & Hd & _).
        apply existsb_exists in Ed as (c & Hin & Hc).
        rewrite List.Forall_forall in Hd. specialize (Hd c Hin). congruence.
      * split; [|reflexivity]. intros _. exists n.
        split; [reflexivity|]. split; [exact Hl|]. split; [|exact Hn].
        apply List.Forall_forall. intros c Hin.
        destruct (isdigit c) eqn:Ec; [|reflexivity].
        assert (existsb isdigit n = true); [|congruence].
        apply existsb_exists. exists c. split; assumption.
Qed.

Lemma validate_diagnosis_accepts (diagnosis : option str) :
  Validators.validate_diagnosis diagnosis = [] <->
  exists d, diagnosis = Some d /\ 5 <= Validators.len d /\
            Exists (fun c => py_isspace c = false) d.
Proof.
  unfold Validators.validate_diagnosis.
  destruct (Validators.blank diagnosis) eqn:Eb.
  - split; [discriminate|]. intros (d & -> & _ & Hd).
    assert (Validators.blank (Some d) = false); [|congruence].
    apply blank_spec. exists d. split; [reflexivity|exact Hd].
  - apply blank_spec in Eb as (d & -> & Hd). cbn [default from_option id].
    destruct (Z.ltb_spec (Validators.len d) 5) as [Hl|Hl].
    + split; [discriminate|]. intros (d' & [= <-] & H5 & _). lia.
    + split; [|reflexivity]. intros _. exists d. auto.
Qed.

Lemma str_isdigit_spec (s : str) :
  Validators.str_isdigit isdigit s = true <->
  s <> [] /\ Forall (fun c => isdigit c = true) s.
Proof.
  unfold Validators.str_isdigit, str_eqb.
  rewrite andb_true_iff, negb_true_iff, bool_decide_eq_false, forallb_forall,
    List.Forall_forall.
  reflexivity.
Qed.

Lemma contact_digits_shape (c : str) :
  c = Validators.contact_digits c \/ c = 43 :: Validators.contact_digits c.
Proof.
  destruct c as [|x t]; [left; reflexivity|].
  cbn [Validators.contact_digits]. destruct (Z.eqb_spec x 43) as [->|]; auto.
Qed.

Lemma contact_digits_of (c digits : str) :
  c = digits \/ c = 43 :: digits ->
  Forall (fun c => isdigit c = true) digits ->
  Validators.contact_digits c = digits.
Proof.
  intros [->| ->] Hd.
  - destruct Hd as [|x t Hx Ht]; [reflexivity|].
    cbn [Validators.contact_digits].
    destruct (Z.eqb_spec x 43) as [->|]; [congruence|reflexivity].
  - reflexivity.
Qed.

(** A contact is accepted exactly when it is seven to fifteen digits,
    with or without a ["+"] in front. *)
Lemma validate_contact_accepts (contact : option str) :
  validate_contact contact = [] <->
  exists digits,
    (contact = Some digits \/ contact = Some (43 :: digits)) /\
    7 <= Validators.len digits <= 15 /\
    Forall (fun c => isdigit c = true) digits.
Proof.
  unfold Validators.validate_contact. split.
  - destruct (Validators.blank contact) eqn:Eb; [discriminate|].
    apply blank_spec in Eb as (c & -> & Hc). cbn [default from_option id].
    set (ds := Validators.contact_digits c).
    destruct (Validators.str_isdigit isdigit ds) eqn:Ed; cbn [negb];
      destruct ((Validators.len ds <? 7) || (15 <? Validators.len ds)) eqn:El;
      try discriminate.
    intros _. apply str_isdigit_spec in Ed as [_ Hall].
    apply orb_false_iff in El as [E1 E2]. apply Z.ltb_ge in E1, E2.
    exists ds. split; [|split; [lia|exact Hall]].
    destruct (contact_digits_shape c) as [E|E]; fold ds in E;
      [left|right]; f_equal; exact E.
  - intros (ds & Hc & Hlen & Hds).
    assert (Hne : ds <> []).
    { intros ->. unfold Validators.len in Hlen. cbn in Hlen. lia. }
    assert (Eb : Validators.blank contact = false).
    { apply blank_spec. destruct Hc as [-> | ->].
      - exists ds. split; [reflexivity|]. destruct Hds as [|c l Hc Hl].
        + congruence.
        + apply Exists_cons_hd. auto.
      - exists (43 :: ds). split; [reflexivity|]. apply Exists_cons_hd. reflexivity. }
    rewrite Eb.
    assert (Ec : Validators.contact_digits (default [] contact) = ds).
    { apply contact_digits_of; [|exact Hds].
      destruct Hc as [-> | ->]; cbn [default from_option id]; auto. }
    rewrite Ec.
    assert (Ed : Validators.str_isdigit isdigit ds = true)
      by (apply str_isdigit_spec; split; assumption).
    rewrite Ed. cbn [negb].
    destruct (Z.ltb_spec (Validators.len ds) 7); [lia|].
    destruct (Z.ltb_spec 15 (Validators.len ds)); [lia|]. reflexivity.
Qed.

Lemma mask_right_all_digits (digits : str) :
  Forall (fun c => isdigit c = true) digits ->
  Masking.mask_right isdigit digits
  = (repeat Masking.MASK (List.length digits - 4)
     ++ skipn (List.length digits - 4) digits,
     Z.of_nat (List.length digits)).
Proof.
  induction 1 as [|x t Hx Ht IH]; [reflexivity|].
  cbn [Masking.mask_right]. rewrite IH, Hx.
  destruct (Z.leb_spec (Z.of_nat (List.length t) + 1) 4) as [Hl|Hl].
  - replace (List.length t - 4)%nat with 0%nat by lia.
    replace (List.length (x :: t) - 4)%nat with 0%nat by (cbn [List.length]; lia).
    cbn. f_equal. lia.
  - replace (List.length (x :: t) - 4)%nat with (S (List.length t - 4))
      by (cbn [List.length]; lia).
    cbn. f_equal. lia.
Qed.

(** X1.  [validate_patient_input] returns no error exactly for a name
    of three or more characters that holds no digit and is not blank, a
    contact of seven to fifteen digits with or without a leading ["+"],
    and a diagnosis of five or more characters that is not blank;
    [None] is never accepted. *)
Theorem validate_patient_input_accepts (name contact diagnosis : option str) :
  validate_patient_input name contact diagnosis = [] <->
  exists n digits d,
    name = Some n /\ diagnosis = Some d /\
    (contact = Some digits \/ contact = Some (43 :: digits)) /\
    (3 <= Validators.len n /\
     Forall (fun c => isdigit c = false) n /\
     Exists (fun c => py_isspace c = false) n) /\
    (7 <= Validators.len digits <= 15 /\
     Forall (fun c => isdigit c = true) digits) /\
    (5 <= Validators.len d /\
     Exists (fun c => py_isspace c = false) d).
Proof.
  unfold Validators.validate_patient_input. cbn [app].
  split.
  - intros H. apply app_eq_nil in H as [H Hd]. apply app_eq_nil in H as [Hn Hc].
    apply validate_name_accepts in Hn as (n & -> & Hn).
    apply validate_contact_accepts in Hc as (digits & Hc & Hdigits).
    apply validate_diagnosis_accepts in Hd as (d & -> & Hd).
    exists n, digits, d. intuition auto.
  - intros (n & digits & d & -> & -> & Hc & Hn & Hdigits & Hd).
    assert (En : validate_name (Some n) = [])
      by (apply validate_name_accepts; exists n; intuition auto).
    assert (Ec : validate_contact contact = [])
      by (apply validate_contact_accepts; exists digits; intuition auto).
    assert (Ed : Validators.validate_diagnosis (Some d) = [])
      by (apply validate_diagnosis_accepts; exists d; intuition auto).
    rewrite En, Ec, Ed. reflexivity.
Qed.

(** X2.  A contact that [validate_contact] accepts is masked down to
    its last four digits: [mask_contact] keeps the leading ["+"] if
    there is one, writes ["X"] for every digit but the last four, and
    at least three digits are masked. *)
Theorem accepted_contact_masked (contact : str) :
  validate_contact (Some contact) = [] ->
  exists plus digits,
    contact = plus ++ digits /\ (plus = [] \/ plus = [43]) /\
    (7 <= List.length digits <= 15)%nat /\
    Masking.mask_contact isdigit contact
    = plus ++ repeat Masking.MASK (List.length digits - 4)
      ++ skipn (List.length digits - 4) digits.
Proof.
  intros H. apply validate_contact_accepts in H as (digits & Hc & Hlen & Hd).
  unfold Validators.len in Hlen.
  pose proof (mask_right_all_digits digits Hd) as Hm.
  destruct Hc as [[= ->]|[= ->]].
  - exists [], digits. split; [reflexivity|]. split; [left; reflexivity|].
    split; [lia|]. rewrite mask_contact_right, Hm. reflexivity.
  - exists [43], digits. split; [reflexivity|]. split; [right; reflexivity|].
    split; [lia|]. rewrite mask_contact_right.
    cbn [Masking.mask_right]. rewrite Hm, plus_not_digit. reflexivity.
Qed.

End ValidatorFacts.

Lemma ascii_digit_not_blank (c : Z) :
  ascii_isdigit c = true -> py_isspace c = false.
Proof.
  unfold ascii_isdigit. intros H. apply andb_true_iff in H as [H1 H2].
  apply Z.leb_le in H1, H2. apply digit_not_space. lia.
Qed.

Lemma validate_patient_input_accepts_witness :
  Validators.validate_patient_input ascii_isdigit
    (Some (lit "Ann Lee")) (Some (lit "+15551234567")) (Some (lit "fever")) = [].
Proof.
  apply (validate_patient_input_accepts ascii_isdigit eq_refl ascii_digit_not_blank).
  exists (lit "Ann Lee"), (lit "15551234567"), (lit "fever").
  split; [reflexivity|]. split; [reflexivity|]. split; [right; reflexivity|].
  split; [|split].
  - split; [vm_compute; discriminate|].
    split; [repeat constructor|apply Exists_cons_hd; reflexivity].
  - split; [split; vm_compute; discriminate|repeat constructor].
  - split; [vm_compute; discriminate|apply Exists_cons_hd; reflexivity].
Defined.

Lemma accepted_contact_masked_witness :
  exists plus digits,
    lit "+15551234567" = plus ++ digits /\ (plus = [] \/ plus = [43]) /\
    (7 <= List.length digits <= 15)%nat /\
    Masking.mask_contact ascii_isdigit (lit "+15551234567")
    = plus ++ repeat Masking.MASK (List.length digits - 4)
      ++ skipn (List.length digits - 4) digits.
Proof.
  apply (accepted_contact_masked ascii_isdigit eq_refl ascii_digit_not_blank).
  reflexivity.
Defined.

(** ** Single patients *)

Lemma bind_text_ok (s : str) :
  Utf8.encodable s = true -> bind_text s = ret tt.
Proof. intros H. unfold bind_text. rewrite H. reflexivity. Qed.

Lemma bind_int_ok (z : Z) :
  - 2 ^ 63 <= z < 2 ^ 63 -> bind_int z = ret tt.
Proof.
  intros H. unfold bind_int.
  destruct (Z.leb_spec (- 2 ^ 63) z); [|lia].
  destruct (Z.ltb_spec z (2 ^ 63)); [|lia]. reflexivity.
Qed.

Lemma find_filter_out {A} (f : A -> bool) (l : list A) :
  List.find f (List.filter (fun r => negb (f r)) l) = None.
Proof.
  induction l as [|a l IH]; [reflexivity|].
  cbn [List.filter]. destruct (f a) eqn:E; cbn [negb]; [exact IH|].
  cbn [List.find]. rewrite E. exact IH.
Qed.

Lemma find_map_same {A} (f : A -> bool) (g : A -> A) (l : list A) :
  (forall a, f (g a) = f a) ->
  List.find f (List.map g l) = option_map g (List.find f l).
Proof.
  intros H. induction l as [|a l IH]; [reflexivity|].
  cbn [List.map List.find]. rewrite H. destruct (f a); [reflexivity|exact IH].
Qed.

Ltac store_run Hf :=
  repeat (cbn -[lookup insert Datetime.strftime Datetime.sub_days log_action
                DEFAULT_SETTINGS normalize_action Utf8.encodable bind_int
                Z.of_nat Z.add Z.ltb Z.eqb swept spared lit List.filter
                List.map List.find];
          rewrite ?Hf).

(** X3.  With the storage layer up, [delete_patient] removes every row
    of that key and no other, touches neither users nor the audit log,
    returns the number of rows removed, and a look-up of the key
    afterwards finds nothing. *)
Theorem delete_patient_then_lookup (patient_id : Z) (w : World) :
  faults w = [] ->
  - 2 ^ 63 <= patient_id < 2 ^ 63 ->
  exists w1 w2,
    delete_patient patient_id w
    = (Ok (Z.of_nat (List.length
                       (List.filter (fun r => p_patient_id r =? patient_id)
                          (patients (db w))))), w1) /\
    patients (db w1)
    = List.filter (fun r => negb (p_patient_id r =? patient_id)) (patients (db w)) /\
    users (db w1) = users (db w) /\ logs (db w1) = logs (db w) /\
    get_patient_by_id patient_id w1 = (Ok None, w2).
Proof.
  intros Hf Hid.
  unfold delete_patient, get_patient_by_id, execute_delete_patient,
    execute_select_patient, get_connection, commit, close, bind, print,
    storage_call, ret.
  rewrite (bind_int_ok patient_id Hid). unfold ret.
  store_run Hf.
  eexists _, _. split; [reflexivity|].
  store_run Hf.
  rewrite find_filter_out. repeat split; reflexivity.
Qed.

(** X4.  With the storage layer up, [update_patient] returns the number
    of rows of that key, and a look-up of the key afterwards gives the
    row with the five new fields, its key and its creation stamp as
    before; a key that is not in the table changes nothing and counts
    zero. *)
Theorem update_patient_then_lookup (patient_id : Z)
    (name contact encrypted_diagnosis anonymized_name anonymized_contact : str)
    (w : World) :
  faults w = [] ->
  - 2 ^ 63 <= patient_id < 2 ^ 63 ->
  Utf8.encodable name = true ->
  Utf8.encodable contact = true ->
  Utf8.encodable encrypted_diagnosis = true ->
  Utf8.encodable anonymized_name = true ->
  Utf8.encodable anonymized_contact = true ->
  let old := List.find (fun r => p_patient_id r =? patient_id) (patients (db w)) in
  exists w1 w2,
    update_patient patient_id name contact encrypted_diagnosis
      anonymized_name anonymized_contact w
    = (Ok (Z.of_nat (List.length
                       (List.filter (fun r => p_patient_id r =? patient_id)
                          (patients (db w))))), w1) /\
    get_patient_by_id patient_id w1
    = (Ok (option_map
             (fun r => mk_patient patient_id name contact encrypted_diagnosis
                         anonymized_name anonymized_contact (p_date_added r))
             old), w2) /\
    (old = None -> db w1 = db w) /\
    (forall r, In r (patients (db w)) -> p_patient_id r <> patient_id ->
               In r (patients (db w1))).
Proof.
  intros Hf Hid H1 H2 H3 H4 H5 old.
  unfold update_patient, get_patient_by_id, execute_update_patient,
    execute_select_patient, get_connection, commit, close, bind, print,
    storage_call.
  rewrite (bind_int_ok patient_id Hid).
  rewrite !bind_text_ok by assumption. unfold ret.
  store_run Hf.
  eexists _, _. split; [reflexivity|].
  store_run Hf.
  split; [|split].
  - rewrite find_map_same.
    + fold old. destruct old as [r|] eqn:E; [|reflexivity].
      cbn [option_map]. apply find_some in E as [_ E].
      rewrite E. apply Z.eqb_eq in E. rewrite E. reflexivity.
    + intros a. destruct (p_patient_id a =? patient_id) eqn:E; cbn; exact E.
  - intros Hnone. destruct (db w) as [us ps ls]. cbn in *. f_equal.
    subst old. clear - Hnone. induction ps as [|a ps IH]; [reflexivity|].
    cbn [List.find] in Hnone. cbn [List.map].
    destruct (p_patient_id a =? patient_id); [discriminate|].
    f_equal. apply IH. exact Hnone.
  - intros r Hin Hne. apply in_map_iff. exists r. split; [|exact Hin].
    destruct (Z.eqb_spec (p_patient_id r) patient_id); [contradiction|reflexivity].
Qed.

(** X5.  Whatever the storage layer does, a call of [update_patient] or
    [delete_patient] that raises leaves the three tables as they were. *)
Theorem failed_patient_write_changes_nothing (patient_id : Z)
    (name contact encrypted_diagnosis anonymized_name anonymized_contact : str)
    (w : World) :
  (forall e w',
     update_patient patient_id name contact encrypted_diagnosis
       anonymized_name anonymized_contact w = (Raise e, w') -> db w' = db w) /\
  (forall e w', delete_patient patient_id w = (Raise e, w') -> db w' = db w).
Proof.
  split; intros e w';
    unfold update_patient, delete_patient, execute_update_patient,
      execute_delete_patient, get_connection, commit, close, bind, print,
      storage_call, bind_text, bind_int, ret, raise.
  - repeat (cbn -[Utf8.encodable Z.leb Z.ltb Z.pow List.map List.filter Z.of_nat];
      match goal with
      | |- context [match faults ?w with _ => _ end] =>
          destruct (faults w) as [|[] ?] eqn:?
      | |- context [match ?l with [] => _ | _ :: _ => _ end] =>
          is_var l; destruct l as [|[] ?]
      | |- context [if ?b then _ else _] => destruct b eqn:?
      end);
      intros [= <- <-]; reflexivity.
  - repeat (cbn -[Utf8.encodable Z.leb Z.ltb Z.pow List.map List.filter Z.of_nat];
      match goal with
      | |- context [match faults ?w with _ => _ end] =>
          destruct (faults w) as [|[] ?] eqn:?
      | |- context [match ?l with [] => _ | _ :: _ => _ end] =>
          is_var l; destruct l as [|[] ?]
      | |- context [if ?b then _ else _] => destruct b eqn:?
      end);
      intros [= <- <-]; reflexivity.
Qed.

Lemma delete_patient_then_lookup_witness :
  exists w1 w2,
    delete_patient 2 sample_world = (Ok 1, w1) /\
    List.map p_patient_id (patients (db w1)) = [1; 3; 4; 5] /\
    get_patient_by_id 2 w1 = (Ok None, w2).
Proof.
  destruct (delete_patient_then_lookup 2 sample_world eq_refl ltac:(lia))
    as (w1 & w2 & Hdel & Hp & _ & _ & Hget).
  exists w1, w2. split; [exact Hdel|]. split; [|exact Hget].
  rewrite Hp. reflexivity.
Defined.

Lemma update_patient_then_lookup_witness :
  exists w1 w2,
    update_patient 4 (lit "Jo Doe") (lit "5550001") (lit "gAAAA") (lit "ANON_12ab")
      (lit "XXX0001") sample_world = (Ok 1, w1) /\
    get_patient_by_id 4 w1
    = (Ok (Some (mk_patient 4 (lit "Jo Doe") (lit "5550001") (lit "gAAAA")
                   (lit "ANON_12ab") (lit "XXX0001") (lit "2021-11-05"))), w2).
Proof.
  destruct (update_patient_then_lookup 4 (lit "Jo Doe") (lit "5550001")
              (lit "gAAAA") (lit "ANON_12ab") (lit "XXX0001") sample_world
              eq_refl ltac:(lia) eq_refl eq_refl eq_refl eq_refl eq_refl)
    as (w1 & w2 & Hup & Hget & _).
  exists w1, w2. split; [exact Hup|exact Hget].
Defined.

Lemma failed_patient_write_changes_nothing_witness :
  fst (delete_patient 2 (set_faults sample_world [false; false; true]))
  = Raise OperationalError /\
  db (snd (delete_patient 2 (set_faults sample_world [false; false; true])))
  = db sample_world.
Proof.
  split; [reflexivity|].
  destruct (failed_patient_write_changes_nothing 2 [] [] [] [] []
              (set_faults sample_world [false; false; true])) as [_ Hdel].
  apply (Hdel OperationalError). reflexivity.
Defined.

(** ** Retention: the sweep *)

Lemma scalar_low (c : Z) : 0 <= c < 55296 -> Utf8.scalar c = true.
Proof.
  intros Hc. unfold Utf8.scalar, Utf8.is_surrogate.
  destruct (Z.leb_spec 0 c), (Z.ltb_spec c 1114112), (Z.leb_spec 55296 c);
    try lia; reflexivity.
Qed.

Lemma strftime_encodable (t : Datetime.datetime) :
  Utf8.encodable (Datetime.strftime t) = true.
Proof.
  unfold Utf8.encodable, Datetime.strftime, Datetime.strfdate,
    Datetime.strfclock, Datetime.pad4, Datetime.pad2.
  cbn [app forallb].
  rewrite !scalar_low by zdm. reflexivity.
Qed.

Ltac healthy Hf :=
  repeat (cbn -[lookup insert Datetime.strftime Datetime.sub_days log_action
                DEFAULT_SETTINGS normalize_action Utf8.encodable retention_details
                Z.of_nat Z.add Z.ltb swept spared lit];
          rewrite ?Hf).

Section RetentionFacts.

Context (str_lower : str -> str).

Lemma log_action_healthy (user_id : option Z) (role : str)
    (action : option str) (details : str) (w : World) :
  faults w = [] ->
  Utf8.encodable role = true ->
  Utf8.encodable (normalize_action str_lower action) = true ->
  Utf8.encodable details = true ->
  exists w',
    log_action str_lower user_id role action details w = (Ok tt, w') /\
    db w' = mk_db (users (db w)) (patients (db w))
              (logs (db w)
               ++ [mk_log user_id role (normalize_action str_lower action)
                     (Datetime.strftime (clock w (ticks w))) details]) /\
    settings_file w' = settings_file w /\
    faults w' = [] /\ clock w' = clock w /\ ticks w' = S (ticks w) /\
    stdout w' = stdout w ++ [ConnectedTo].
Proof.
  intros Hf Hr Ha Hd.
  unfold log_action, get_connection, try_finally, try_except,
    execute_insert_log, commit, close, bind, print, storage_call,
    datetime_now, bind_text, ret, raise.
  healthy Hf. rewrite Hr. healthy Hf. rewrite Ha. healthy Hf.
  rewrite strftime_encodable. healthy Hf. rewrite Hd. healthy Hf.
  eexists. split; [reflexivity|]. cbn. repeat split; assumption.
Qed.

End RetentionFacts.

Lemma lit_encodable (s : string) : Utf8.encodable (lit s) = true.
Proof.
  unfold Utf8.encodable, lit. apply forallb_forall. intros c Hc.
  apply in_map_iff in Hc as (a & <- & _). apply scalar_low.
  pose proof (N_ascii_bounded a). lia.
Qed.

Lemma encodable_app (a b : str) :
  Utf8.encodable (a ++ b) = Utf8.encodable a && Utf8.encodable b.
Proof. apply forallb_app. Qed.

Lemma dec_encodable (n : Z) : Utf8.encodable (Dec.to_str n) = true.
Proof.
  apply forallb_forall. intros c Hc.
  pose proof (dec_to_str_chars n) as H. rewrite List.Forall_forall in H.
  specialize (H c Hc). apply scalar_low. lia.
Qed.

Lemma retention_details_encodable (deleted_now retention_days : Z) :
  Utf8.encodable (retention_details deleted_now retention_days) = true.
Proof.
  unfold retention_details.
  rewrite !encodable_app, !lit_encodable, !dec_encodable. reflexivity.
Qed.

Section RetentionFacts2.

Context (str_lower : str -> str).

Lemma run_data_retention_healthy (user_id : option Z) (role : option str)
    (w : World) (days total : Z) (cutoff : Datetime.datetime) :
  faults w = [] ->
  retention_horizon w days ->
  cumulative_deleted w total ->
  Datetime.sub_days (clock w (ticks w)) days = Ok cutoff ->
  let cutoff_str := Datetime.strftime cutoff in
  let n := Z.of_nat (List.length (swept cutoff_str (patients (db w)))) in
  exists w',
    run_data_retention str_lower user_id role w = (Ok (n, total + n, days), w') /\
    faults w' = [] /\ clock w' = clock w /\
    users (db w') = users (db w) /\
    patients (db w') = spared cutoff_str (patients (db w)) /\
    settings_file w'
    = Some (<["last_run"%string := PStr (Datetime.strftime (clock w (S (ticks w))))]>
              (<["total_deleted_count"%string := PInt (total + n)]>
                 (<["last_deleted_count"%string := PInt n]> (effective_settings w)))) /\
    (n = 0 -> logs (db w') = logs (db w) /\ ticks w' = S (S (ticks w))) /\
    (0 < n ->
     Utf8.encodable (default (lit "system") role) = true ->
     Utf8.encodable (normalize_action str_lower (Some (lit "gdpr_delete"))) = true ->
     logs (db w')
     = logs (db w)
       ++ [mk_log user_id (default (lit "system") role)
             (normalize_action str_lower (Some (lit "gdpr_delete")))
             (Datetime.strftime (clock w (S (S (ticks w)))))
             (retention_details n days)]) /\
    (logs (db w') = logs (db w) \/
     exists ts,
       logs (db w')
       = logs (db w)
         ++ [mk_log user_id (default (lit "system") role)
               (normalize_action str_lower (Some (lit "gdpr_delete")))
               ts (retention_details n days)]).
Proof.
  intros Hf Hd Ht Hc cutoff_str n.
  unfold retention_horizon, cumulative_deleted, effective_settings in *.
  unfold run_data_retention, load_gdpr_settings, save_gdpr_settings, file_call,
    getitem, as_int, get_connection, execute_delete_patients, commit, close,
    datetime_now, storage_call, bind_text, print, bind, lift, ret, raise.
  healthy Hf.
  destruct (settings_file w) as [settings|] eqn:Hs.
  all: cbn [default from_option id] in Hd, Ht.
  all: healthy Hf; rewrite ?Hd; healthy Hf; rewrite Hc; healthy Hf;
    rewrite strftime_encodable; healthy Hf;
    rewrite lookup_insert_ne by discriminate; rewrite Ht; healthy Hf;
    fold cutoff_str;
    change (Z.of_nat (length (List.filter
              (fun r => text_leb (p_date_added r) cutoff_str) (patients (db w)))))
      with n;
    destruct (Z.ltb_spec 0 n) as [Hn|Hn].
  all: try match goal with
    | |- context [log_action ?a ?b ?c ?d ?e ?W] =>
        pose proof (log_action_healthy a b c d e W) as Hstrong;
        destruct (log_action_outcome a b c d e W)
          as (w2 & Hrun & Hu & Hp & Hsf & Hck & Hfl & Hlg); rewrite Hrun
    end.
  all: healthy Hf; rewrite lookup_insert_ne by discriminate;
    rewrite lookup_insert_eq; healthy Hf;
    eexists; (split; [reflexivity|]);
    cbn [db users patients logs settings_file clock faults ticks
         set_db set_settings_file set_ticks set_stdout set_faults] in *.
  all: repeat match goal with
    | |- _ /\ _ => split
    end;
    try first [ assumption | reflexivity | apply Hfl; assumption
              | intros Hz; exfalso; lia
              | intros _; split; reflexivity
              | left; reflexivity
              | intros _ Hrole Htag;
                destruct (Hstrong Hf Hrole Htag (retention_details_encodable _ _))
                  as (w3 & Hrun3 & Hdb3 & _);
                rewrite Hrun in Hrun3; injection Hrun3 as <-;
                rewrite Hdb3; reflexivity ].
  all: destruct Hlg as [[Hl _]|[[ts Hl] _]];
    [left; exact Hl | right; exists ts; exact Hl].
Qed.

End RetentionFacts2.


Lemma swept_spared_nil (c1 c2 : str) (rows : list patient_row) :
  (forall r, In r rows -> text_leb (p_date_added r) c2 = true ->
             text_leb (p_date_added r) c1 = true) ->
  swept c2 (spared c1 rows) = [].
Proof.
  intros H. unfold swept, spared. induction rows as [|r rows IH]; [reflexivity|].
  cbn [List.filter].
  destruct (text_leb (p_date_added r) c1) eqn:E1; cbn [negb].
  - apply IH. intros r' Hin. apply H. right. exact Hin.
  - cbn [List.filter].
    destruct (text_leb (p_date_added r) c2) eqn:E2.
    + rewrite (H r (or_introl eq_refl) E2) in E1. discriminate.
    + apply IH. intros r' Hin. apply H. right. exact Hin.
Qed.

Lemma spared_all (c : str) (rows : list patient_row) :
  swept c rows = [] -> spared c rows = rows.
Proof.
  unfold swept, spared. induction rows as [|r rows IH]; [reflexivity|].
  cbn [List.filter]. destruct (text_leb (p_date_added r) c); [discriminate|].
  cbn [negb]. intros H. f_equal. apply IH. exact H.
Qed.

Section RetentionTheorems.

Context (str_lower : str -> str).

(** X6.  With the storage layer and the settings file in order, a run
    of [run_data_retention] deletes the patients whose [date_added] text
    is at or below the cut-off text [strftime (now - days)], keeps the
    others in their order, leaves the users alone, and returns the
    number deleted, the running total raised by it, and the horizon; the
    settings file then holds those two counts and the same horizon. *)
Theorem retention_sweep_outcome (user_id : option Z) (role : option str)
    (w : World) (days total : Z) (cutoff : Datetime.datetime) :
  faults w = [] ->
  retention_horizon w days ->
  cumulative_deleted w total ->
  Datetime.sub_days (clock w (ticks w)) days = Ok cutoff ->
  exists n w',
    run_data_retention str_lower user_id role w = (Ok (n, total + n, days), w') /\
    n = Z.of_nat (List.length
                    (swept (Datetime.strftime cutoff) (patients (db w)))) /\
    patients (db w') = spared (Datetime.strftime cutoff) (patients (db w)) /\
    users (db w') = users (db w) /\
    retention_horizon w' days /\
    cumulative_deleted w' (total + n) /\
    effective_settings w' !! "last_deleted_count"%string = Some (PInt n).
Proof.
  intros Hf Hd Ht Hc.
  destruct (run_data_retention_healthy str_lower user_id role w days total cutoff
              Hf Hd Ht Hc)
    as (w' & Hrun & _ & _ & Hu & Hp & Hs & _).
  eexists _, w'. split; [exact Hrun|]. split; [reflexivity|].
  split; [exact Hp|]. split; [exact Hu|].
  unfold retention_horizon, cumulative_deleted, effective_settings in *.
  rewrite Hs. cbn [default from_option id].
  split; [|split].
  - rewrite !lookup_insert_ne by discriminate. exact Hd.
  - rewrite lookup_insert_ne by discriminate. rewrite lookup_insert_eq.
    reflexivity.
  - rewrite !lookup_insert_ne by discriminate. rewrite lookup_insert_eq.
    reflexivity.
Qed.


(** X8.  A second run right after the first, with no record whose stamp
    lies between the two cut-offs, deletes nothing: it returns zero and
    the same running total, and the patients and the stored total are
    as the first run left them. *)
Theorem retention_second_sweep (user_id : option Z) (role : option str)
    (w w1 : World) (days total n : Z) (cutoff cutoff' : Datetime.datetime) :
  faults w = [] ->
  retention_horizon w days ->
  cumulative_deleted w total ->
  Datetime.sub_days (clock w (ticks w)) days = Ok cutoff ->
  run_data_retention str_lower user_id role w = (Ok (n, total + n, days), w1) ->
  Datetime.sub_days (clock w1 (ticks w1)) days = Ok cutoff' ->
  (forall row, In row (patients (db w)) ->
     text_leb (p_date_added row) (Datetime.strftime cutoff') = true ->
     text_leb (p_date_added row) (Datetime.strftime cutoff) = true) ->
  exists w2,
    run_data_retention str_lower user_id role w1 = (Ok (0, total + n, days), w2) /\
    patients (db w2) = patients (db w1) /\
    cumulative_deleted w2 (total + n).
Proof.
  intros Hf Hd Ht Hc Hrun1 Hc' Hquiet.
  destruct (run_data_retention_healthy str_lower user_id role w days total cutoff
              Hf Hd Ht Hc)
    as (w1' & Hrun & Hf1 & _ & _ & Hp & Hs & _).
  rewrite Hrun1 in Hrun. injection Hrun as Hn _ Hw. subst w1'.
  rewrite <- Hn in Hs.
  assert (Hd1 : retention_horizon w1 days).
  { unfold retention_horizon, effective_settings in *. rewrite Hs.
    cbn [default from_option id]. rewrite !lookup_insert_ne by discriminate.
    exact Hd. }
  assert (Ht1 : cumulative_deleted w1 (total + n)).
  { unfold cumulative_deleted, effective_settings in *. rewrite Hs.
    cbn [default from_option id]. rewrite lookup_insert_ne by discriminate.
    rewrite lookup_insert_eq. reflexivity. }
  destruct (run_data_retention_healthy str_lower user_id role w1 days (total + n)
              cutoff' Hf1 Hd1 Ht1 Hc')
    as (w2 & Hrun2 & _ & _ & _ & Hp2 & Hs2 & _).
  assert (Hnone : swept (Datetime.strftime cutoff') (patients (db w1)) = []).
  { rewrite Hp. apply swept_spared_nil. exact Hquiet. }
  rewrite Hnone in Hrun2, Hs2. cbn [List.length Z.of_nat] in Hrun2, Hs2.
  rewrite Z.add_0_r in Hrun2, Hs2.
  exists w2. split; [exact Hrun2|]. split.
  - rewrite Hp2. apply spared_all. exact Hnone.
  - unfold cumulative_deleted, effective_settings. rewrite Hs2.
    cbn [default from_option id]. rewrite lookup_insert_ne by discriminate.
    rewrite lookup_insert_eq. reflexivity.
Qed.

(** X9.  A settings file without the key ["retention_days"] stops the
    run before anything is deleted: [run_data_retention] raises
    [KeyError] (or [OSError], when the file cannot be read), and tables
    and settings file are as they were. *)
Theorem retention_missing_horizon (user_id : option Z) (role : option str)
    (w : World) (settings : gmap string pyval) :
  settings_file w = Some settings ->
  settings !! "retention_days"%string = None ->
  exists e w',
    run_data_retention str_lower user_id role w = (Raise e, w') /\
    db w' = db w /\ settings_file w' = Some settings /\
    (e = KeyError \/ e = OSError /\ exists rest, faults w = true :: rest).
Proof.
  intros Hs Hk.
  unfold run_data_retention, load_gdpr_settings, file_call, getitem, bind, lift.
  destruct (faults w) as [|[] rest] eqn:Hf; cbn; rewrite ?Hs, ?Hk; cbn.
  - eexists _, _. split; [reflexivity|]. repeat split; auto.
  - eexists _, _. split; [reflexivity|]. cbn. repeat split; eauto.
  - eexists _, _. split; [reflexivity|]. cbn. repeat split; auto.
Qed.


(** X11.  [gdpr_data_retention] of [core/database.py] is the same sweep
    as [run_data_retention] under the same horizon: from the same state
    both delete the same patients and count the same number; but it
    writes no audit entry and leaves the settings file alone. *)
Theorem gdpr_data_retention_same_sweep (user_id : option Z) (role : option str)
    (w : World) (days total : Z) (cutoff : Datetime.datetime) :
  faults w = [] ->
  retention_horizon w days ->
  cumulative_deleted w total ->
  Datetime.sub_days (clock w (ticks w)) days = Ok cutoff ->
  exists n wa wb,
    gdpr_data_retention days w = (Ok n, wa) /\
    run_data_retention str_lower user_id role w = (Ok (n, total + n, days), wb) /\
    patients (db wa) = patients (db wb) /\
    users (db wa) = users (db w) /\
    logs (db wa) = logs (db w) /\
    settings_file wa = settings_file w.
Proof.
  intros Hf Hd Ht Hc.
  destruct (run_data_retention_healthy str_lower user_id role w days total cutoff
              Hf Hd Ht Hc)
    as (wb & Hrun & _ & _ & _ & Hp & _).
  unfold gdpr_data_retention, get_connection, execute_delete_patients, commit,
    close, datetime_now, storage_call, bind_text, print, bind, lift, ret, raise.
  healthy Hf. rewrite Hc. healthy Hf. rewrite strftime_encodable. healthy Hf.
  eexists _, _, wb. split; [reflexivity|]. split; [exact Hrun|].
  cbn. rewrite Hp. repeat split; reflexivity.
Qed.

End RetentionTheorems.

(** X12.  What [load_gdpr_settings] returns is what [save_gdpr_settings]
    stored last; when there is no file yet it returns the defaults (a
    horizon of 1825 days, counts of zero, no last run) and writes them,
    so that the next load reads them from the file. *)
Theorem gdpr_settings_round_trip (w : World) :
  faults w = [] ->
  (forall settings, exists w1,
     save_gdpr_settings settings w = (Ok tt, w1) /\
     load_gdpr_settings w1 = (Ok settings, w1)) /\
  (settings_file w = None ->
   exists w1,
     load_gdpr_settings w = (Ok DEFAULT_SETTINGS, w1) /\
     settings_file w1 = Some DEFAULT_SETTINGS /\
     load_gdpr_settings w1 = (Ok DEFAULT_SETTINGS, w1) /\
     DEFAULT_SETTINGS !! "retention_days"%string = Some (PInt 1825)).
Proof.
  intros Hf. split.
  - intros settings.
    unfold save_gdpr_settings, load_gdpr_settings, file_call, bind, ret.
    rewrite Hf. eexists. split; [reflexivity|]. cbn. rewrite Hf. reflexivity.
  - intros Hs.
    unfold load_gdpr_settings, save_gdpr_settings, file_call, bind, ret.
    rewrite Hf, Hs. cbn -[DEFAULT_SETTINGS]. rewrite ?Hf.
    eexists. split; [reflexivity|]. cbn -[DEFAULT_SETTINGS]. rewrite ?Hf.
    repeat split; reflexivity.
Qed.

(** The cut-off of the sample world: 1825 days before 2026-11-04 10:30:00. *)
Lemma sample_cutoff :
  Datetime.sub_days (clock sample_world (ticks sample_world)) 1825
  = Ok (Datetime.mk 2021 11 5 10 30 0 0).
Proof. vm_compute. reflexivity. Qed.

Lemma sample_horizon : retention_horizon sample_world 1825.
Proof. vm_compute. reflexivity. Qed.

Lemma sample_cumulative : cumulative_deleted sample_world 0.
Proof. vm_compute. reflexivity. Qed.

Lemma retention_sweep_outcome_witness :
  exists w',
    run_data_retention ascii_lower None None sample_world
    = (Ok (3, 3, 1825), w') /\
    List.map p_patient_id (patients (db w')) = [3; 5].
Proof.
  destruct (retention_sweep_outcome ascii_lower None None sample_world 1825 0
              (Datetime.mk 2021 11 5 10 30 0 0)
              eq_refl sample_horizon sample_cumulative sample_cutoff)
    as (n & w' & Hrun & Hn & Hp & _).
  vm_compute in Hn. subst n.
  exists w'. split; [exact Hrun|]. rewrite Hp. vm_compute. reflexivity.
Defined.


Lemma retention_second_sweep_witness :
  exists w1 w2,
    run_data_retention ascii_lower None None sample_world
    = (Ok (3, 3, 1825), w1) /\
    run_data_retention ascii_lower None None w1 = (Ok (0, 3, 1825), w2).
Proof.
  destruct (run_data_retention_healthy ascii_lower None None sample_world 1825 0
              (Datetime.mk 2021 11 5 10 30 0 0)
              eq_refl sample_horizon sample_cumulative sample_cutoff)
    as (w1 & Hrun & _ & Hck & _).
  assert (Hrun1 : run_data_retention ascii_lower None None sample_world
                  = (Ok (3, 0 + 3, 1825), w1)) by exact Hrun.
  assert (Hc1 : Datetime.sub_days (clock w1 (ticks w1)) 1825
                = Ok (Datetime.mk 2021 11 5 10 30 0 0)).
  { rewrite Hck. vm_compute. reflexivity. }
  destruct (retention_second_sweep ascii_lower None None sample_world w1 1825 0 3
              (Datetime.mk 2021 11 5 10 30 0 0) (Datetime.mk 2021 11 5 10 30 0 0)
              eq_refl sample_horizon sample_cumulative sample_cutoff Hrun1 Hc1
              (fun _ _ H => H))
    as (w2 & Hrun2 & _).
  exists w1, w2. split; [exact Hrun1|exact Hrun2].
Defined.

Lemma retention_missing_horizon_witness :
  exists w',
    run_data_retention ascii_lower None None
      (set_settings_file sample_world (Some ∅)) = (Raise KeyError, w') /\
    db w' = db sample_world.
Proof.
  destruct (retention_missing_horizon ascii_lower None None
              (set_settings_file sample_world (Some ∅)) ∅ eq_refl
              (lookup_empty _))
    as (e & w' & Hrun & Hdb & _ & [->|[_ [rest Hr]]]).
  - exists w'. split; [exact Hrun|exact Hdb].
  - discriminate Hr.
Defined.


Lemma gdpr_data_retention_same_sweep_witness :
  exists wa wb,
    gdpr_data_retention 1825 sample_world = (Ok 3, wa) /\
    run_data_retention ascii_lower None None sample_world
    = (Ok (3, 3, 1825), wb) /\
    patients (db wa) = patients (db wb).
Proof.
  destruct (gdpr_data_retention_same_sweep ascii_lower None None sample_world
              1825 0 (Datetime.mk 2021 11 5 10 30 0 0)
              eq_refl sample_horizon sample_cumulative sample_cutoff)
    as (n & wa & wb & Ha & Hb & Hp & _).
  assert (Hn : n = 3).
  { assert (E : fst (gdpr_data_retention 1825 sample_world) = Ok n)
      by (rewrite Ha; reflexivity).
    vm_compute in E. injection E as E. lia. }
  subst n. exists wa, wb. split; [exact Ha|]. split; [exact Hb|exact Hp].
Defined.

Lemma gdpr_settings_round_trip_witness :
  exists w1,
    load_gdpr_settings sample_world = (Ok DEFAULT_SETTINGS, w1) /\
    load_gdpr_settings w1 = (Ok DEFAULT_SETTINGS, w1).
Proof.
  destruct (gdpr_settings_round_trip sample_world eq_refl) as [_ Hnew].
  destruct (Hnew eq_refl) as (w1 & H1 & _ & H2 & _).
  exists w1. split; [exact H1|exact H2].
Defined.

(** ** Pseudonyms and whole records *)

Lemma hexlify_app (a b : bytes) :
  Hex.hexlify (a ++ b) = Hex.hexlify a ++ Hex.hexlify b.
Proof.
  induction a as [|x a IH]; [reflexivity|].
  cbn [app Hex.hexlify]. rewrite IH. reflexivity.
Qed.

Lemma hexlify_length (b : bytes) :
  List.length (Hex.hexlify b) = (2 * List.length b)%nat.
Proof.
  induction b as [|x b IH]; [reflexivity|].
  cbn [Hex.hexlify List.length]. rewrite IH. lia.
Qed.

(** The last four hexadecimal digits are the last two bytes. *)
Lemma last_chars_hexlify (b : bytes) :
  (2 <= List.length b)%nat ->
  last_chars 4 (Hex.hexlify b) = Hex.hexlify (skipn (List.length b - 2) b).
Proof.
  intros Hlen. unfold last_chars.
  rewrite <- (firstn_skipn (List.length b - 2) b) at 1 2.
  rewrite hexlify_app, length_app, !hexlify_length.
  rewrite length_skipn, length_firstn.
  replace (2 * Init.Nat.min (List.length b - 2) (List.length b)
           + 2 * (List.length b - (List.length b - 2)) - 4)%nat
    with (List.length (Hex.hexlify (firstn (List.length b - 2) b)) + 0)%nat
    by (rewrite hexlify_length, length_firstn; lia).
  rewrite skipn_app, Nat.add_comm.
  rewrite skipn_all2 by lia.
  replace (0 + List.length (Hex.hexlify (firstn (List.length b - 2) b))
           - List.length (Hex.hexlify (firstn (List.length b - 2) b)))%nat
    with 0%nat by lia.
  reflexivity.
Qed.

Lemma hexlify_encodable (b : bytes) : Utf8.encodable (Hex.hexlify b) = true.
Proof.
  apply forallb_forall. intros c Hc. apply hex_digit_chars in Hc.
  apply scalar_low. lia.
Qed.

Lemma ascii_text_encodable (bs : bytes) :
  ascii_bytes bs -> Utf8.encodable (List.map byte_to_Z bs) = true.
Proof.
  intros H. apply forallb_forall. intros c Hc.
  apply in_map_iff in Hc as (b & <- & Hb).
  unfold ascii_bytes in H. rewrite List.Forall_forall in H.
  specialize (H b Hb). pose proof (byte_to_Z_range b). apply scalar_low. lia.
Qed.

Lemma mask_right_encodable (isdigit : Z -> bool) (s : str) :
  Utf8.encodable s = true ->
  Utf8.encodable (fst (Masking.mask_right isdigit s)) = true.
Proof.
  unfold Utf8.encodable. induction s as [|c t IH]; [reflexivity|].
  cbn [forallb Masking.mask_right]. intros H.
  apply andb_true_iff in H as [Hc Ht]. specialize (IH Ht).
  destruct (Masking.mask_right isdigit t) as [t' seen]. cbn [fst] in IH.
  destruct (isdigit c); [destruct (seen + 1 <=? 4)|]; cbn [fst forallb];
    rewrite IH, ?Hc; reflexivity.
Qed.

Lemma mask_contact_encodable (isdigit : Z -> bool) (s : str) :
  Utf8.encodable s = true ->
  Utf8.encodable (Masking.mask_contact isdigit s) = true.
Proof.
  intros H. rewrite mask_contact_right. apply mask_right_encodable. exact H.
Qed.

Section PseudonymFacts.

Context (sha256 : bytes -> bytes).

(** A SHA-256 digest is thirty-two bytes. *)
Hypothesis digest_size : forall data, List.length (sha256 data) = 32%nat.

Lemma mask_name_returns (name : str) :
  Utf8.encodable name = true ->
  exists anon,
    mask_name sha256 name = Ok anon /\ Utf8.encodable anon = true.
Proof.
  intros He. unfold mask_name. destruct name as [|c t].
  - exists []. split; reflexivity.
  - apply utf8_encodable_encodes in He as [data Hd]. rewrite Hd.
    eexists. split; [reflexivity|].
    rewrite encodable_app, lit_encodable.
    rewrite last_chars_hexlify by (rewrite digest_size; lia).
    apply hexlify_encodable.
Qed.

(** X13.  [mask_name] turns the empty name into the empty string and
    every other name into ["ANON_"] followed by four lower-case
    hexadecimal digits, those of the last two bytes of the SHA-256
    digest of its UTF-8 text; a name the codec refuses raises
    [UnicodeEncodeError]. *)
Theorem mask_name_pseudonym (name : str) :
  mask_name sha256 [] = Ok [] /\
  (name <> [] ->
   match Utf8.encode name with
   | Some data =>
       exists d1 d2 d3 d4,
         mask_name sha256 name = Ok (lit "ANON_" ++ [d1; d2; d3; d4]) /\
         [d1; d2; d3; d4] = Hex.hexlify (skipn 30 (sha256 data)) /\
         Forall (fun d => 48 <= d <= 57 \/ 97 <= d <= 102) [d1; d2; d3; d4]
   | None => mask_name sha256 name = Raise UnicodeEncodeError
   end).
Proof.
  split; [reflexivity|]. intros Hne. unfold mask_name.
  destruct name as [|c t]; [congruence|].
  destruct (Utf8.encode (c :: t)) as [data|]; [|reflexivity].
  rewrite last_chars_hexlify by (rewrite digest_size; lia).
  rewrite digest_size. change (32 - 2)%nat with 30%nat.
  pose proof (digest_size data) as Hlen.
  assert (Hk : List.length (skipn 30 (sha256 data)) = 2%nat)
    by (rewrite length_skipn; lia).
  destruct (skipn 30 (sha256 data)) as [|x [|y [|z r]]] eqn:E;
    try discriminate Hk.
  cbn [Hex.hexlify]. eexists _, _, _, _. split; [reflexivity|].
  split; [reflexivity|].
  apply List.Forall_forall. intros d Hd.
  apply (hex_digit_chars [x; y]). exact Hd.
Qed.

End PseudonymFacts.

Section RecordFacts.

Context (isdigit : Z -> bool).
Context (sha256 : bytes -> bytes).
Context (fernet_seal : Z -> bytes -> bytes -> bytes).
Context (fernet_open : bytes -> option bytes).

(** What the libraries promise: a SHA-256 digest is thirty-two bytes; a
    token opens to its data, is ASCII text and is never empty. *)
Hypothesis digest_size : forall data, List.length (sha256 data) = 32%nat.
Hypothesis fernet_opens : forall now iv data,
  List.length iv = 16%nat -> fernet_open (fernet_seal now iv data) = Some data.
Hypothesis fernet_tokens_ascii : forall now iv data,
  List.length iv = 16%nat -> ascii_bytes (fernet_seal now iv data).
Hypothesis fernet_tokens_nonempty : forall now iv data,
  List.length iv = 16%nat -> fernet_seal now iv data <> [].

Lemma anonymize_patient_record_returns (record : gmap string str) (w : World) :
  Utf8.encodable (get_str record "name") = true ->
  Utf8.encodable (get_str record "diagnosis") = true ->
  exists anonymized_name encrypted_diagnosis w',
    anonymize_patient_record isdigit sha256 fernet_seal record w
    = (Ok (<["anonymized_name"%string := anonymized_name]>
             (<["anonymized_contact"%string :=
                  Masking.mask_contact isdigit (get_str record "contact")]>
                (<["encrypted_diagnosis"%string := encrypted_diagnosis]> ∅))),
       w') /\
    anonymizes isdigit sha256 fernet_open
      (get_str record "name") (get_str record "contact")
      (get_str record "diagnosis")
      anonymized_name (Masking.mask_contact isdigit (get_str record "contact"))
      encrypted_diagnosis /\
    Utf8.encodable anonymized_name = true /\
    Utf8.encodable encrypted_diagnosis = true /\
    db w' = db w /\ faults w' = faults w /\ stdout w' = stdout w /\
    settings_file w' = settings_file w /\ clock w' = clock w /\
    (get_str record "diagnosis" = [] -> w' = w).
Proof.
  intros Hn Hd. unfold anonymize_patient_record, anonymizes.
  destruct (mask_name_returns sha256 digest_size _ Hn) as (an & Han & Hane).
  unfold bind at 1. unfold lift at 1. rewrite Han.
  destruct (get_str record "diagnosis") as [|c t] eqn:Ediag.
  - unfold bind, ret. exists an, [], w. split; [reflexivity|].
    split; [|repeat split; assumption || reflexivity].
    split; [reflexivity|]. split; [reflexivity|]. split; [reflexivity|].
    intros Hne. congruence.
  - apply utf8_encodable_encodes in Hd as [data Hdata].
    destruct (encrypt_data_returns fernet_seal fernet_tokens_ascii _ data w Hdata)
      as (now & iv & Hlen & Henc).
    unfold bind at 1. unfold bind at 1. rewrite Henc.
    unfold lift, of_option, ret.
    exists an, (List.map byte_to_Z (fernet_seal now iv data)). eexists.
    split; [reflexivity|].
    split; [|split; [exact Hane|split;
                [apply ascii_text_encodable, fernet_tokens_ascii; exact Hlen|
                 repeat split; try reflexivity; discriminate]]].
    split; [reflexivity|]. split; [reflexivity|]. split; [discriminate|].
    intros _. split.
    + intros E. apply map_eq_nil in E.
      exact (fernet_tokens_nonempty now iv data Hlen E).
    + intros wd.
      apply (decrypt_data_returns fernet_seal fernet_open fernet_opens
               fernet_tokens_ascii); assumption.
Qed.

(** X14.  The anonymisation of a record is reversible in its diagnosis
    and in nothing else: for a diagnosis that is not empty
    [anonymize_patient_record] answers with the pseudonym of the name,
    the masked contact and a token which [decrypt_data], and with it
    the diagnosis column of the doctor's page, turns back into the
    diagnosis; the tables are not touched. *)
Theorem anonymize_patient_record_reversible (record : gmap string str)
    (w : World) :
  Utf8.encodable (get_str record "name") = true ->
  Utf8.encodable (get_str record "diagnosis") = true ->
  get_str record "diagnosis" <> [] ->
  exists anon w' pseudonym token,
    anonymize_patient_record isdigit sha256 fernet_seal record w = (Ok anon, w') /\
    db w' = db w /\
    anon !! "anonymized_name"%string = Some pseudonym /\
    mask_name sha256 (get_str record "name") = Ok pseudonym /\
    anon !! "anonymized_contact"%string
    = Some (Masking.mask_contact isdigit (get_str record "contact")) /\
    anon !! "encrypted_diagnosis"%string = Some token /\
    (forall wd, exists wd',
       decrypt_data fernet_open (Some token) wd
       = (Ok (Some (get_str record "diagnosis")), wd')) /\
    (forall row wd, p_diagnosis row = token -> exists wd',
       decrypt_diagnosis_column fernet_open row wd
       = (Ok (Some (get_str record "diagnosis")), wd')).
Proof.
  intros Hn Hd Hne.
  destruct (anonymize_patient_record_returns record w Hn Hd)
    as (an & ed & w' & Hrun & (Hmask & _ & _ & Hdec) & _ & _ & Hdb & _).
  destruct (Hdec Hne) as [_ Hopen].
  eexists _, w', an, ed. split; [exact Hrun|]. split; [exact Hdb|].
  split; [apply lookup_insert_eq|]. split; [exact Hmask|].
  split; [rewrite lookup_insert_ne by discriminate; apply lookup_insert_eq|].
  split; [rewrite !lookup_insert_ne by discriminate; apply lookup_insert_eq|].
  split.
  - intros wd. eexists. apply Hopen.
  - intros row wd Hrow. unfold decrypt_diagnosis_column, try_except.
    rewrite Hrow, Hopen. eexists. reflexivity.
Qed.

(** X15.  A record without a diagnosis, the key missing or its value
    empty, is anonymised without the cipher: the encrypted diagnosis is
    the empty string and the world is as it was, no clock read, no
    random byte drawn. *)
Theorem anonymize_patient_record_without_diagnosis (record : gmap string str)
    (w : World) :
  Utf8.encodable (get_str record "name") = true ->
  get_str record "diagnosis" = [] ->
  exists anon,
    anonymize_patient_record isdigit sha256 fernet_seal record w = (Ok anon, w) /\
    anon !! "encrypted_diagnosis"%string = Some [] /\
    anon !! "anonymized_contact"%string
    = Some (Masking.mask_contact isdigit (get_str record "contact")).
Proof.
  intros Hn Hd.
  destruct (anonymize_patient_record_returns record w Hn)
    as (an & ed & w' & Hrun & (_ & _ & Hnil & _) & _ & _ & _ & _ & _ & _ & _ & Hw).
  { rewrite Hd. reflexivity. }
  rewrite (Hw Hd) in Hrun. rewrite (Hnil Hd) in Hrun.
  eexists. split; [exact Hrun|]. split.
  - rewrite !lookup_insert_ne by discriminate. apply lookup_insert_eq.
  - rewrite lookup_insert_ne by discriminate. apply lookup_insert_eq.
Qed.

End RecordFacts.

(** X16.  The diagnosis column of the doctor's page never raises:
    for every row it shows what [decrypt_data] returns, and
    ["[Decryption error]"] whenever [decrypt_data] raises; the tables are
    not touched. *)
Theorem decrypt_diagnosis_column_total (fernet_open : bytes -> option bytes)
    (row : patient_row) (w : World) :
  exists shown w',
    decrypt_diagnosis_column fernet_open row w = (Ok (Some shown), w') /\
    db w' = db w /\
    (decrypt_data fernet_open (Some (p_diagnosis row)) w = (Ok (Some shown), w')
     \/
     shown = DECRYPTION_ERROR /\
     exists e, decrypt_data fernet_open (Some (p_diagnosis row)) w = (Raise e, w')).
Proof.
  unfold decrypt_diagnosis_column, try_except, decrypt_data, str_encode,
    fernet_decrypt, bytes_decode, count_cipher_call, bind, lift, ret.
  destruct (Utf8.encode (p_diagnosis row)) as [token|]; cbn.
  - destruct (fernet_open token) as [data|]; cbn.
    + destruct (Utf8.decode data) as [s|]; cbn.
      * eexists _, _. split; [reflexivity|]. split; [reflexivity|].
        left. reflexivity.
      * eexists _, _. split; [reflexivity|]. split; [reflexivity|].
        right. split; [reflexivity|]. eexists. reflexivity.
    + eexists _, _. split; [reflexivity|]. split; [reflexivity|].
      right. split; [reflexivity|]. eexists. reflexivity.
  - eexists _, _. split; [reflexivity|]. split; [reflexivity|].
    right. split; [reflexivity|]. eexists. reflexivity.
Qed.

(** ** The bulk pass *)

Lemma update_unique (f : patient_row -> patient_row)
    (a b : list patient_row) (r : patient_row) :
  List.NoDup (List.map p_patient_id (a ++ r :: b)) ->
  List.map (fun x => if p_patient_id x =? p_patient_id r then f x else x)
    (a ++ r :: b) = a ++ f r :: b /\
  List.length (List.filter (fun x => p_patient_id x =? p_patient_id r)
                 (a ++ r :: b)) = 1%nat.
Proof.
  intros Hnd. rewrite map_app in Hnd. cbn [List.map] in Hnd.
  apply List.NoDup_remove in Hnd as [_ Hnot].
  assert (Ha : forall x, In x a -> (p_patient_id x =? p_patient_id r) = false).
  { intros x Hx. apply Z.eqb_neq. intros E. apply Hnot. apply in_or_app. left.
    rewrite <- E. apply in_map. exact Hx. }
  assert (Hb : forall x, In x b -> (p_patient_id x =? p_patient_id r) = false).
  { intros x Hx. apply Z.eqb_neq. intros E. apply Hnot. apply in_or_app. right.
    rewrite <- E. apply in_map. exact Hx. }
  clear Hnot.
  assert (Hmap : forall l, (forall x, In x l ->
                              (p_patient_id x =? p_patient_id r) = false) ->
            List.map (fun x => if p_patient_id x =? p_patient_id r
                               then f x else x) l = l
            /\ List.filter (fun x => p_patient_id x =? p_patient_id r) l = []).
  { induction l as [|x l IH]; intros H; [split; reflexivity|].
    cbn [List.map List.filter]. rewrite (H x (or_introl eq_refl)).
    destruct IH as [IH1 IH2]; [intros y Hy; apply H; right; exact Hy|].
    rewrite IH1, IH2. split; reflexivity. }
  destruct (Hmap a Ha) as [Ea Fa]. destruct (Hmap b Hb) as [Eb Fb].
  rewrite map_app, List.filter_app. cbn [List.map List.filter].
  rewrite Z.eqb_refl, Ea, Eb, Fa, Fb. split; reflexivity.
Qed.

Lemma record_fields (name contact diagnosis : str) :
  let record := <["name"%string := name]>
                  (<["contact"%string := contact]>
                     (<["diagnosis"%string := diagnosis]> (∅ : gmap string str))) in
  get_str record "name" = name /\ get_str record "contact" = contact /\
  get_str record "diagnosis" = diagnosis.
Proof.
  cbv zeta. unfold get_str. split; [|split].
  - rewrite lookup_insert_eq. reflexivity.
  - rewrite lookup_insert_ne by discriminate. rewrite lookup_insert_eq.
    reflexivity.
  - rewrite !lookup_insert_ne by discriminate. rewrite lookup_insert_eq.
    reflexivity.
Qed.

Section BulkFacts.

Context (isdigit : Z -> bool).
Context (str_lower : str -> str).
Context (sha256 : bytes -> bytes).
Context (fernet_seal : Z -> bytes -> bytes -> bytes).
Context (fernet_open : bytes -> option bytes).

Hypothesis digest_size : forall data, List.length (sha256 data) = 32%nat.
Hypothesis fernet_opens : forall now iv data,
  List.length iv = 16%nat -> fernet_open (fernet_seal now iv data) = Some data.
Hypothesis fernet_tokens_ascii : forall now iv data,
  List.length iv = 16%nat -> ascii_bytes (fernet_seal now iv data).
Hypothesis fernet_tokens_nonempty : forall now iv data,
  List.length iv = 16%nat -> fernet_seal now iv data <> [].

Lemma anonymize_row_healthy (done rest : list patient_row) (r : patient_row)
    (us : list user_row) (ls : list log_row) (k : Z) (w : World) :
  faults w = [] ->
  storable_row r ->
  List.NoDup (List.map p_patient_id (done ++ r :: rest)) ->
  exists r' w',
    anonymize_row isdigit sha256 fernet_seal r (mk_db us (done ++ r :: rest) ls, k) w
    = (Ok (mk_db us (done ++ r' :: rest) ls, k + 1), w') /\
    anonymized_row isdigit sha256 fernet_open r r' /\
    storable_row r' /\
    db w' = db w /\ faults w' = [] /\ stdout w' = stdout w /\
    settings_file w' = settings_file w /\ clock w' = clock w.
Proof.
  intros Hf (Hn & Hc & Hd & Hid) Hnd.
  destruct (record_fields (p_name r) (p_contact r) (p_diagnosis r))
    as (En & Ec & Ed).
  destruct (anonymize_patient_record_returns isdigit sha256 fernet_seal fernet_open
              digest_size fernet_opens fernet_tokens_ascii fernet_tokens_nonempty
              (<["name"%string := p_name r]>
                 (<["contact"%string := p_contact r]>
                    (<["diagnosis"%string := p_diagnosis r]> ∅))) w)
    as (an & ed & w' & Hrun & Hanon & Hane & Hede & Hdb & Hfl & Hout & Hsf & Hck & _).
  { rewrite En. exact Hn. }
  { rewrite Ed. exact Hd. }
  rewrite En, Ec, Ed in Hanon. rewrite Ec in Hrun.
  unfold anonymize_row. unfold bind at 1. rewrite Hrun.
  unfold getitem_str, lift, bind.
  rewrite lookup_insert_eq. cbn [of_option].
  rewrite lookup_insert_ne by discriminate. rewrite lookup_insert_eq.
  cbn [of_option].
  rewrite !lookup_insert_ne by discriminate. rewrite lookup_insert_eq.
  cbn [of_option].
  unfold execute_update_anonymized, storage_call, bind.
  rewrite Hfl, Hf.
  rewrite (bind_text_ok an Hane), (bind_text_ok ed Hede),
    (bind_text_ok _ (mask_contact_encodable isdigit _ Hc)),
    (bind_int_ok _ Hid).
  unfold ret. cbn [fst snd patients users logs].
  destruct (update_unique
              (fun x => mk_patient (p_patient_id x) (p_name x) (p_contact x) ed an
                          (Masking.mask_contact isdigit (p_contact r))
                          (p_date_added x)) done rest r Hnd) as [Emap Ecount].
  rewrite Emap, Ecount. cbn [Z.of_nat Z.eqb Pos.of_succ_nat].
  eexists _, w'. split; [reflexivity|].
  split; [|split; [|repeat split; congruence]].
  - unfold anonymized_row. cbn. repeat (split; [reflexivity|]). exact Hanon.
  - unfold storable_row. cbn. repeat split; assumption || lia.
Qed.

Lemma anonymize_rows_healthy (todo : list patient_row) :
  forall (done : list patient_row) (us : list user_row) (ls : list log_row)
         (k : Z) (w : World),
  faults w = [] ->
  Forall storable_row todo ->
  List.NoDup (List.map p_patient_id (done ++ todo)) ->
  exists new w',
    anonymize_rows isdigit sha256 fernet_seal todo (mk_db us (done ++ todo) ls, k) w
    = (Ok (mk_db us (done ++ new) ls, k + Z.of_nat (List.length todo)), w') /\
    Forall2 (anonymized_row isdigit sha256 fernet_open) todo new /\
    Forall storable_row new /\
    db w' = db w /\ faults w' = [] /\ stdout w' = stdout w /\
    settings_file w' = settings_file w /\ clock w' = clock w.
Proof.
  induction todo as [|r rest IH]; intros done us ls k w Hf Hst Hnd.
  - exists [], w. cbn [anonymize_rows List.length Z.of_nat]. unfold ret.
    rewrite Z.add_0_r. repeat split; auto.
  - inversion Hst as [|? ? Hr Hrest]; subst.
    destruct (anonymize_row_healthy done rest r us ls k w Hf Hr Hnd)
      as (r' & w1 & Hrow & Har & Hsr & Hdb & Hf1 & Hout & Hsf & Hck).
    cbn [anonymize_rows]. unfold bind at 1. rewrite Hrow.
    assert (Hnd' : List.NoDup (List.map p_patient_id ((done ++ [r']) ++ rest))).
    { rewrite <- app_assoc. cbn [app]. rewrite map_app in *. cbn [List.map] in *.
      destruct Har as (Eid & _). rewrite Eid. exact Hnd. }
    replace (done ++ r' :: rest) with ((done ++ [r']) ++ rest)
      by (rewrite <- app_assoc; reflexivity).
    destruct (IH (done ++ [r']) us ls (k + 1) w1 Hf1 Hrest Hnd')
      as (new & w' & Hrun & Hall & Hsn & Hdb' & Hf' & Hout' & Hsf' & Hck').
    exists (r' :: new), w'. rewrite Hrun.
    split.
    { rewrite <- app_assoc. cbn [app List.length].
      replace (k + 1 + Z.of_nat (List.length rest))
        with (k + Z.of_nat (S (List.length rest))) by lia.
      reflexivity. }
    split; [constructor; assumption|]. split; [constructor; assumption|].
    repeat split; congruence.
Qed.

Lemma anonymize_all_patients_healthy (user_id : option Z) (role : str)
    (w : World) :
  faults w = [] ->
  Forall storable_row (patients (db w)) ->
  List.NoDup (List.map p_patient_id (patients (db w))) ->
  exists w',
    anonymize_all_patients isdigit str_lower sha256 fernet_seal user_id role w
    = (Ok (Z.of_nat (List.length (patients (db w)))), w') /\
    Forall2 (anonymized_row isdigit sha256 fernet_open)
      (patients (db w)) (patients (db w')) /\
    Forall storable_row (patients (db w')) /\
    users (db w') = users (db w) /\
    faults w' = [].
Proof.
  intros Hf Hst Hnd.
  unfold anonymize_all_patients, get_connection, execute_select_patients,
    try_finally, close, print, storage_call.
  unfold bind at 1 2. unfold bind at 1. cbn [faults set_stdout]. rewrite Hf.
  unfold ret at 1. unfold bind at 1. unfold bind at 1.
  cbn [faults set_stdout]. rewrite Hf. unfold ret at 1.
  destruct (db w) as [us ps ls] eqn:Edb. cbn [patients users] in *.
  destruct (anonymize_rows_healthy ps [] us ls 0
              (set_stdout w (stdout w ++ [ConnectedTo])) Hf Hst Hnd)
    as (new & w1 & Hrun & Hall & Hsn & Hdb & Hf1 & _).
  cbn [app] in Hrun. cbn [db set_stdout]. rewrite Edb. cbn [patients].
  rewrite Hrun.
  unfold commit, storage_call. unfold bind at 1 2. rewrite Hf1.
  cbn [fst snd]. unfold bind at 1.
  match goal with
  | |- context [ignoring ?m ?W] =>
      destruct (log_action_outcome str_lower user_id role
                  (Some (lit "anonymization"))
                  (anonymization_details (0 + Z.of_nat (List.length ps))) W)
        as (w2 & Hlog & Hu & Hp & _ & _ & Hfl & _)
  end.
  unfold ignoring, try_except. rewrite Hlog. unfold ret.
  eexists. split; [reflexivity|].
  cbn [db set_db users patients] in Hu, Hp.
  rewrite Hp, Hu. repeat split; try assumption.
  apply Hfl. exact Hf1.
Qed.

(** X17.  With the storage layer up, on a table of distinct keys,
    [anonymize_all_patients] returns the number of patients and leaves
    each row with its key, name, contact and creation stamp, the
    pseudonym of its name, its masked contact, and in place of a
    diagnosis that is not empty a token that decrypts to it; an empty
    diagnosis stays empty, and the users are not touched. *)
Theorem anonymize_all_patients_outcome (user_id : option Z) (role : str)
    (w : World) :
  faults w = [] ->
  Forall storable_row (patients (db w)) ->
  List.NoDup (List.map p_patient_id (patients (db w))) ->
  exists w',
    anonymize_all_patients isdigit str_lower sha256 fernet_seal user_id role w
    = (Ok (Z.of_nat (List.length (patients (db w)))), w') /\
    Forall2 (anonymized_row isdigit sha256 fernet_open)
      (patients (db w)) (patients (db w')) /\
    users (db w') = users (db w).
Proof.
  intros Hf Hst Hnd.
  destruct (anonymize_all_patients_healthy user_id role w Hf Hst Hnd)
    as (w' & Hrun & Hall & _ & Hu & _).
  exists w'. auto.
Qed.

Lemma anonymized_rows_keys (old new : list patient_row) :
  Forall2 (anonymized_row isdigit sha256 fernet_open) old new ->
  List.map p_patient_id new = List.map p_patient_id old.
Proof.
  induction 1 as [|x y l k (E & _) _ IH]; [reflexivity|].
  cbn [List.map]. rewrite E, IH. reflexivity.
Qed.

(** X18.  The bulk pass does not know what it has done: a second run
    encrypts the tokens of the first.  After two runs one decryption of
    the diagnosis column gives the token the first run had stored, and
    only a second decryption gives the diagnosis; what the doctor's page
    shows for the row is that token. *)
Theorem anonymize_all_patients_twice (user_id : option Z) (role : str)
    (w : World) :
  faults w = [] ->
  Forall storable_row (patients (db w)) ->
  List.NoDup (List.map p_patient_id (patients (db w))) ->
  exists n w1 w2,
    anonymize_all_patients isdigit str_lower sha256 fernet_seal user_id role w
    = (Ok n, w1) /\
    anonymize_all_patients isdigit str_lower sha256 fernet_seal user_id role w1
    = (Ok n, w2) /\
    forall (i : nat) (old once twice : patient_row),
      patients (db w) !! i = Some old ->
      patients (db w1) !! i = Some once ->
      patients (db w2) !! i = Some twice ->
      p_diagnosis old <> [] ->
      forall wd, exists wd1 wd2 wd3,
        decrypt_data fernet_open (Some (p_diagnosis twice)) wd
        = (Ok (Some (p_diagnosis once)), wd1) /\
        decrypt_data fernet_open (Some (p_diagnosis once)) wd1
        = (Ok (Some (p_diagnosis old)), wd2) /\
        decrypt_diagnosis_column fernet_open twice wd
        = (Ok (Some (p_diagnosis once)), wd3).
Proof.
  intros Hf Hst Hnd.
  destruct (anonymize_all_patients_healthy user_id role w Hf Hst Hnd)
    as (w1 & Hrun1 & Hall1 & Hst1 & _ & Hf1).
  assert (Hnd1 : List.NoDup (List.map p_patient_id (patients (db w1))))
    by (rewrite (anonymized_rows_keys _ _ Hall1); exact Hnd).
  destruct (anonymize_all_patients_healthy user_id role w1 Hf1 Hst1 Hnd1)
    as (w2 & Hrun2 & Hall2 & _).
  assert (Hlen : List.length (patients (db w1)) = List.length (patients (db w)))
    by (symmetry; apply (Forall2_length _ _ _ Hall1)).
  rewrite Hlen in Hrun2.
  eexists _, w1, w2. split; [exact Hrun1|]. split; [exact Hrun2|].
  intros i old once twice Ho H1 H2 Hne wd.
  pose proof (Forall2_lookup_lr _ _ _ _ _ _ Hall1 Ho H1) as (_ & _ & _ & _ & A1).
  pose proof (Forall2_lookup_lr _ _ _ _ _ _ Hall2 H1 H2) as (_ & _ & _ & _ & A2).
  destruct A1 as (_ & _ & _ & D1). destruct (D1 Hne) as [Hne1 Hopen1].
  destruct A2 as (_ & _ & _ & D2). destruct (D2 Hne1) as [_ Hopen2].
  eexists _, _, _. split; [apply Hopen2|]. split; [apply Hopen1|].
  unfold decrypt_diagnosis_column, try_except. rewrite Hopen2. reflexivity.
Qed.

End BulkFacts.

(** *** Failures of the bulk pass *)

Section BulkFailures.

Context (isdigit : Z -> bool).
Context (str_lower : str -> str).
Context (sha256 : bytes -> bytes).
Context (fernet_seal : Z -> bytes -> bytes -> bytes).

Lemma anonymize_patient_record_db (record : gmap string str) (w w' : World)
    (r : result (gmap string str)) :
  anonymize_patient_record isdigit sha256 fernet_seal record w = (r, w') ->
  db w' = db w /\ faults w' = faults w.
Proof.
  unfold anonymize_patient_record, encrypt_data, str_encode, fernet_encrypt,
    bytes_decode, count_cipher_call, time_time, os_urandom, bind, lift, ret.
  destruct (mask_name sha256 _); [|intros [= <- <-]; split; reflexivity].
  destruct (get_str record "diagnosis"); [intros [= <- <-]; split; reflexivity|].
  destruct (Utf8.encode _); cbn; [|intros [= <- <-]; split; reflexivity].
  destruct (Utf8.decode _); cbn; intros [= <- <-]; split; reflexivity.
Qed.

Lemma anonymize_row_db (row : patient_row) (st : Database * Z) (w w' : World)
    (r : result (Database * Z)) :
  anonymize_row isdigit sha256 fernet_seal row st w = (r, w') -> db w' = db w.
Proof.
  destruct st as [conn k]. unfold anonymize_row. unfold bind at 1.
  destruct (anonymize_patient_record isdigit sha256 fernet_seal _ w)
    as [[anon|e] w1] eqn:E; apply anonymize_patient_record_db in E as [E _];
    [|intros [= <- <-]; exact E].
  unfold getitem_str, execute_update_anonymized, storage_call, bind_text,
    bind_int, bind, lift, ret, raise.
  repeat match goal with
    | |- context [of_option _ ?o] => destruct o; cbn [of_option]
    end; try (intros [= <- <-]; exact E).
  destruct (faults w1) as [|[] ?];
    repeat match goal with
      | |- context [if ?b then _ else _] => destruct b
      end; intros [= <- <-]; exact E.
Qed.

Lemma anonymize_rows_db (records : list patient_row) :
  forall (st : Database * Z) (w w' : World) (r : result (Database * Z)),
    anonymize_rows isdigit sha256 fernet_seal records st w = (r, w') ->
    db w' = db w.
Proof.
  induction records as [|row rest IH]; intros st w w' r.
  - cbn. intros [= <- <-]. reflexivity.
  - cbn [anonymize_rows]. unfold bind.
    destruct (anonymize_row isdigit sha256 fernet_seal row st w)
      as [[st1|e] w1] eqn:E; apply anonymize_row_db in E.
    + intros H. apply IH in H. congruence.
    + intros [= <- <-]. exact E.
Qed.

(** X19.  The bulk pass is all or nothing: whatever the storage layer
    does and whatever the rows hold, a run of [anonymize_all_patients]
    that raises leaves the three tables as they were. *)
Theorem anonymize_all_patients_all_or_nothing (user_id : option Z) (role : str)
    (w w' : World) (e : exn) :
  anonymize_all_patients isdigit str_lower sha256 fernet_seal user_id role w
  = (Raise e, w') ->
  db w' = db w.
Proof.
  unfold anonymize_all_patients, get_connection, execute_select_patients,
    try_finally, close, print, storage_call.
  unfold bind at 1 2. cbn [faults set_stdout].
  destruct (faults w) as [|[] rest] eqn:Hf;
    try (intros [= <- <-]; reflexivity).
  all: unfold ret at 1; unfold bind at 1; unfold bind at 1;
    cbn [faults set_stdout set_faults]; rewrite ?Hf.
  all: match goal with
    | |- context [match ?l with [] => _ | _ :: _ => _ end] =>
        destruct l as [|[] ?] eqn:Hf2
    | _ => idtac
    end; try (unfold ret; intros [= <- <-]; reflexivity).
  all: unfold ret at 1; unfold bind at 1;
    match goal with
    | |- context [anonymize_rows ?a ?b ?c ?d ?st ?W] =>
        destruct (anonymize_rows a b c d st W) as [[st1|e1] w1] eqn:Erows;
        apply anonymize_rows_db in Erows; cbn in Erows
    end; try (unfold ret; intros [= <- <-]; exact Erows).
  all: unfold commit, storage_call; unfold bind at 1 2;
    destruct (faults w1) as [|[] ?];
    try (unfold ret; intros [= <- <-]; exact Erows).
  all: unfold bind at 1;
    match goal with
    | |- context [ignoring ?m ?W] =>
        destruct (ignoring_returns m W) as [w2 Hlog]; rewrite Hlog
    end; unfold ret; intros [= <- <-].
Qed.

End BulkFailures.

Lemma toy_digest_size (data : bytes) : List.length (toy_sha256 data) = 32%nat.
Proof.
  unfold toy_sha256. rewrite length_firstn, length_app, repeat_length, length_firstn,
    length_app, length_rev. cbn [List.length]. lia.
Qed.

Lemma toy_fernet_nonempty (now : Z) (iv data : bytes) :
  List.length iv = 16%nat -> toy_seal now iv data <> [].
Proof.
  unfold toy_seal. destruct iv as [|x iv]; [discriminate|]. discriminate.
Qed.

Lemma intake_storable : Forall storable_row (patients (db intake_world)).
Proof.
  repeat constructor; try reflexivity; cbn; lia.
Qed.

Lemma intake_keys : List.NoDup (List.map p_patient_id (patients (db intake_world))).
Proof.
  repeat constructor; cbn; intuition discriminate.
Qed.

Lemma mask_name_pseudonym_witness :
  mask_name toy_sha256 (lit "Ann Lee") = Ok (lit "ANON_6565").
Proof.
  destruct (mask_name_pseudonym toy_sha256 toy_digest_size (lit "Ann Lee"))
    as [_ H].
  specialize (H ltac:(discriminate)).
  change (Utf8.encode (lit "Ann Lee"))
    with (Some (List.map byte_of_Z (lit "Ann Lee"))) in H.
  destruct H as (d1 & d2 & d3 & d4 & Hm & Hd & _).
  rewrite Hm, Hd. reflexivity.
Defined.

Lemma anonymize_patient_record_reversible_witness :
  exists anon w' token,
    anonymize_patient_record ascii_isdigit toy_sha256 toy_seal
      (<["name"%string := lit "Ann Lee"]>
         (<["contact"%string := lit "+15551234567"]>
            (<["diagnosis"%string := lit "fever"]> ∅))) sample_world
    = (Ok anon, w') /\
    anon !! "encrypted_diagnosis"%string = Some token /\
    forall wd, exists wd',
      decrypt_data toy_open (Some token) wd = (Ok (Some (lit "fever")), wd').
Proof.
  destruct (record_fields (lit "Ann Lee") (lit "+15551234567") (lit "fever"))
    as (En & Ec & Ed).
  destruct (anonymize_patient_record_reversible ascii_isdigit toy_sha256
              toy_seal toy_open toy_digest_size toy_fernet_opens
              (fun now iv data _ => toy_fernet_ascii now iv data)
              toy_fernet_nonempty
              (<["name"%string := lit "Ann Lee"]>
                 (<["contact"%string := lit "+15551234567"]>
                    (<["diagnosis"%string := lit "fever"]> ∅))) sample_world)
    as (anon & w' & pseudonym & token & Hrun & _ & _ & _ & _ & Htok & Hdec & _).
  - rewrite En. reflexivity.
  - rewrite Ed. reflexivity.
  - rewrite Ed. discriminate.
  - exists anon, w', token. split; [exact Hrun|]. split; [exact Htok|].
    rewrite Ed in Hdec. exact Hdec.
Defined.

Lemma anonymize_patient_record_without_diagnosis_witness :
  exists anon,
    anonymize_patient_record ascii_isdigit toy_sha256 toy_seal
      (<["name"%string := lit "Bo Chen"]> ∅) sample_world
    = (Ok anon, sample_world) /\
    anon !! "encrypted_diagnosis"%string = Some [].
Proof.
  destruct (anonymize_patient_record_without_diagnosis ascii_isdigit toy_sha256
              toy_seal toy_open toy_digest_size toy_fernet_opens
              (fun now iv data _ => toy_fernet_ascii now iv data)
              toy_fernet_nonempty
              (<["name"%string := lit "Bo Chen"]> ∅) sample_world)
    as (anon & Hrun & Hd & _).
  - unfold get_str. rewrite lookup_insert_eq. reflexivity.
  - unfold get_str. rewrite lookup_insert_ne by discriminate.
    rewrite lookup_empty. reflexivity.
  - exists anon. split; [exact Hrun|exact Hd].
Defined.

Lemma anonymize_all_patients_outcome_witness :
  exists w',
    anonymize_all_patients ascii_isdigit ascii_lower toy_sha256 toy_seal
      (Some 1) (lit "admin") intake_world = (Ok 2, w') /\
    Forall2 (anonymized_row ascii_isdigit toy_sha256 toy_open)
      (patients (db intake_world)) (patients (db w')).
Proof.
  destruct (anonymize_all_patients_outcome ascii_isdigit ascii_lower toy_sha256
              toy_seal toy_open toy_digest_size toy_fernet_opens
              (fun now iv data _ => toy_fernet_ascii now iv data)
              toy_fernet_nonempty (Some 1) (lit "admin") intake_world
              eq_refl intake_storable intake_keys)
    as (w' & Hrun & Hall & _).
  exists w'. split; [exact Hrun|exact Hall].
Defined.

Lemma anonymize_all_patients_twice_witness :
  exists w1 w2,
    anonymize_all_patients ascii_isdigit ascii_lower toy_sha256 toy_seal
      (Some 1) (lit "admin") intake_world = (Ok 2, w1) /\
    anonymize_all_patients ascii_isdigit ascii_lower toy_sha256 toy_seal
      (Some 1) (lit "admin") w1 = (Ok 2, w2).
Proof.
  destruct (anonymize_all_patients_twice ascii_isdigit ascii_lower toy_sha256
              toy_seal toy_open toy_digest_size toy_fernet_opens
              (fun now iv data _ => toy_fernet_ascii now iv data)
              toy_fernet_nonempty (Some 1) (lit "admin") intake_world
              eq_refl intake_storable intake_keys)
    as (n & w1 & w2 & Hrun1 & Hrun2 & _).
  assert (Hn : n = 2).
  { assert (E : fst (anonymize_all_patients ascii_isdigit ascii_lower toy_sha256
                       toy_seal (Some 1) (lit "admin") intake_world) = Ok n)
      by (rewrite Hrun1; reflexivity).
    vm_compute in E. injection E as E. lia. }
  subst n. exists w1, w2. split; [exact Hrun1|exact Hrun2].
Defined.

Lemma anonymize_all_patients_all_or_nothing_witness :
  fst (anonymize_all_patients ascii_isdigit ascii_lower toy_sha256 toy_seal
         (Some 1) (lit "admin")
         (set_faults intake_world [false; false; false; true]))
  = Raise OperationalError /\
  db (snd (anonymize_all_patients ascii_isdigit ascii_lower toy_sha256 toy_seal
             (Some 1) (lit "admin")
             (set_faults intake_world [false; false; false; true])))
  = db intake_world.
Proof.
  split; [vm_compute; reflexivity|].
  apply (anonymize_all_patients_all_or_nothing ascii_isdigit ascii_lower
           toy_sha256 toy_seal (Some 1) (lit "admin")
           (set_faults intake_world [false; false; false; true]) _
           OperationalError).
  vm_compute. reflexivity.
Defined.

(** ** Accounts *)

Lemma find_app_none {A} (f : A -> bool) (l k : list A) :
  List.find f l = None -> List.find f (l ++ k) = List.find f k.
Proof.
  induction l as [|a l IH]; [reflexivity|].
  cbn [List.find app]. destruct (f a); [discriminate|exact IH].
Qed.

Lemma find_username_none (username : str) (rows : list user_row) :
  List.find (fun r => str_eqb (u_username r) username) rows = None ->
  ~ In username (List.map u_username rows).
Proof.
  intros H Hin. apply in_map_iff in Hin as (r & E & Hr).
  apply (find_none _ _ H) in Hr. unfold str_eqb in Hr.
  apply bool_decide_eq_false in Hr. contradiction.
Qed.

Lemma artifact_encodable (iterations : Z) (salt h : bytes) :
  Utf8.encodable (Dec.to_str iterations ++ [DOLLAR] ++ Hex.hexlify salt
                  ++ [DOLLAR] ++ Hex.hexlify h) = true.
Proof.
  rewrite !encodable_app, dec_encodable, !hexlify_encodable. reflexivity.
Qed.

Lemma allowed_role_encodable (role : str) :
  In role ALLOWED_ROLES -> Utf8.encodable role = true.
Proof.
  intros [<-|[<-|[<-|[]]]]; reflexivity.
Qed.

Lemma allowed_role_test (role : str) :
  existsb (str_eqb role) ALLOWED_ROLES = true <-> In role ALLOWED_ROLES.
Proof.
  rewrite existsb_exists. split.
  - intros (x & Hx & E). apply bool_decide_eq_true in E. subst x. exact Hx.
  - intros H. exists role. split; [exact H|]. apply bool_decide_eq_true.
    reflexivity.
Qed.

Ltac account_run Hf :=
  repeat (cbn -[lookup insert Utf8.encodable Utf8.encode _hash_password
                fresh_salt SALT_BYTES PBKDF2_ITERATIONS Dec.to_str Hex.hexlify
                List.find List.map List.filter Z.of_nat Z.eqb lit py_strip
                log_action authenticate_user app];
          rewrite ?Hf).

Section AccountFacts.

Context (str_lower : str -> str).
Context (pbkdf2 : bytes -> bytes -> Z -> option bytes).
Context (allot_user_id : Database -> Z).

Lemma hash_password_value (password : str) (iterations : Z) (w : World)
    (pw h : bytes) :
  Utf8.encode password = Some pw ->
  pbkdf2 pw (fresh_salt w) iterations = Some h ->
  _hash_password pbkdf2 password iterations w
  = (Ok (Dec.to_str iterations ++ [DOLLAR] ++ Hex.hexlify (fresh_salt w)
         ++ [DOLLAR] ++ Hex.hexlify h),
     set_drawn w (drawn w + SALT_BYTES)).
Proof.
  intros Hpw Hh.
  destruct (hash_password_returns pbkdf2 password iterations w pw h Hpw Hh)
    as (artifact & w' & Hrun).
  destruct (hash_password_shape pbkdf2 _ _ _ _ _ Hrun)
    as (pw' & h' & Hpw' & Hh' & -> & ->).
  rewrite Hrun. repeat f_equal. congruence.
Qed.

(** X20.  An account that [create_user] has created can log in: with
    the storage layer up, a role of the three allowed ones and a user
    name that is free, [create_user] stores the account and returns
    its key, name and normalised role without the password artifact;
    [authenticate_user] with the same name and password then succeeds
    and returns that key and role. *)
Theorem create_user_then_login (username password role : str) (w : World)
    (pw h : bytes) :
  faults w = [] ->
  In (py_strip (str_lower role)) ALLOWED_ROLES ->
  Utf8.encodable username = true ->
  Utf8.encode password = Some pw ->
  pbkdf2 pw (fresh_salt w) PBKDF2_ITERATIONS = Some h ->
  List.find (fun r => str_eqb (u_username r) username) (users (db w)) = None ->
  exists created w1 logged w2,
    create_user str_lower pbkdf2 allot_user_id username password role w
    = (Ok created, w1) /\
    created = <["user_id"%string := PInt (allot_user_id (db w))]>
                (<["username"%string := PStr username]>
                   (<["role"%string := PStr (py_strip (str_lower role))]> ∅)) /\
    authenticate_user str_lower pbkdf2 username password w1
    = (Ok (Some logged), w2) /\
    logged !! "user_id"%string = Some (PInt (allot_user_id (db w))) /\
    logged !! "role"%string = Some (PStr (py_strip (str_lower role))).
Proof.
  intros Hf Hrole Hname Hpw Hh Hfree.
  pose proof (allowed_role_encodable _ Hrole) as Hrole_enc.
  apply allowed_role_test in Hrole.
  unfold create_user. rewrite Hrole. cbn [negb].
  unfold get_connection, execute_select_user_id, execute_insert_user,
    try_finally, commit, close, print, storage_call, bind_text, bind, ret, raise.
  account_run Hf. rewrite Hname. account_run Hf. rewrite Hfree. account_run Hf.
  rewrite (hash_password_value password PBKDF2_ITERATIONS
             (set_stdout w (stdout w ++ [ConnectedTo])) pw h Hpw Hh).
  account_run Hf.
  rewrite ?Hname, ?Hrole_enc, ?(artifact_encodable PBKDF2_ITERATIONS).
  account_run Hf.
  rewrite ?Hname, ?Hrole_enc, ?(artifact_encodable PBKDF2_ITERATIONS).
  account_run Hf.
  eexists _, _.
  set (row := mk_user (allot_user_id (db w)) username
                (Dec.to_str PBKDF2_ITERATIONS ++ [DOLLAR]
                 ++ Hex.hexlify (fresh_salt (set_stdout w (stdout w ++ [ConnectedTo])))
                 ++ [DOLLAR] ++ Hex.hexlify h)
                (py_strip (str_lower role))).
  match goal with
  | |- exists logged w2, (_, ?W) = _ /\ _ =>
      assert (Hknown : known_user username row W)
  end.
  { unfold known_user. eexists.
    rewrite get_user_by_username_healthy by (cbn; assumption).
    cbn [db set_db users]. rewrite find_app_none by exact Hfree.
    cbn [List.find u_username row]. unfold str_eqb.
    rewrite bool_decide_eq_true_2 by reflexivity. reflexivity. }
  assert (Hgood : _verify_password pbkdf2 (u_password row) password = true).
  { cbn [u_password row]. rewrite verify_artifact, Hpw.
    change (fresh_salt (set_stdout w (stdout w ++ [ConnectedTo])))
      with (fresh_salt w).
    rewrite Hh. apply bool_decide_eq_true. reflexivity. }
  destruct (authenticate_success str_lower pbkdf2 username password row _
              Hknown Hgood) as (w2 & Hlogin).
  exists (user_dict row), w2. split; [reflexivity|]. split; [reflexivity|].
  split; [exact Hlogin|]. split; reflexivity.
Qed.

(** X22.  [create_user] never makes two accounts of one name and never
    touches an account that exists: whatever the storage layer does and
    whether the call returns or raises, the users afterwards are the
    users before, followed by at most one new row whose name was free;
    so user names that were distinct stay distinct. *)
Theorem create_user_keeps_usernames_unique (username password role : str)
    (w w' : World) (r : result (gmap string pyval)) :
  create_user str_lower pbkdf2 allot_user_id username password role w = (r, w') ->
  (users (db w') = users (db w) \/
   exists row, users (db w') = users (db w) ++ [row] /\
               u_username row = username /\
               ~ In username (List.map u_username (users (db w)))) /\
  (List.NoDup (List.map u_username (users (db w))) ->
   List.NoDup (List.map u_username (users (db w')))).
Proof.
  intros Hrun.
  assert (Hshape :
    users (db w') = users (db w) \/
    exists row, users (db w') = users (db w) ++ [row] /\
                u_username row = username /\
                ~ In username (List.map u_username (users (db w)))).
  { revert Hrun. unfold create_user.
    destruct (negb _); [intros [= <- <-]; left; reflexivity|].
    unfold get_connection, execute_select_user_id, execute_insert_user,
      try_finally, commit, close, _hash_password, print, storage_call,
      os_urandom, bind_text, bind, lift, ret, raise.
    repeat (cbn -[Utf8.encodable Utf8.encode SALT_BYTES seq PBKDF2_ITERATIONS
                  Dec.to_str Hex.hexlify List.find];
      match goal with
      | |- context [match faults ?w with _ => _ end] =>
          destruct (faults w) as [|[] ?] eqn:?
      | |- context [match ?l with [] => _ | _ :: _ => _ end] =>
          is_var l; destruct l as [|[] ?]
      | |- context [if Utf8.encodable ?s then _ else _] =>
          destruct (Utf8.encodable s) eqn:?
      | |- context [of_option _ ?o] => destruct o eqn:?
      | |- context [List.find ?f ?l] => destruct (List.find f l) eqn:?
      end);
      intros [= <- <-]; cbn;
      first [ left; reflexivity
            | right; eexists; split; [reflexivity|]; split; [reflexivity|];
              apply find_username_none; assumption ]. }
  split; [exact Hshape|].
  intros Hnd. destruct Hshape as [->|(row & -> & Hname & Hfree)]; [exact Hnd|].
  rewrite map_app. cbn [List.map]. rewrite Hname.
  apply NoDup_Add with (a := username) (l := List.map u_username (users (db w))).
  - rewrite <- (app_nil_r (List.map u_username (users (db w)))) at 1.
    apply Add_app.
  - split; assumption.
Qed.

(** X23.  After a successful [change_password] the new password logs
    in: with the storage layer up and exactly one account of the key,
    [change_password] returns [True], and [authenticate_user] with the
    name of that account and the new password succeeds. *)
Theorem change_password_then_login (username new_password : str)
    (row : user_row) (w : World) (pw h : bytes) :
  faults w = [] ->
  Utf8.encodable username = true ->
  List.find (fun r => str_eqb (u_username r) username) (users (db w)) = Some row ->
  List.length (List.filter (fun r => u_user_id r =? u_user_id row) (users (db w)))
  = 1%nat ->
  Utf8.encode new_password = Some pw ->
  pbkdf2 pw (fresh_salt w) PBKDF2_ITERATIONS = Some h ->
  exists w1 logged w2,
    change_password pbkdf2 (u_user_id row) new_password w = (Ok true, w1) /\
    authenticate_user str_lower pbkdf2 username new_password w1
    = (Ok (Some logged), w2) /\
    logged !! "user_id"%string = Some (PInt (u_user_id row)) /\
    logged !! "role"%string = Some (PStr (u_role row)).
Proof.
  intros Hf Hname Hfind Hone Hpw Hh.
  unfold change_password, get_connection, execute_update_password,
    try_finally, try_except, commit, close, print, storage_call, bind_text,
    bind, ret, raise.
  account_run Hf.
  rewrite (hash_password_value new_password PBKDF2_ITERATIONS
             (set_stdout w (stdout w ++ [ConnectedTo])) pw h Hpw Hh).
  account_run Hf. rewrite (artifact_encodable PBKDF2_ITERATIONS).
  account_run Hf. rewrite Hone. account_run Hf.
  eexists.
  set (stored := Dec.to_str PBKDF2_ITERATIONS ++ [DOLLAR]
                 ++ Hex.hexlify (fresh_salt (set_stdout w (stdout w ++ [ConnectedTo])))
                 ++ [DOLLAR] ++ Hex.hexlify h).
  set (row' := mk_user (u_user_id row) (u_username row) stored (u_role row)).
  match goal with
  | |- exists logged w2, (_, ?W) = _ /\ _ =>
      assert (Hknown : known_user username row' W)
  end.
  { unfold known_user. eexists.
    rewrite get_user_by_username_healthy by (cbn; assumption).
    cbn [db set_db users].
    rewrite (find_map_same (fun r => str_eqb (u_username r) username)).
    - rewrite Hfind. cbn [option_map]. rewrite Z.eqb_refl. reflexivity.
    - intros a. destruct (u_user_id a =? u_user_id row); reflexivity. }
  assert (Hgood : _verify_password pbkdf2 (u_password row') new_password = true).
  { cbn [u_password row']. unfold stored. rewrite verify_artifact, Hpw.
    change (fresh_salt (set_stdout w (stdout w ++ [ConnectedTo])))
      with (fresh_salt w).
    rewrite Hh. apply bool_decide_eq_true. reflexivity. }
  destruct (authenticate_success str_lower pbkdf2 username new_password row' _
              Hknown Hgood) as (w2 & Hlogin).
  exists (user_dict row'), w2. split; [reflexivity|].
  split; [exact Hlogin|]. split; reflexivity.
Qed.

(** X24.  A failure of the storage layer at the user lookup is not a
    failed login: [authenticate_user] then raises [OperationalError] to
    its caller rather than returning [None], and no audit entry is
    written for the attempt. *)
Theorem authenticate_user_lookup_failure (username password : str)
    (w : World) (rest : list bool) :
  faults w = true :: rest \/
  (faults w = false :: true :: rest) ->
  exists w',
    authenticate_user str_lower pbkdf2 username password w
    = (Raise OperationalError, w') /\
    db w' = db w.
Proof.
  intros Hf.
  unfold authenticate_user, get_user_by_username, get_connection,
    execute_select_user, try_finally, close, print, storage_call, bind.
  cbn [faults set_stdout]. destruct Hf as [Hf|Hf]; rewrite Hf.
  - eexists. split; reflexivity.
  - unfold ret at 1. cbn [faults set_faults set_stdout].
    eexists. split; reflexivity.
Qed.

End AccountFacts.

Section AccountRefusals.

Context (str_lower : str -> str).
Context (pbkdf2 : bytes -> bytes -> Z -> option bytes).
Context (allot_user_id : Database -> Z).

(** X21.  The two refusals of [create_user].  A role that, lower-cased
    and trimmed, is none of ["admin"], ["doctor"], ["receptionist"]
    raises [ValueError] before a connection is opened: the world is as
    it was, nothing printed, no storage call made.  With an allowed
    role and the storage layer up, a user name that is taken raises
    [ValueError] as well, and the tables are as they were. *)
Theorem create_user_refusals (username password role : str) (w : World) :
  (~ In (py_strip (str_lower role)) ALLOWED_ROLES ->
   create_user str_lower pbkdf2 allot_user_id username password role w
   = (Raise ValueError, w)) /\
  (In (py_strip (str_lower role)) ALLOWED_ROLES ->
   faults w = [] ->
   Utf8.encodable username = true ->
   In username (List.map u_username (users (db w))) ->
   exists w',
     create_user str_lower pbkdf2 allot_user_id username password role w
     = (Raise ValueError, w') /\
     db w' = db w /\ stdout w' = stdout w ++ [ConnectedTo]).
Proof.
  split.
  - intros Hrole. unfold create_user.
    destruct (existsb (str_eqb (py_strip (str_lower role))) ALLOWED_ROLES) eqn:E.
    + apply allowed_role_test in E. contradiction.
    + reflexivity.
  - intros Hrole Hf Hname Htaken.
    apply allowed_role_test in Hrole.
    destruct (List.find (fun r => str_eqb (u_username r) username) (users (db w)))
      as [row|] eqn:Efind.
    2: { apply find_username_none in Efind. contradiction. }
    unfold create_user. rewrite Hrole. cbn [negb].
    unfold get_connection, execute_select_user_id, try_finally, close, print,
      storage_call, bind_text, bind, ret, raise.
    account_run Hf. rewrite Hname. account_run Hf. rewrite Efind. account_run Hf.
    eexists. repeat split.
Qed.

End AccountRefusals.


Lemma split_on_length (sep : Z) (s : str) :
  List.length (split_on sep s)
  = S (List.length (List.filter (Z.eqb sep) s)).
Proof.
  induction s as [|c t IH]; [reflexivity|].
  cbn [split_on List.filter]. rewrite (Z.eqb_sym sep c).
  destruct (c =? sep).
  - cbn [List.length]. rewrite IH. reflexivity.
  - destruct (split_on sep t) as [|h r]; [discriminate IH|].
    cbn [List.length] in *. exact IH.
Qed.

(** X25.  A stored password that is not of the form
    [iterations$salt$hash] verifies against nothing: when it does not
    hold exactly two ["$"], [_verify_password] returns [False] for every
    password offered, the stored text itself included. *)
Theorem verify_password_rejects_malformed
    (pbkdf2 : bytes -> bytes -> Z -> option bytes) (stored provided : str) :
  List.length (List.filter (Z.eqb DOLLAR) stored) <> 2%nat ->
  _verify_password pbkdf2 stored provided = false.
Proof.
  intros Hn. unfold _verify_password.
  pose proof (split_on_length DOLLAR stored) as Hlen.
  destruct (split_on DOLLAR stored) as [|a [|b [|c [|d l]]]]; try reflexivity.
  cbn [List.length] in Hlen. exfalso. apply Hn. lia.
Qed.

Lemma verify_password_rejects_malformed_witness :
  _verify_password toy_pbkdf2 (lit "admin123") (lit "admin123") = false.
Proof.
  apply verify_password_rejects_malformed. cbn. discriminate.
Defined.

Lemma create_user_then_login_witness :
  exists created w1 logged w2,
    create_user ascii_lower toy_pbkdf2 toy_allot
      (lit "nurseK") (lit "pw9") (lit " Receptionist ") sample_world
    = (Ok created, w1) /\
    created !! "user_id"%string = Some (PInt 2) /\
    created !! "password"%string = None /\
    authenticate_user ascii_lower toy_pbkdf2 (lit "nurseK") (lit "pw9") w1
    = (Ok (Some logged), w2) /\
    logged !! "role"%string = Some (PStr (lit "receptionist")).
Proof.
  destruct (create_user_then_login ascii_lower toy_pbkdf2 toy_allot
              (lit "nurseK") (lit "pw9") (lit " Receptionist ") sample_world
              (List.map byte_of_Z (lit "pw9"))
              (byte_of_Z (PBKDF2_ITERATIONS mod 256)
               :: rev (List.map byte_of_Z (lit "pw9")) ++ fresh_salt sample_world)
              eq_refl (or_intror (or_intror (or_introl eq_refl)))
              eq_refl eq_refl eq_refl eq_refl)
    as (created & w1 & logged & w2 & Hrun & -> & Hlogin & _ & Hrole).
  eexists _, w1, logged, w2. split; [exact Hrun|].
  split; [reflexivity|]. split; [reflexivity|].
  split; [exact Hlogin|exact Hrole].
Defined.

Lemma create_user_refusals_witness :
  create_user ascii_lower toy_pbkdf2 toy_allot
    (lit "nurseK") (lit "pw9") (lit "nurse") sample_world
  = (Raise ValueError, sample_world) /\
  exists w',
    create_user ascii_lower toy_pbkdf2 toy_allot
      (lit "drB") (lit "pw9") (lit "Doctor") sample_world
    = (Raise ValueError, w') /\ db w' = db sample_world.
Proof.
  split.
  - apply (create_user_refusals ascii_lower toy_pbkdf2 toy_allot).
    cbn. intuition discriminate.
  - destruct (create_user_refusals ascii_lower toy_pbkdf2 toy_allot
                (lit "drB") (lit "pw9") (lit "Doctor") sample_world) as [_ H].
    destruct H as (w' & Hrun & Hdb & _).
    + right. left. reflexivity.
    + reflexivity.
    + reflexivity.
    + left. reflexivity.
    + exists w'. split; [exact Hrun|exact Hdb].
Defined.

Lemma create_user_keeps_usernames_unique_witness :
  fst (create_user ascii_lower toy_pbkdf2 toy_allot
         (lit "drB") (lit "pw9") (lit "doctor") sample_world)
  = Raise ValueError /\
  List.NoDup
    (List.map u_username
       (users (db (snd (create_user ascii_lower toy_pbkdf2 toy_allot
                          (lit "drB") (lit "pw9") (lit "doctor") sample_world))))).
Proof.
  split; [vm_compute; reflexivity|].
  apply (create_user_keeps_usernames_unique ascii_lower toy_pbkdf2 toy_allot
           (lit "drB") (lit "pw9") (lit "doctor") sample_world _ _
           (surjective_pairing _)).
  repeat constructor. intros [].
Defined.

Lemma change_password_then_login_witness :
  exists w1 logged w2,
    change_password toy_pbkdf2 1 (lit "pw2") sample_world = (Ok true, w1) /\
    authenticate_user ascii_lower toy_pbkdf2 (lit "drB") (lit "pw2") w1
    = (Ok (Some logged), w2).
Proof.
  destruct (change_password_then_login ascii_lower toy_pbkdf2
              (lit "drB") (lit "pw2")
              (mk_user 1 (lit "drB") drB_artifact (lit "doctor")) sample_world
              (List.map byte_of_Z (lit "pw2"))
              (byte_of_Z (PBKDF2_ITERATIONS mod 256)
               :: rev (List.map byte_of_Z (lit "pw2")) ++ fresh_salt sample_world)
              eq_refl eq_refl eq_refl eq_refl eq_refl eq_refl)
    as (w1 & logged & w2 & Hrun & Hlogin & _).
  exists w1, logged, w2. split; [exact Hrun|exact Hlogin].
Defined.

Lemma authenticate_user_lookup_failure_witness :
  exists w',
    authenticate_user ascii_lower toy_pbkdf2 (lit "drB") (lit "pw1")
      (set_faults sample_world [true])
    = (Raise OperationalError, w') /\
    db w' = db sample_world.
Proof.
  apply (authenticate_user_lookup_failure ascii_lower toy_pbkdf2
           (lit "drB") (lit "pw1") (set_faults sample_world [true]) []).
  left. reflexivity.
Defined.

(** ** The audit trail of a login *)

Section LoginAudit.

Context (str_lower : str -> str).
Context (pbkdf2 : bytes -> bytes -> Z -> option bytes).

(** The tag ["login"] is in lower case already. *)
Hypothesis lower_login : str_lower (lit "login") = lit "login".

Lemma normalize_login :
  normalize_action str_lower (Some (lit "login")) = lit "login".
Proof.
  unfold normalize_action. cbn [default from_option id].
  rewrite lower_login. reflexivity.
Qed.

(** X26.  Every login attempt leaves one audit entry.  With the storage
    layer up and text that SQLite can store, [authenticate_user]
    returns the account when the name is known and the password
    verifies, and [None] otherwise, and appends exactly one entry of
    action ["login"], stamped with the clock: the key and role of the
    account and ["<name> logged in"] on success, ["LOGIN_FAILED
    username=<name>"] on failure, with no key and the role ["unknown"]
    when the name is not known. *)
Theorem login_audit_trail (username password : str) (w : World) :
  faults w = [] ->
  Utf8.encodable username = true ->
  (forall row, In row (users (db w)) -> Utf8.encodable (u_role row) = true) ->
  let found :=
    List.find (fun r => str_eqb (u_username r) username) (users (db w)) in
  let verified :=
    match found with
    | Some row => _verify_password pbkdf2 (u_password row) password
    | None => false
    end in
  exists w',
    authenticate_user str_lower pbkdf2 username password w
    = (Ok (if verified then option_map user_dict found else None), w') /\
    users (db w') = users (db w) /\
    patients (db w') = patients (db w) /\
    logs (db w')
    = logs (db w)
      ++ [mk_log (option_map u_user_id found)
            (match found with Some row => u_role row | None => lit "unknown" end)
            (lit "login")
            (Datetime.strftime (clock w (ticks w)))
            (if verified then username ++ lit " logged in"
             else lit "LOGIN_FAILED username=" ++ username)].
Proof.
  intros Hf Hname Hroles found verified.
  unfold authenticate_user. unfold bind at 1.
  rewrite (get_user_by_username_healthy username w Hf Hname).
  fold found. subst verified.
  set (w1 := set_stdout w (stdout w ++ [ConnectedTo])).
  assert (Hf1 : faults w1 = []) by exact Hf.
  destruct found as [row|] eqn:Efound; cbn [option_map].
  - assert (Hrole : Utf8.encodable (u_role row) = true).
    { apply Hroles. apply (find_some _ _ Efound). }
    rewrite user_dict_truthy.
    unfold getitem at 1. unfold lift at 1. unfold bind at 1.
    rewrite user_dict_password. cbn [of_option verify_stored].
    destruct (_verify_password pbkdf2 (u_password row) password).
    + destruct (log_action_healthy str_lower (Some (u_user_id row)) (u_role row)
                  (Some (lit "login")) (username ++ lit " logged in") w1 Hf1 Hrole)
        as (w2 & Hlog & Hdb & _).
      { rewrite normalize_login. reflexivity. }
      { rewrite encodable_app, Hname, lit_encodable. reflexivity. }
      unfold bind at 1. unfold ignoring, try_except, bind, getitem, lift.
      rewrite user_dict_user_id, user_dict_role.
      cbn [of_option as_str as_id]. unfold ret at 1. rewrite Hlog.
      exists w2. split; [reflexivity|]. rewrite Hdb, normalize_login.
      repeat split; reflexivity.
    + destruct (log_action_healthy str_lower (Some (u_user_id row)) (u_role row)
                  (Some (lit "login")) (lit "LOGIN_FAILED username=" ++ username)
                  w1 Hf1 Hrole)
        as (w2 & Hlog & Hdb & _).
      { rewrite normalize_login. reflexivity. }
      { rewrite encodable_app, Hname, lit_encodable. reflexivity. }
      unfold bind at 1.
      unfold log_failed_login, ignoring, try_except, bind, getitem, lift.
      rewrite user_dict_truthy, user_dict_user_id, user_dict_role.
      cbn [of_option as_str as_id]. unfold ret. cbv beta iota. rewrite Hlog.
      exists w2. split; [reflexivity|]. rewrite Hdb, normalize_login.
      repeat split; reflexivity.
  - destruct (log_action_healthy str_lower None (lit "unknown")
                (Some (lit "login")) (lit "LOGIN_FAILED username=" ++ username)
                w1 Hf1 (lit_encodable _))
      as (w2 & Hlog & Hdb & _).
    { rewrite normalize_login. reflexivity. }
    { rewrite encodable_app, Hname, lit_encodable. reflexivity. }
    unfold bind at 1.
    unfold log_failed_login, ignoring, try_except, bind.
    unfold ret. cbv beta iota. rewrite Hlog.
    exists w2. split; [reflexivity|]. rewrite Hdb, normalize_login.
    repeat split; reflexivity.
Qed.

End LoginAudit.

Section LoginSafety.

Context (str_lower : str -> str).
Context (pbkdf2 : bytes -> bytes -> Z -> option bytes).

Lemma get_user_by_username_db (username : str) (w w' : World)
    (r : result (option (gmap string pyval))) :
  get_user_by_username username w = (r, w') -> db w' = db w.
Proof.
  unfold get_user_by_username, get_connection, try_finally,
    execute_select_user, close, bind, print, storage_call, bind_text, ret, raise.
  run_cases; intros [= <- <-]; reflexivity.
Qed.

Lemma ignoring_log_outcome (prelude : M (option Z * str)) (action : option str)
    (details : str) (w : World) :
  (forall w0 r w1, prelude w0 = (r, w1) -> w1 = w0) ->
  exists w',
    ignoring (p <- prelude ;;
              log_action str_lower (fst p) (snd p) action details) w
    = (Ok tt, w') /\
    users (db w') = users (db w) /\
    patients (db w') = patients (db w) /\
    (logs (db w') = logs (db w) \/
     exists entry,
       logs (db w') = logs (db w) ++ [entry] /\
       l_action entry = normalize_action str_lower action /\
       l_details entry = details).
Proof.
  intros Hpure. unfold ignoring, try_except, bind.
  destruct (prelude w) as [[p|e] w1] eqn:E; apply Hpure in E; subst w1.
  - destruct (log_action_outcome str_lower (fst p) (snd p) action details w)
      as (w' & Hrun & Hu & Hp & _ & _ & _ & Hlog).
    rewrite Hrun. exists w'. split; [reflexivity|].
    split; [exact Hu|]. split; [exact Hp|].
    destruct Hlog as [[Hl _]|[[ts Hl] _]]; [left; exact Hl|].
    right. eexists. split; [exact Hl|]. split; reflexivity.
  - exists w. unfold ret. repeat split; try reflexivity. left. reflexivity.
Qed.

(** X27.  A login attempt can add to the audit log and do nothing else
    to the store: whatever the storage layer does and whether
    [authenticate_user] returns or raises, users and patients are as
    they were, and the audit log is as it was or longer by one entry of
    action ["login"]. *)
Theorem authenticate_user_only_appends_audit (username password : str)
    (w w' : World) (r : result (option (gmap string pyval))) :
  authenticate_user str_lower pbkdf2 username password w = (r, w') ->
  users (db w') = users (db w) /\
  patients (db w') = patients (db w) /\
  (logs (db w') = logs (db w) \/
   exists entry,
     logs (db w') = logs (db w) ++ [entry] /\
     l_action entry = normalize_action str_lower (Some (lit "login"))).
Proof.
  unfold authenticate_user. unfold bind at 1.
  destruct (get_user_by_username username w) as [[user|e] w1] eqn:Elook;
    apply get_user_by_username_db in Elook.
  2: { intros [= <- <-]. rewrite Elook. repeat split. left. reflexivity. }
  assert (Hfail : forall w2 (r2 : result (option (gmap string pyval))),
            (log_failed_login str_lower user username ;;; ret None) w1 = (r2, w2) ->
            users (db w2) = users (db w) /\
            patients (db w2) = patients (db w) /\
            (logs (db w2) = logs (db w) \/
             exists entry,
               logs (db w2) = logs (db w) ++ [entry] /\
               l_action entry = normalize_action str_lower (Some (lit "login")))).
  { intros w2 r2. unfold bind at 1.
    pose (prelude :=
            (uid <- match user with
                    | Some u => if dict_truthy u
                                then v <- getitem u "user_id" ;; ret (as_id v)
                                else ret None
                    | None => ret None
                    end ;;
             role <- match user with
                     | Some u => if dict_truthy u
                                 then v <- getitem u "role" ;; as_str v
                                 else ret (lit "unknown")
                     | None => ret (lit "unknown")
                     end ;;
             ret (uid, role)) : M (option Z * str)).
    destruct (ignoring_log_outcome prelude
                (Some (lit "login")) (lit "LOGIN_FAILED username=" ++ username) w1)
      as (w3 & Hrun & Hu & Hp & Hl).
    { intros w0 r0 w4. unfold prelude, bind, getitem, lift, as_str, ret, raise.
      destruct user as [u|]; [destruct (dict_truthy u)|];
        repeat match goal with
          | |- context [of_option _ ?o] => destruct o as [[]|]; cbn
          end; cbn; intros [= <- <-]; reflexivity. }
    assert (Esame : log_failed_login str_lower user username w1 = (Ok tt, w3)).
    { rewrite <- Hrun.
      unfold prelude, log_failed_login, ignoring, try_except, bind, getitem,
        lift, as_str, ret, raise.
      destruct user as [u|]; [destruct (dict_truthy u)|];
        repeat match goal with
          | |- context [of_option _ ?o] => destruct o as [[]|]; cbn
          end; reflexivity. }
    rewrite Esame. unfold ret. intros [= <- <-].
    rewrite Hu, Hp, Elook. split; [reflexivity|]. split; [reflexivity|].
    destruct Hl as [Hl|(entry & Hl & Ha & _)]; rewrite Hl, Elook;
      [left; reflexivity|right; exists entry; split; [reflexivity|exact Ha]]. }
  destruct user as [u|]; [|apply Hfail].
  destruct (dict_truthy u); [|apply Hfail].
  unfold getitem at 1. unfold lift at 1. unfold bind at 1.
  destruct (u !! "password"%string) as [stored|]; cbn [of_option].
  2: { intros [= <- <-]. rewrite Elook. repeat split. left. reflexivity. }
  destruct (verify_stored pbkdf2 stored password); [|apply Hfail].
  unfold bind at 1.
  destruct (ignoring_log_outcome
              (uid <- getitem u "user_id" ;;
               role <- getitem u "role" ;;
               role <- as_str role ;;
               ret (as_id uid, role))
              (Some (lit "login")) (username ++ lit " logged in") w1)
    as (w3 & Hrun & Hu & Hp & Hl).
  { intros w0 r0 w4. unfold bind, getitem, lift, as_str, ret, raise.
    repeat match goal with
      | |- context [of_option _ ?o] => destruct o as [[]|]; cbn
      end; cbn; intros [= <- <-]; reflexivity. }
  match goal with
  | |- context [ignoring ?m w1] =>
      assert (Esame : ignoring m w1 = (Ok tt, w3))
  end.
  { rewrite <- Hrun. unfold ignoring, try_except, bind, getitem, lift, as_str,
      ret, raise.
    repeat match goal with
      | |- context [of_option _ ?o] => destruct o as [[]|]; cbn
      end; reflexivity. }
  rewrite Esame. unfold ret. intros [= <- <-].
  rewrite Hu, Hp, Elook. split; [reflexivity|]. split; [reflexivity|].
  destruct Hl as [Hl|(entry & Hl & Ha & _)]; rewrite Hl, Elook;
    [left; reflexivity|right; exists entry; split; [reflexivity|exact Ha]].
Qed.

End LoginSafety.

Lemma sample_roles (row : user_row) :
  In row (users (db sample_world)) -> Utf8.encodable (u_role row) = true.
Proof. intros [<-|[]]. reflexivity. Qed.

Lemma login_audit_trail_witness :
  exists w',
    authenticate_user ascii_lower toy_pbkdf2 (lit "drB") (lit "guess") sample_world
    = (Ok None, w') /\
    logs (db w')
    = [mk_log (Some 1) (lit "doctor") (lit "login") (lit "2026-11-04 10:30:00")
         (lit "LOGIN_FAILED username=drB")].
Proof.
  destruct (login_audit_trail ascii_lower toy_pbkdf2 eq_refl
              (lit "drB") (lit "guess") sample_world eq_refl eq_refl sample_roles)
    as (w' & Hrun & _ & _ & Hlogs).
  exists w'. split; [exact Hrun|exact Hlogs].
Defined.

Lemma authenticate_user_only_appends_audit_witness :
  users (db (snd (authenticate_user ascii_lower toy_pbkdf2 (lit "drB") (lit "pw1")
                    (set_faults sample_world [false; false; true]))))
  = users (db sample_world).
Proof.
  apply (authenticate_user_only_appends_audit ascii_lower toy_pbkdf2
           (lit "drB") (lit "pw1") (set_faults sample_world [false; false; true])
           _ _ (surjective_pairing _)).
Defined.
